(** * The Direct3D 11 atlas backend of the terminal renderer

    A shallow embedding of [src/renderer/atlas/BackendD3D11.cpp]: the quad
    batcher ([_appendRect], [_bumpInstancesSize], [_flushRects]), the sizing
    of the glyph atlas ([_resetAtlasAndBeginDraw]), the generation tracker at
    the head of [Render], the text pass with its pack-failure retry, the
    cursor pass, and the custom shader stage ([_recreateCustomShader]).

    The class is one record, [BackendD3D11]; its member functions take the
    record and return the updated one.  Calls into Direct3D, Direct2D and
    DirectWrite are appended to a log of device calls, in program order.
    A thrown exception, a read or write outside an array, and running out of
    fuel in the one loop that need not terminate are the three ways in which
    a member function yields no state. *)

From Stdlib Require Import ZArith Lia Bool.
From Stdlib Require Import Floats.SpecFloat.
From stdpp Require Import base option list finite gmap.

Set Default Proof Using "Type".
Local Open Scope Z_scope.

(** ** Machine integers *)

Definition u16 := Z.
Definition u32 := Z.
Definition i16 := Z.
Definition i32 := Z.

Definition UINT_MAX : Z := 4294967295.
Definition U16_MAX : Z := 65535.

(** [gsl::narrow_cast<u32>] and arithmetic on [u32]: reduction modulo 2^32. *)
Definition wrap32 (z : Z) : u32 := z mod 4294967296.

(** Arithmetic on [int], the type of a product of two [u16] and of the
    coordinates of a [til::rect]: the result reduced to 32 bits, two's
    complement. *)
Definition INT_MIN : Z := -2147483648.
Definition INT_MAX : Z := 2147483647.
Definition wrap_int (z : Z) : i32 := (z + 2147483648) mod 4294967296 - 2147483648.

(** [size_t] arithmetic: reduction modulo 2^64. *)
Definition wrap64 (z : Z) : Z := z mod 18446744073709551616.

(** [::base::saturated_cast<u16>] of an unsigned value. *)
Definition saturated_cast_u16 (z : Z) : u16 :=
  if z <? 0 then 0 else if U16_MAX <? z then U16_MAX else z.

(** ** Results of member functions *)

Inductive failure :=
| NarrowingError   (* gsl::narrow threw *)
| OutOfBounds      (* an array or vector was indexed outside its extent *)
| OutOfFuel.       (* the loop did not finish within the given fuel *)

Inductive res (A : Type) :=
| Ok (a : A)
| Fail (f : failure).
Arguments Ok {A} a.
Arguments Fail {A} f.

#[global] Instance res_ret : MRet res := fun A a => Ok a.

#[global] Instance res_bind : MBind res := fun A B k m =>
  match m with
  | Ok a => k a
  | Fail f => Fail f
  end.

Definition is_Ok {A : Type} (r : res A) : bool :=
  match r with
  | Ok _ => true
  | Fail _ => false
  end.

(** The state a member function returned, [d] if it failed. *)
Definition res_get {A : Type} (d : A) (r : res A) : A :=
  match r with
  | Ok a => a
  | Fail _ => d
  end.

(** [gsl::narrow<UINT>]: throws unless the value survives the conversion. *)
Definition narrow_UINT (z : Z) : res Z :=
  if (0 <=? z) && (z <=? UINT_MAX) then Ok z else Fail NarrowingError.

(** ** Single precision floats

    [f32] is IEEE 754 binary32: 24 bits of precision, exponents up to 128,
    every operation rounded to nearest even. *)

Definition f32 := spec_float.
Definition f32_prec : Z := 24.
Definition f32_emax : Z := 128.

Definition f32_add : f32 -> f32 -> f32 := SFadd f32_prec f32_emax.
Definition f32_sub : f32 -> f32 -> f32 := SFsub f32_prec f32_emax.
Definition f32_mul : f32 -> f32 -> f32 := SFmul f32_prec f32_emax.
Definition f32_div : f32 -> f32 -> f32 := SFdiv f32_prec f32_emax.
Definition f32_ltb : f32 -> f32 -> bool := SFltb.
Definition f32_leb : f32 -> f32 -> bool := SFleb.

(** [static_cast<f32>] of an integer. *)
Definition f32_of_Z (z : Z) : f32 := binary_normalize f32_prec f32_emax z 0 false.

Definition f32_zero : f32 := S754_zero false.
Definition f32_one : f32 := f32_of_Z 1.

(** [std::max(a, b)] is [(a < b) ? b : a]; [std::min(a, b)] is
    [(b < a) ? b : a]. *)
Definition f32_max (a b : f32) : f32 := if f32_ltb a b then b else a.
Definition f32_min (a b : f32) : f32 := if f32_ltb b a then b else a.

(** The integer below a finite float, for [floorf], [ceilf] and the
    conversion to [int]. *)
Definition f32_floor_Z (x : f32) : option Z :=
  match x with
  | S754_zero _ => Some 0
  | S754_finite s m e =>
      let v := if s then Z.neg m else Z.pos m in
      Some (if 0 <=? e then v * 2 ^ e else v / 2 ^ (- e))
  | _ => None
  end.

Definition f32_ceil_Z (x : f32) : option Z :=
  match x with
  | S754_zero _ => Some 0
  | S754_finite s m e =>
      let v := if s then Z.neg m else Z.pos m in
      Some (if 0 <=? e then v * 2 ^ e else - ((- v) / 2 ^ (- e)))
  | _ => None
  end.

Definition floorf (x : f32) : f32 :=
  match f32_floor_Z x with
  | Some z => match x with S754_zero _ => x | _ => f32_of_Z z end
  | None => x
  end.

Definition ceilf (x : f32) : f32 :=
  match f32_ceil_Z x with
  | Some z => match x with S754_zero _ => x | _ => f32_of_Z z end
  | None => x
  end.

(** [gsl::narrow_cast<int>] of a float truncates towards zero.  A value that
    no [int] holds (too large, an infinity, a NaN) converts to [INT_MIN], the
    result of the conversion instruction (cvttss2si) for every such value. *)
Definition f32_to_int (x : f32) : i32 :=
  let truncated := match x with
                   | S754_finite true _ _ => f32_ceil_Z x
                   | _ => f32_floor_Z x
                   end in
  match truncated with
  | Some z => if (INT_MIN <=? z) && (z <=? INT_MAX) then z else INT_MIN
  | None => INT_MIN
  end.

(** ** Vectors and rectangles *)

Record u16x2 := mk_u16x2 { x2 : u16; y2 : u16 }.
Record f32x4 := mk_f32x4 { x4 : f32; y4 : f32; z4 : f32; w4 : f32 }.
Record f32r := mk_f32r { left : f32; top : f32; right : f32; bottom : f32 }.
Record rect := mk_rect { r_left : i32; r_top : i32; r_right : i32; r_bottom : i32 }.

Definition f32x4_zero : f32x4 := mk_f32x4 f32_zero f32_zero f32_zero f32_zero.

Definition u16x2_eqb (a b : u16x2) : bool :=
  (x2 a =? x2 b) && (y2 a =? y2 b).

(** [til::rect::non_empty]. *)
Definition non_empty (r : rect) : bool :=
  (r_left r <? r_right r) && (r_top r <? r_bottom r).

(** ** Shading types and quads *)

Inductive ShadingType :=
| Background
| TextGrayscale
| TextClearType
| Passthrough
| PassthroughInvert
| DashedLine
| SolidFill.

Definition ShadingType_eqb (a b : ShadingType) : bool :=
  match a, b with
  | Background, Background | TextGrayscale, TextGrayscale
  | TextClearType, TextClearType | Passthrough, Passthrough
  | PassthroughInvert, PassthroughInvert | DashedLine, DashedLine
  | SolidFill, SolidFill => true
  | _, _ => false
  end.

(** One element of the staging array [_instances].  The field [shadingType]
    holds the enumerator that [_appendRect] casts to [u32]. *)
Record QuadInstance := mk_QuadInstance {
  position : f32x4;
  texcoord : f32x4;
  color : u32;
  shadingType : ShadingType;
}.

(** One element of the vector [_vertexInstanceData] that the cursor pass
    reads and extends. *)
Record VertexInstanceData := mk_VertexInstanceData {
  v_rect : f32x4;
  v_tex : f32x4;
  v_color : u32;
  v_shadingType : ShadingType;
}.

(** ** Buffers

    [Buffer<T>{ n }] allocates [n] elements and gives them no value: a slot
    is [None] until it is written. *)

Abbreviation Buffer T := (list (option T)) (only parsing).

Definition Buffer_new {T : Type} (n : nat) : Buffer T := replicate n None.

(** [b[i] = v]; outside the extent there is no element to write. *)
Definition Buffer_store {T : Type} (b : Buffer T) (i : nat) (v : T) : res (Buffer T) :=
  if decide (i < length b)%nat then Ok (<[i := Some v]> b) else Fail OutOfBounds.

(** [b[i]] as an rvalue. *)
Definition vector_at {T : Type} (l : list T) (i : nat) : res T :=
  match l !! i with
  | Some v => Ok v
  | None => Fail OutOfBounds
  end.

(** ** The owned device objects

    Every [wil::com_ptr] member of the class.  A pointer is null until an
    object is put into it; the object is named by the position, in the log of
    device calls, of the call that created it. *)

Inductive ComPtr :=
| _renderTargetView
| _constantBuffer
| _vertexShader
| _textPixelShader
| _textBlendState
| _textInputLayout
| _textRenderingParams
| _backgroundBitmapSamplerState
| _backgroundBitmap
| _backgroundBitmapView
| _customOffscreenTexture
| _customOffscreenTextureView
| _customOffscreenTextureTargetView
| _customVertexShader
| _customPixelShader
| _customShaderConstantBuffer
| _customShaderSamplerState
| _d2dRenderTarget
| _d2dRenderTarget4
| _glyphAtlas
| _glyphAtlasView
| _brush
| _instanceBuffer
| _instanceBufferView
| _indexBuffer.

#[global] Instance ComPtr_eq_dec : EqDecision ComPtr.
Proof. solve_decision. Defined.

Definition ComPtr_all : list ComPtr :=
  [ _renderTargetView; _constantBuffer; _vertexShader; _textPixelShader;
    _textBlendState; _textInputLayout; _textRenderingParams;
    _backgroundBitmapSamplerState; _backgroundBitmap; _backgroundBitmapView;
    _customOffscreenTexture; _customOffscreenTextureView;
    _customOffscreenTextureTargetView; _customVertexShader;
    _customPixelShader; _customShaderConstantBuffer;
    _customShaderSamplerState; _d2dRenderTarget; _d2dRenderTarget4;
    _glyphAtlas; _glyphAtlasView; _brush; _instanceBuffer;
    _instanceBufferView; _indexBuffer ].

#[global, program] Instance ComPtr_finite : Finite ComPtr :=
  {| enum := ComPtr_all |}.
Next Obligation. by apply (bool_decide_unpack _). Qed.
Next Obligation. intros []; by apply (bool_decide_unpack _). Qed.

(** ** The log of device calls *)

(** The member functions that rebuild a resource for the generation tracker:
    [_recreateBackgroundBitmapSamplerState], [_recreateCustomShader],
    [_recreateCustomOffscreenTexture], [_recreateBackgroundColorBitmap] and
    [_recreateConstBuffer]. *)
Inductive Rebuilt :=
| BackgroundBitmapSamplerState
| CustomShader
| CustomOffscreenTexture
| BackgroundColorBitmap
| ConstBuffer.

Inductive Call :=
(* entry into one of the rebuilding member functions *)
| Recreate (r : Rebuilt)
(* the swap chain manager *)
| UpdateSwapChainSettings
| GetBuffer
| Present
(* ID3D11Device *)
| CreateRenderTargetView (target : ComPtr)
| CreateSamplerState (target : ComPtr)
| CreateTexture2D (target : ComPtr) (Width Height : Z)
| CreateShaderResourceView (target : ComPtr)
| CreateBuffer (target : ComPtr) (ByteWidth : Z)
| CreatePixelShader (target : ComPtr)
| CreateVertexShader (target : ComPtr)
| CreateBlendState1 (target : ComPtr)
| CreateInputLayout (target : ComPtr)
(* ID3D11DeviceContext *)
| ClearState
| Flush
| UpdateSubresource (target : ComPtr)
| IASetPrimitiveTopology
| IASetIndexBuffer
| VSSetShader
| VSSetConstantBuffers
| VSSetShaderResources
| RSSetViewports (Width Height : f32)
| PSSetShader
| PSSetConstantBuffers
| PSSetSamplers
| PSSetShaderResources
| OMSetBlendState
| OMSetRenderTargets
| Map_WRITE_DISCARD (target : ComPtr)
| memcpy_u32 (data : list (option u32))
| memcpy_QuadInstance (data : list (option QuadInstance))
| Unmap (target : ComPtr)
| DrawIndexed (IndexCount : Z)
(* the shader compiler *)
| D3DCompileFromFile
| D3DReflect
| warningCallback
(* DirectWrite and Direct2D *)
| DWrite_GetRenderParams
| CreateDxgiSurfaceRenderTarget
| SetAntialiasMode
| SetTextRenderingParams
| SetDpi
| SetTextAntialiasMode
| CreateSolidColorBrush
| BeginDraw
| EndDraw
| Clear
| DrawGlyphRun (fontFace : nat) (glyphIndex : Z).

(** ** The rendering payload *)

Inductive AntialiasingMode := CLEARTYPE | GRAYSCALE | ALIASED.

Record FontSettings := mk_FontSettings {
  cellSize : u16x2;
  baselineInDIP : f32;
  thinLineWidth : u16;
  underlinePos : u16;
  underlineWidth : u16;
  doubleUnderlinePos : u16x2;
  strikethroughPos : u16;
  strikethroughWidth : u16;
  dpi : f32;
  antialiasingMode : AntialiasingMode;
}.

Record MiscSettings := mk_MiscSettings {
  backgroundColor : u32;
  selectionColor : u32;
  customPixelShaderPath : list Z;      (* a wide string *)
  useRetroTerminalEffect : bool;
}.

Record CursorSettings := mk_CursorSettings {
  cursorColor : u32;
}.

(** [p.s]: the settings, each group with its generation counter. *)
Record Settings := mk_Settings {
  generation : Z;
  font : FontSettings;
  font_generation : Z;
  misc : MiscSettings;
  misc_generation : Z;
  cursor : CursorSettings;
  targetSize : u16x2;
  cellCount : u16x2;
}.

(** [p.d.font]. *)
Record DerivedFont := mk_DerivedFont {
  cellSizeDIP_y : f32;
  pixelPerDIP : f32;
  dipPerPixel : f32;
}.

Record FontMapping := mk_FontMapping {
  m_fontFace : nat;
  fontEmSize : f32;
  glyphsFrom : nat;
  glyphsTo : nat;
}.

Record GlyphOffset := mk_GlyphOffset {
  advanceOffset : f32;
  ascenderOffset : f32;
}.

Inductive GridLines :=
| Left | Top | Right | Bottom
| Underline | HyperlinkUnderline | DoubleUnderline | Strikethrough.

Record GridLineRange := mk_GridLineRange {
  lines : GridLines -> bool;           (* [lines.test] *)
  gl_color : u32;
  from : Z;
  to : Z;
}.

Record ShapedRow := mk_ShapedRow {
  mappings : list FontMapping;
  glyphIndices : list Z;
  glyphAdvances : list f32;
  glyphOffsets : list GlyphOffset;
  colors : list u32;
  gridLineRanges : list GridLineRange;
  selectionFrom : Z;
  selectionTo : Z;
}.

Record RenderingPayload := mk_RenderingPayload {
  s : Settings;
  d_font : DerivedFont;
  rows : list ShapedRow;
  backgroundBitmap : list u32;
  cursorRect : rect;
  has_warningCallback : bool;
}.

Definition INVALID_COLOR : u32 := 4294967295.

(** ** The glyph cache, the rectangle packer and the collaborators *)

Record GlyphCacheEntry := mk_GlyphCacheEntry {
  e_shadingType : option ShadingType;  (* [None] is the value 0 *)
  e_offset_x : i16;
  e_offset_y : i16;
  e_texcoord : f32x4;
}.

(** The [stbrp_context]: the target given to [stbrp_init_target] and the
    rectangles placed in it since, as [(x, y, w, h)]. *)
Record stbrp_context := mk_stbrp_context {
  width : Z;
  height : Z;
  placed : list (Z * Z * Z * Z);
}.

Definition stbrp_init_target (w h : Z) : stbrp_context :=
  mk_stbrp_context w h [].

Record RenderParams := mk_RenderParams {
  _gamma : f32;
  _cleartypeEnhancedContrast : f32;
  _grayscaleEnhancedContrast : f32;
}.

(** What [UpdateSwapChainSettings] asks of the backend. *)
Inductive SwapChainChange := Unchanged | PrepareResize | PrepareRecreate.

(** What the reflection of a compiled shader yields, call by call. *)
Inductive Reflection :=
| ReflectFailed                       (* D3DReflect failed *)
| NoConstantBuffer                    (* GetConstantBufferByIndex(0) is null *)
| NoVariable                          (* GetVariableByIndex(0) is null *)
| GetDescFailed                       (* GetDesc failed *)
| VariableDesc (uFlags : Z).

(** The answers of the code that is called but is not part of the backend:
    the swap chain manager, DirectWrite, the shader compiler, the glyph
    rasterizer and the skyline packer of stb_rect_pack. *)
Record Platform := mk_Platform {
  swapChainChange : SwapChainChange;
  renderParams : RenderParams;
  compileSucceeded : bool;
  reflection : Reflection;
  getGlyphRunBlackBox : nat -> Z -> f32 -> f32r;
  drawGlyphRun_colorGlyph : nat -> Z -> bool;
  stbrp_pack_rects : stbrp_context -> Z -> Z -> option (Z * Z);
}.

(** ** The backend *)

Record BackendD3D11 := mk_BackendD3D11 {
  _generation : Z;
  _fontGeneration : Z;
  _miscGeneration : Z;
  _targetSize : u16x2;
  _cellCount : u16x2;
  ptrs : gmap ComPtr nat;
  _renderParams : RenderParams;
  _requiresContinuousRedraw : bool;
  _rectPacker : stbrp_context;
  _glyphCache : gmap (nat * Z) GlyphCacheEntry;
  beganDrawing : bool;
  _brushColor : u32;
  _instances : Buffer QuadInstance;
  _indices : Buffer u32;
  _instancesSize : nat;
  _indicesSize : nat;
  _instanceBufferSize : nat;
  _indexBufferSize : nat;
  _vertexInstanceData : list VertexInstanceData;
  calls : list Call;
}.

(** Assignment to one member. *)
Definition set_generation (v : Z) (b : BackendD3D11) : BackendD3D11 :=
  mk_BackendD3D11
    v (_fontGeneration b) (_miscGeneration b) (_targetSize b) (_cellCount b)
    (ptrs b) (_renderParams b) (_requiresContinuousRedraw b) (_rectPacker b)
    (_glyphCache b) (beganDrawing b) (_brushColor b) (_instances b)
    (_indices b) (_instancesSize b) (_indicesSize b) (_instanceBufferSize b)
    (_indexBufferSize b) (_vertexInstanceData b) (calls b).
Definition set_fontGeneration (v : Z) (b : BackendD3D11) : BackendD3D11 :=
  mk_BackendD3D11
    (_generation b) v (_miscGeneration b) (_targetSize b) (_cellCount b)
    (ptrs b) (_renderParams b) (_requiresContinuousRedraw b) (_rectPacker b)
    (_glyphCache b) (beganDrawing b) (_brushColor b) (_instances b)
    (_indices b) (_instancesSize b) (_indicesSize b) (_instanceBufferSize b)
    (_indexBufferSize b) (_vertexInstanceData b) (calls b).
Definition set_miscGeneration (v : Z) (b : BackendD3D11) : BackendD3D11 :=
  mk_BackendD3D11
    (_generation b) (_fontGeneration b) v (_targetSize b) (_cellCount b)
    (ptrs b) (_renderParams b) (_requiresContinuousRedraw b) (_rectPacker b)
    (_glyphCache b) (beganDrawing b) (_brushColor b) (_instances b)
    (_indices b) (_instancesSize b) (_indicesSize b) (_instanceBufferSize b)
    (_indexBufferSize b) (_vertexInstanceData b) (calls b).
Definition set_targetSize (v : u16x2) (b : BackendD3D11) : BackendD3D11 :=
  mk_BackendD3D11
    (_generation b) (_fontGeneration b) (_miscGeneration b) v (_cellCount b)
    (ptrs b) (_renderParams b) (_requiresContinuousRedraw b) (_rectPacker b)
    (_glyphCache b) (beganDrawing b) (_brushColor b) (_instances b)
    (_indices b) (_instancesSize b) (_indicesSize b) (_instanceBufferSize b)
    (_indexBufferSize b) (_vertexInstanceData b) (calls b).
Definition set_cellCount (v : u16x2) (b : BackendD3D11) : BackendD3D11 :=
  mk_BackendD3D11
    (_generation b) (_fontGeneration b) (_miscGeneration b) (_targetSize b) v
    (ptrs b) (_renderParams b) (_requiresContinuousRedraw b) (_rectPacker b)
    (_glyphCache b) (beganDrawing b) (_brushColor b) (_instances b)
    (_indices b) (_instancesSize b) (_indicesSize b) (_instanceBufferSize b)
    (_indexBufferSize b) (_vertexInstanceData b) (calls b).
Definition set_ptrs (v : gmap ComPtr nat) (b : BackendD3D11) : BackendD3D11 :=
  mk_BackendD3D11
    (_generation b) (_fontGeneration b) (_miscGeneration b) (_targetSize b)
    (_cellCount b) v (_renderParams b) (_requiresContinuousRedraw b)
    (_rectPacker b) (_glyphCache b) (beganDrawing b) (_brushColor b)
    (_instances b) (_indices b) (_instancesSize b) (_indicesSize b)
    (_instanceBufferSize b) (_indexBufferSize b) (_vertexInstanceData b)
    (calls b).
Definition set_renderParams (v : RenderParams) (b : BackendD3D11) : BackendD3D11 :=
  mk_BackendD3D11
    (_generation b) (_fontGeneration b) (_miscGeneration b) (_targetSize b)
    (_cellCount b) (ptrs b) v (_requiresContinuousRedraw b) (_rectPacker b)
    (_glyphCache b) (beganDrawing b) (_brushColor b) (_instances b)
    (_indices b) (_instancesSize b) (_indicesSize b) (_instanceBufferSize b)
    (_indexBufferSize b) (_vertexInstanceData b) (calls b).
Definition set_requiresContinuousRedraw (v : bool) (b : BackendD3D11) : BackendD3D11 :=
  mk_BackendD3D11
    (_generation b) (_fontGeneration b) (_miscGeneration b) (_targetSize b)
    (_cellCount b) (ptrs b) (_renderParams b) v (_rectPacker b)
    (_glyphCache b) (beganDrawing b) (_brushColor b) (_instances b)
    (_indices b) (_instancesSize b) (_indicesSize b) (_instanceBufferSize b)
    (_indexBufferSize b) (_vertexInstanceData b) (calls b).
Definition set_rectPacker (v : stbrp_context) (b : BackendD3D11) : BackendD3D11 :=
  mk_BackendD3D11
    (_generation b) (_fontGeneration b) (_miscGeneration b) (_targetSize b)
    (_cellCount b) (ptrs b) (_renderParams b) (_requiresContinuousRedraw b) v
    (_glyphCache b) (beganDrawing b) (_brushColor b) (_instances b)
    (_indices b) (_instancesSize b) (_indicesSize b) (_instanceBufferSize b)
    (_indexBufferSize b) (_vertexInstanceData b) (calls b).
Definition set_glyphCache (v : gmap (nat * Z) GlyphCacheEntry) (b : BackendD3D11) : BackendD3D11 :=
  mk_BackendD3D11
    (_generation b) (_fontGeneration b) (_miscGeneration b) (_targetSize b)
    (_cellCount b) (ptrs b) (_renderParams b) (_requiresContinuousRedraw b)
    (_rectPacker b) v (beganDrawing b) (_brushColor b) (_instances b)
    (_indices b) (_instancesSize b) (_indicesSize b) (_instanceBufferSize b)
    (_indexBufferSize b) (_vertexInstanceData b) (calls b).
Definition set_beganDrawing (v : bool) (b : BackendD3D11) : BackendD3D11 :=
  mk_BackendD3D11
    (_generation b) (_fontGeneration b) (_miscGeneration b) (_targetSize b)
    (_cellCount b) (ptrs b) (_renderParams b) (_requiresContinuousRedraw b)
    (_rectPacker b) (_glyphCache b) v (_brushColor b) (_instances b)
    (_indices b) (_instancesSize b) (_indicesSize b) (_instanceBufferSize b)
    (_indexBufferSize b) (_vertexInstanceData b) (calls b).
Definition set_brushColor (v : u32) (b : BackendD3D11) : BackendD3D11 :=
  mk_BackendD3D11
    (_generation b) (_fontGeneration b) (_miscGeneration b) (_targetSize b)
    (_cellCount b) (ptrs b) (_renderParams b) (_requiresContinuousRedraw b)
    (_rectPacker b) (_glyphCache b) (beganDrawing b) v (_instances b)
    (_indices b) (_instancesSize b) (_indicesSize b) (_instanceBufferSize b)
    (_indexBufferSize b) (_vertexInstanceData b) (calls b).
Definition set_instances (v : Buffer QuadInstance) (b : BackendD3D11) : BackendD3D11 :=
  mk_BackendD3D11
    (_generation b) (_fontGeneration b) (_miscGeneration b) (_targetSize b)
    (_cellCount b) (ptrs b) (_renderParams b) (_requiresContinuousRedraw b)
    (_rectPacker b) (_glyphCache b) (beganDrawing b) (_brushColor b) v
    (_indices b) (_instancesSize b) (_indicesSize b) (_instanceBufferSize b)
    (_indexBufferSize b) (_vertexInstanceData b) (calls b).
Definition set_indices (v : Buffer u32) (b : BackendD3D11) : BackendD3D11 :=
  mk_BackendD3D11
    (_generation b) (_fontGeneration b) (_miscGeneration b) (_targetSize b)
    (_cellCount b) (ptrs b) (_renderParams b) (_requiresContinuousRedraw b)
    (_rectPacker b) (_glyphCache b) (beganDrawing b) (_brushColor b)
    (_instances b) v (_instancesSize b) (_indicesSize b)
    (_instanceBufferSize b) (_indexBufferSize b) (_vertexInstanceData b)
    (calls b).
Definition set_instancesSize (v : nat) (b : BackendD3D11) : BackendD3D11 :=
  mk_BackendD3D11
    (_generation b) (_fontGeneration b) (_miscGeneration b) (_targetSize b)
    (_cellCount b) (ptrs b) (_renderParams b) (_requiresContinuousRedraw b)
    (_rectPacker b) (_glyphCache b) (beganDrawing b) (_brushColor b)
    (_instances b) (_indices b) v (_indicesSize b) (_instanceBufferSize b)
    (_indexBufferSize b) (_vertexInstanceData b) (calls b).
Definition set_indicesSize (v : nat) (b : BackendD3D11) : BackendD3D11 :=
  mk_BackendD3D11
    (_generation b) (_fontGeneration b) (_miscGeneration b) (_targetSize b)
    (_cellCount b) (ptrs b) (_renderParams b) (_requiresContinuousRedraw b)
    (_rectPacker b) (_glyphCache b) (beganDrawing b) (_brushColor b)
    (_instances b) (_indices b) (_instancesSize b) v (_instanceBufferSize b)
    (_indexBufferSize b) (_vertexInstanceData b) (calls b).
Definition set_instanceBufferSize (v : nat) (b : BackendD3D11) : BackendD3D11 :=
  mk_BackendD3D11
    (_generation b) (_fontGeneration b) (_miscGeneration b) (_targetSize b)
    (_cellCount b) (ptrs b) (_renderParams b) (_requiresContinuousRedraw b)
    (_rectPacker b) (_glyphCache b) (beganDrawing b) (_brushColor b)
    (_instances b) (_indices b) (_instancesSize b) (_indicesSize b) v
    (_indexBufferSize b) (_vertexInstanceData b) (calls b).
Definition set_indexBufferSize (v : nat) (b : BackendD3D11) : BackendD3D11 :=
  mk_BackendD3D11
    (_generation b) (_fontGeneration b) (_miscGeneration b) (_targetSize b)
    (_cellCount b) (ptrs b) (_renderParams b) (_requiresContinuousRedraw b)
    (_rectPacker b) (_glyphCache b) (beganDrawing b) (_brushColor b)
    (_instances b) (_indices b) (_instancesSize b) (_indicesSize b)
    (_instanceBufferSize b) v (_vertexInstanceData b) (calls b).
Definition set_vertexInstanceData (v : list VertexInstanceData) (b : BackendD3D11) : BackendD3D11 :=
  mk_BackendD3D11
    (_generation b) (_fontGeneration b) (_miscGeneration b) (_targetSize b)
    (_cellCount b) (ptrs b) (_renderParams b) (_requiresContinuousRedraw b)
    (_rectPacker b) (_glyphCache b) (beganDrawing b) (_brushColor b)
    (_instances b) (_indices b) (_instancesSize b) (_indicesSize b)
    (_instanceBufferSize b) (_indexBufferSize b) v (calls b).
Definition set_calls (v : list Call) (b : BackendD3D11) : BackendD3D11 :=
  mk_BackendD3D11
    (_generation b) (_fontGeneration b) (_miscGeneration b) (_targetSize b)
    (_cellCount b) (ptrs b) (_renderParams b) (_requiresContinuousRedraw b)
    (_rectPacker b) (_glyphCache b) (beganDrawing b) (_brushColor b)
    (_instances b) (_indices b) (_instancesSize b) (_indicesSize b)
    (_instanceBufferSize b) (_indexBufferSize b) (_vertexInstanceData b) v.

(** The sizes of the structures that go into device buffers: a quad is two
    [f32x4] and two [u32]; the constant buffers are laid out in 16 byte rows. *)
Definition sizeof_QuadInstance : Z := 40.
Definition sizeof_u32 : Z := 4.
Definition sizeof_ConstBuffer : Z := 48.
Definition sizeof_CustomConstBuffer : Z := 32.

(** The state the constructor leaves: the constant buffer, the two built-in
    shaders, the blend state and the input layout exist, every other member
    has its default value. *)
Definition BackendD3D11_new : BackendD3D11 :=
  mk_BackendD3D11
    0 0 0 (mk_u16x2 0 0) (mk_u16x2 0 0)
    (<[_textInputLayout := 4%nat]> (<[_textBlendState := 3%nat]>
      (<[_textPixelShader := 2%nat]> (<[_vertexShader := 1%nat]>
        (<[_constantBuffer := 0%nat]> ∅)))))
    (mk_RenderParams f32_zero f32_zero f32_zero)
    false (mk_stbrp_context 0 0 []) ∅ false 0
    [] [] 0%nat 0%nat 0%nat 0%nat []
    [ CreateBuffer _constantBuffer sizeof_ConstBuffer; CreateVertexShader _vertexShader;
      CreatePixelShader _textPixelShader; CreateBlendState1 _textBlendState;
      CreateInputLayout _textInputLayout ].

(** A call on the device, its context, Direct2D or DirectWrite. *)
Definition call (c : Call) (b : BackendD3D11) : BackendD3D11 :=
  set_calls (calls b ++ [c]) b.

(** A creating call whose result is put into the member [t]. *)
Definition put (t : ComPtr) (c : Call) (b : BackendD3D11) : BackendD3D11 :=
  set_ptrs (<[t := length (calls b)]> (ptrs b)) (call c b).

(** [t.reset()]. *)
Definition reset (t : ComPtr) (b : BackendD3D11) : BackendD3D11 :=
  set_ptrs (delete t (ptrs b)) b.

(** [if (t)]. *)
Definition is_set (t : ComPtr) (b : BackendD3D11) : bool :=
  bool_decide (is_Some (ptrs b !! t)).

(** ** The quad batcher *)

(** [_bumpInstancesSize]: both staging arrays are replaced by new buffers. *)
Definition _bumpInstancesSize (b : BackendD3D11) : BackendD3D11 :=
  let b := set_instances (Buffer_new (Nat.max 1024 (length (_instances b) * 2))) b in
  set_indices (Buffer_new (length (_instances b) * 6)) b.

(** [_indices[_indicesSize++] = v]. *)
Definition push_index (v : u32) (b : BackendD3D11) : res BackendD3D11 :=
  indices ← Buffer_store (_indices b) (_indicesSize b) v;
  Ok (set_indicesSize (S (_indicesSize b)) (set_indices indices b)).

(** [_appendRect(position, texcoord, color, shadingType)]. *)
Definition _appendRect (pos tex : f32x4) (col : u32) (st : ShadingType)
    (b : BackendD3D11) : res BackendD3D11 :=
  let off := wrap32 (Z.of_nat (_instancesSize b * 4)) in
  let b := if decide (length (_instances b) <= _instancesSize b)%nat
           then _bumpInstancesSize b else b in
  instances ← Buffer_store (_instances b) (_instancesSize b)
                 (mk_QuadInstance pos tex col st);
  let b := set_instancesSize (S (_instancesSize b)) (set_instances instances b) in
  b ← push_index (wrap32 (off + 0)) b;
  b ← push_index (wrap32 (off + 1)) b;
  b ← push_index (wrap32 (off + 2)) b;
  b ← push_index (wrap32 (off + 3)) b;
  b ← push_index (wrap32 (off + 2)) b;
  push_index (wrap32 (off + 1)) b.

(** [_appendRect(position, color, shadingType)]: no texture coordinates. *)
Definition _appendRect3 (pos : f32x4) (col : u32) (st : ShadingType)
    (b : BackendD3D11) : res BackendD3D11 :=
  _appendRect pos f32x4_zero col st b.

(** The first [n] elements of a staging array, as [memcpy] reads them. *)
Definition Buffer_read {T : Type} (l : Buffer T) (n : nat) : res (list (option T)) :=
  if decide (n <= length l)%nat then Ok (take n l) else Fail OutOfBounds.

(** [_flushRects]. *)
Definition _flushRects (p : RenderingPayload) (b : BackendD3D11) : res BackendD3D11 :=
  if decide (_instancesSize b = 0)%nat then Ok b else
  b ← (if decide (_instanceBufferSize b < _instancesSize b)%nat then
         let estimatedMinimum :=
           (Z.to_nat (x2 (cellCount (s p))) * Z.to_nat (y2 (cellCount (s p))))%nat in
         let minSize := (_instancesSize b + _instancesSize b / 2)%nat in
         let newSize := Nat.max estimatedMinimum minSize in
         let b := reset _instanceBufferView (reset _instanceBuffer b) in
         ByteWidth ← narrow_UINT (sizeof_QuadInstance * Z.of_nat newSize);
         let b := put _instanceBuffer (CreateBuffer _instanceBuffer ByteWidth) b in
         let b := put _instanceBufferView (CreateShaderResourceView _instanceBufferView) b in
         let b := call VSSetShaderResources b in
         Ok (set_instanceBufferSize newSize b)
       else Ok b);
  b ← (if decide (_indexBufferSize b < _indicesSize b)%nat then
         let estimatedMinimum :=
           (Z.to_nat (x2 (cellCount (s p))) * Z.to_nat (y2 (cellCount (s p))))%nat in
         let minSize := (_indicesSize b + _indicesSize b / 2)%nat in
         let newSize := Nat.max estimatedMinimum minSize in
         let b := reset _indexBuffer b in
         ByteWidth ← narrow_UINT (sizeof_u32 * Z.of_nat newSize);
         let b := put _indexBuffer (CreateBuffer _indexBuffer ByteWidth) b in
         let b := call IASetIndexBuffer b in
         Ok (set_indexBufferSize newSize b)
       else Ok b);
  instances ← Buffer_read (_instances b) (_instancesSize b);
  let b := call (Map_WRITE_DISCARD _instanceBuffer) b in
  let b := call (memcpy_QuadInstance instances) b in
  let b := call (Unmap _instanceBuffer) b in
  indices ← Buffer_read (_indices b) (_indicesSize b);
  let b := call (Map_WRITE_DISCARD _indexBuffer) b in
  let b := call (memcpy_u32 indices) b in
  let b := call (Unmap _indexBuffer) b in
  let b := call (DrawIndexed (wrap32 (Z.of_nat (_indicesSize b)))) b in
  Ok (set_indicesSize 0%nat (set_instancesSize 0%nat b)).

(** [n] appends in a row, the [i]-th with the arguments [args i]. *)
Fixpoint appendRects (args : nat -> f32x4 * f32x4 * u32 * ShadingType)
    (from n : nat) (b : BackendD3D11) : res BackendD3D11 :=
  match n with
  | O => Ok b
  | S n =>
      let '(pos, tex, col, st) := args from in
      b ← _appendRect pos tex col st b;
      appendRects args (S from) n b
  end.

(** ** The glyph atlas *)

(** [_BitScanReverse]: the index of the highest set bit of a non-zero mask. *)
Definition _BitScanReverse (mask : Z) : Z := Z.log2 mask.

(** The head of [_resetAtlasAndBeginDraw]: the width [u] and the height [v]
    of the atlas for a target size. *)
Definition atlas_area (size : u16x2) : u32 :=
  Z.max 65536 (wrap32 (x2 size * y2 size)).

Definition atlas_index (size : u16x2) : Z :=
  _BitScanReverse (atlas_area size - 1).

Definition atlas_u (size : u16x2) : u16 :=
  saturated_cast_u16 (wrap32 (Z.shiftl 1 ((atlas_index size + 2) / 2))).

Definition atlas_v (size : u16x2) : u16 :=
  saturated_cast_u16 (wrap32 (Z.shiftl 1 ((atlas_index size + 1) / 2))).

Definition _d2dRenderTargetUpdateFontSettings (b : BackendD3D11) : BackendD3D11 :=
  call SetTextAntialiasMode (call SetDpi b).

Definition _beginDrawing (b : BackendD3D11) : BackendD3D11 :=
  if beganDrawing b then b
  else set_beganDrawing true (call BeginDraw b).

Definition _endDrawing (b : BackendD3D11) : BackendD3D11 :=
  if beganDrawing b then set_beganDrawing false (call EndDraw b)
  else b.

(** Lines 845 to 890: a new atlas texture of [u] by [v] pixels with its
    view, its Direct2D render target and the brush. *)
Definition recreate_atlas (u v : u16) (b : BackendD3D11) : BackendD3D11 :=
  let b := reset _d2dRenderTarget b in
  let b := reset _d2dRenderTarget4 b in
  let b := reset _glyphAtlas b in
  let b := reset _glyphAtlasView b in
  let b := put _glyphAtlas (CreateTexture2D _glyphAtlas u v) b in
  let b := put _glyphAtlasView (CreateShaderResourceView _glyphAtlasView) b in
  let renderTarget := length (calls b) in
  let b := call CreateDxgiSurfaceRenderTarget b in
  let b := set_ptrs (<[_d2dRenderTarget4 := renderTarget]>
                      (<[_d2dRenderTarget := renderTarget]> (ptrs b))) b in
  let b := call SetAntialiasMode b in
  let b := call SetTextRenderingParams b in
  let b := _d2dRenderTargetUpdateFontSettings b in
  let b := put _brush CreateSolidColorBrush b in
  let b := set_brushColor 4294967295 b in
  call PSSetShaderResources b.

Definition _resetAtlasAndBeginDraw (p : RenderingPayload) (b : BackendD3D11)
    : BackendD3D11 :=
  let u := atlas_u (targetSize (s p)) in
  let v := atlas_v (targetSize (s p)) in
  let b :=
    if negb (u =? width (_rectPacker b)) || negb (v =? height (_rectPacker b))
    then recreate_atlas u v b else b in
  let b := set_glyphCache ∅ b in
  let b := set_rectPacker (stbrp_init_target u v) b in
  let b := _beginDrawing b in
  call Clear b.

Definition wrap_i16 (z : Z) : i16 := (z + 32768) mod 65536 - 32768.

(** [_drawGlyph]: the entry as it is left, and whether the glyph was packed. *)
Definition _drawGlyph (env : Platform) (p : RenderingPayload)
    (fontFace : nat) (glyphIndex : Z) (entry : GlyphCacheEntry) (emSize : f32)
    (b : BackendD3D11) : bool * GlyphCacheEntry * BackendD3D11 :=
  let box := getGlyphRunBlackBox env fontFace glyphIndex emSize in
  if f32_leb (right box) (left box) || f32_leb (bottom box) (top box) then
    (true, entry, b)
  else
    let ppd := pixelPerDIP (d_font p) in
    let box_left := f32_sub (floorf (f32_mul (left box) ppd)) f32_one in
    let box_top := f32_sub (floorf (f32_mul (top box) ppd)) f32_one in
    let box_right := f32_add (ceilf (f32_mul (right box) ppd)) f32_one in
    let box_bottom := f32_add (ceilf (f32_mul (bottom box) ppd)) f32_one in
    let w := f32_to_int (f32_sub box_right box_left) in
    let h := f32_to_int (f32_sub box_bottom box_top) in
    match stbrp_pack_rects env (_rectPacker b) w h with
    | None => (false, entry, b)
    | Some (x, y) =>
        let rp := _rectPacker b in
        let b := set_rectPacker
                   (mk_stbrp_context (width rp) (height rp) (placed rp ++ [(x, y, w, h)])) b in
        let b := call (DrawGlyphRun fontFace glyphIndex) b in
        let colorGlyph := drawGlyphRun_colorGlyph env fontFace glyphIndex in
        let st := if colorGlyph then Passthrough
                  else match antialiasingMode (font (s p)) with
                       | CLEARTYPE => TextClearType
                       | _ => TextGrayscale
                       end in
        (true,
         mk_GlyphCacheEntry (Some st)
           (wrap_i16 (f32_to_int box_left)) (wrap_i16 (f32_to_int box_top))
           (mk_f32x4 (f32_of_Z x) (f32_of_Z y) (f32_of_Z w) (f32_of_Z h)),
         b)
    end.

(** ** The custom shader stage and the other rebuilt resources *)

Definition D3D_SVF_USED : Z := 2.

Definition WI_IsFlagSet (val flag : Z) : bool := Z.land val flag =? flag.

Definition _recreateBackgroundBitmapSamplerState (b : BackendD3D11) : BackendD3D11 :=
  let b := call (Recreate BackgroundBitmapSamplerState) b in
  put _backgroundBitmapSamplerState (CreateSamplerState _backgroundBitmapSamplerState) b.

Definition _recreateCustomShader (env : Platform) (p : RenderingPayload)
    (b : BackendD3D11) : BackendD3D11 :=
  let b := call (Recreate CustomShader) b in
  let b := reset _customOffscreenTexture b in
  let b := reset _customOffscreenTextureView b in
  let b := reset _customOffscreenTextureTargetView b in
  let b := reset _customVertexShader b in
  let b := reset _customPixelShader b in
  let b := reset _customShaderConstantBuffer b in
  let b := reset _customShaderSamplerState b in
  let b := set_requiresContinuousRedraw false b in
  let b :=
    match customPixelShaderPath (misc (s p)) with
    | _ :: _ =>
        let b := call D3DCompileFromFile b in
        let b := set_requiresContinuousRedraw true b in
        if compileSucceeded env then
          let b := put _customPixelShader (CreatePixelShader _customPixelShader) b in
          let b := call D3DReflect b in
          match reflection env with
          | VariableDesc uFlags =>
              set_requiresContinuousRedraw (WI_IsFlagSet uFlags D3D_SVF_USED) b
          | _ => b
          end
        else
          if has_warningCallback p then call warningCallback b else b
    | [] =>
        if useRetroTerminalEffect (misc (s p)) then
          let b := put _customPixelShader (CreatePixelShader _customPixelShader) b in
          set_requiresContinuousRedraw false b
        else b
    end in
  if is_set _customPixelShader b then
    let b := put _customVertexShader (CreateVertexShader _customVertexShader) b in
    let b := put _customShaderConstantBuffer
               (CreateBuffer _customShaderConstantBuffer sizeof_CustomConstBuffer) b in
    put _customShaderSamplerState (CreateSamplerState _customShaderSamplerState) b
  else b.

Definition RequiresContinuousRedraw (b : BackendD3D11) : bool :=
  _requiresContinuousRedraw b.

Definition _recreateCustomOffscreenTexture (p : RenderingPayload) (b : BackendD3D11)
    : BackendD3D11 :=
  let b := call (Recreate CustomOffscreenTexture) b in
  match customPixelShaderPath (misc (s p)) with
  | _ :: _ =>
      let b := reset _customOffscreenTexture b in
      let b := reset _customOffscreenTextureView b in
      let b := reset _customOffscreenTextureTargetView b in
      let b := put _customOffscreenTexture
                 (CreateTexture2D _customOffscreenTexture
                    (x2 (targetSize (s p))) (y2 (targetSize (s p)))) b in
      let b := put _customOffscreenTextureView
                 (CreateShaderResourceView _customOffscreenTextureView) b in
      put _customOffscreenTextureTargetView
        (CreateRenderTargetView _customOffscreenTextureTargetView) b
  | [] => b
  end.

Definition _recreateBackgroundColorBitmap (p : RenderingPayload) (b : BackendD3D11)
    : BackendD3D11 :=
  let b := call (Recreate BackgroundColorBitmap) b in
  let b := reset _backgroundBitmap b in
  let b := reset _backgroundBitmapView b in
  let b := put _backgroundBitmap
             (CreateTexture2D _backgroundBitmap
                (x2 (cellCount (s p))) (y2 (cellCount (s p)))) b in
  put _backgroundBitmapView (CreateShaderResourceView _backgroundBitmapView) b.

Definition _recreateConstBuffer (b : BackendD3D11) : BackendD3D11 :=
  let b := call (Recreate ConstBuffer) b in
  call (UpdateSubresource _constantBuffer) b.

(** ** Loops *)

(** [n] rounds of a loop body, stopping at the first failure.  The count is
    binary, so that a count that wrapped around to 2^64 - 1 can be written
    down. *)
Fixpoint repeat_pos {A : Type} (f : A -> res A) (n : positive) (a : A) : res A :=
  match n with
  | xH => f a
  | xO n => a ← repeat_pos f n a; repeat_pos f n a
  | xI n => a ← f a; a ← repeat_pos f n a; repeat_pos f n a
  end.

Definition repeat_N {A : Type} (f : A -> res A) (n : N) (a : A) : res A :=
  match n with
  | N0 => Ok a
  | Npos n => repeat_pos f n a
  end.

(** A [for] loop over the rows with the running index [y]. *)
Fixpoint for_rows {A : Type} (body : nat -> ShapedRow -> A -> res A)
    (y : nat) (l : list ShapedRow) (a : A) : res A :=
  match l with
  | [] => Ok a
  | row :: l => a ← body y row a; for_rows body (S y) l a
  end.

Fixpoint for_each {T A : Type} (body : T -> A -> res A) (l : list T) (a : A) : res A :=
  match l with
  | [] => Ok a
  | t :: l => a ← body t a; for_each body l a
  end.

(** ** Render: the generation tracker (lines 124 to 185) *)

Definition Render_refresh (env : Platform) (p : RenderingPayload) (b : BackendD3D11)
    : BackendD3D11 :=
  if _generation b =? generation (s p) then b else
  let b := call UpdateSwapChainSettings b in
  let b := match swapChainChange env with
           | Unchanged => b
           | PrepareResize => call ClearState (reset _renderTargetView b)
           | PrepareRecreate =>
               call Flush (call ClearState (reset _renderTargetView b))
           end in
  let b := if is_set _renderTargetView b then b
           else put _renderTargetView (CreateRenderTargetView _renderTargetView)
                  (call GetBuffer b) in
  let fontChanged := negb (_fontGeneration b =? font_generation (s p)) in
  let miscChanged := negb (_miscGeneration b =? misc_generation (s p)) in
  let targetSizeChanged := negb (u16x2_eqb (_targetSize b) (targetSize (s p))) in
  let cellCountChanged := negb (u16x2_eqb (_cellCount b) (cellCount (s p))) in
  let b := if fontChanged then
             let b := put _textRenderingParams DWrite_GetRenderParams b in
             let b := set_renderParams (renderParams env) b in
             if is_set _d2dRenderTarget b
             then _d2dRenderTargetUpdateFontSettings b else b
           else b in
  let b := if miscChanged then
             _recreateCustomShader env p (_recreateBackgroundBitmapSamplerState b)
           else b in
  let b := if cellCountChanged then _recreateBackgroundColorBitmap p b else b in
  let b := if targetSizeChanged || miscChanged
           then _recreateCustomOffscreenTexture p b else b in
  let b := if targetSizeChanged || fontChanged
           then _recreateConstBuffer b else b in
  let b := set_generation (generation (s p)) b in
  let b := set_fontGeneration (font_generation (s p)) b in
  let b := set_miscGeneration (misc_generation (s p)) b in
  set_cellCount (cellCount (s p)) b.

(** ** Render: pipeline state and background (lines 187 to 239) *)

Definition Render_setup (p : RenderingPayload) (b : BackendD3D11) : BackendD3D11 :=
  let b := set_instancesSize 0%nat b in
  let b := set_indicesSize 0%nat b in
  let b := call IASetPrimitiveTopology b in
  let b := call IASetIndexBuffer b in
  let b := call VSSetShader b in
  let b := call VSSetConstantBuffers b in
  let b := call VSSetShaderResources b in
  let b := call (RSSetViewports (f32_of_Z (x2 (targetSize (s p))))
                                (f32_of_Z (y2 (targetSize (s p))))) b in
  let b := call PSSetShader b in
  let b := call PSSetConstantBuffers b in
  let b := call PSSetSamplers b in
  let b := call PSSetShaderResources b in
  let b := call OMSetBlendState b in
  call OMSetRenderTargets b.

(** One row of the background bitmap, copied into the mapped texture. *)
Definition copy_background_row (p : RenderingPayload) (i : nat) (b : BackendD3D11)
    : res BackendD3D11 :=
  let cx := Z.to_nat (x2 (cellCount (s p))) in
  if decide (i * cx + cx <= length (backgroundBitmap p))%nat then
    Ok (call (memcpy_u32 (Some <$> take cx (drop (i * cx) (backgroundBitmap p)))) b)
  else Fail OutOfBounds.

Definition Render_background (p : RenderingPayload) (b : BackendD3D11)
    : res BackendD3D11 :=
  let b := call (Map_WRITE_DISCARD _backgroundBitmap) b in
  b ← for_each (copy_background_row p) (seq 0 (Z.to_nat (y2 (cellCount (s p))))) b;
  let b := call (Unmap _backgroundBitmap) b in
  let targetWidth := f32_of_Z (x2 (targetSize (s p))) in
  let targetHeight := f32_of_Z (y2 (targetSize (s p))) in
  let contentWidth :=
    f32_of_Z (wrap_int (x2 (cellCount (s p)) * x2 (cellSize (font (s p))))) in
  let contentHeight :=
    f32_of_Z (wrap_int (y2 (cellCount (s p)) * y2 (cellSize (font (s p))))) in
  _appendRect
    (mk_f32x4 f32_zero f32_zero targetWidth targetHeight)
    (mk_f32x4 f32_zero f32_zero
       (f32_div targetWidth contentWidth) (f32_div targetHeight contentHeight))
    0 Background b.

(** ** Render: the text pass (lines 241 to 301) *)

Definition GlyphCacheEntry_new : GlyphCacheEntry :=
  mk_GlyphCacheEntry None 0 0 f32x4_zero.

(** Modelled from the spec: the glyph cache (the class behind [_glyphCache],
    declared outside [BackendD3D11.cpp]) "maps a (font-face, glyph-index) key
    to a cached atlas placement + shading classification; supports
    find-or-insert and wholesale clear"; a slot made by a miss has "zero
    shading type" until the caller fills it. *)
Definition FindOrInsert (fontFace : nat) (glyphIndex : Z)
    (cache : gmap (nat * Z) GlyphCacheEntry)
    : GlyphCacheEntry * bool * gmap (nat * Z) GlyphCacheEntry :=
  match cache !! (fontFace, glyphIndex) with
  | Some entry => (entry, false, cache)
  | None =>
      (GlyphCacheEntry_new, true, <[(fontFace, glyphIndex) := GlyphCacheEntry_new]> cache)
  end.

(** What the body of the loop over the glyphs of a mapping does after the
    cache lookup and a successful draw: the quad and the advance. *)
Definition append_glyph (p : RenderingPayload) (row : ShapedRow)
    (baselineY : f32) (i : nat) (entry : GlyphCacheEntry)
    (cumulativeAdvance : f32) (b : BackendD3D11) : res (f32 * BackendD3D11) :=
  b ← match e_shadingType entry with
      | Some st =>
          off ← vector_at (glyphOffsets row) i;
          col ← vector_at (colors row) i;
          _appendRect
            (mk_f32x4
               (f32_add (f32_mul (f32_add cumulativeAdvance (advanceOffset off))
                                 (pixelPerDIP (d_font p)))
                        (f32_of_Z (e_offset_x entry)))
               (f32_add (f32_mul (f32_sub baselineY (ascenderOffset off))
                                 (pixelPerDIP (d_font p)))
                        (f32_of_Z (e_offset_y entry)))
               (z4 (e_texcoord entry))
               (w4 (e_texcoord entry)))
            (e_texcoord entry) col st b
      | None => Ok b
      end;
  adv ← vector_at (glyphAdvances row) i;
  Ok (f32_add cumulativeAdvance adv, b).

(** Lines 268 to 270, what follows a glyph that did not pack. *)
Definition retry_after_pack_failure (p : RenderingPayload) (b : BackendD3D11)
    : res BackendD3D11 :=
  let b := _endDrawing b in
  b ← _flushRects p b;
  Ok (_resetAtlasAndBeginDraw p b).

(** The loop [for (auto i = m.glyphsFrom; i < m.glyphsTo; ++i)].  A glyph that
    fails to pack is tried again ([--i; continue;]), so the number of rounds
    is not bounded by the number of glyphs: every round takes one unit of
    [fuel]. *)
Fixpoint glyphs_loop (fuel : nat) (env : Platform) (p : RenderingPayload)
    (row : ShapedRow) (m : FontMapping) (baselineY : f32)
    (i : nat) (cumulativeAdvance : f32) (b : BackendD3D11)
    : res (f32 * BackendD3D11) :=
  if decide (i < glyphsTo m)%nat then
    match fuel with
    | O => Fail OutOfFuel
    | S fuel =>
        glyphIndex ← vector_at (glyphIndices row) i;
        let '(entry, inserted, cache) :=
          FindOrInsert (m_fontFace m) glyphIndex (_glyphCache b) in
        let b := set_glyphCache cache b in
        if inserted then
          let b := _beginDrawing b in
          let '(drawn, entry, b) :=
            _drawGlyph env p (m_fontFace m) glyphIndex entry (fontEmSize m) b in
          if drawn then
            let b := set_glyphCache
                       (<[(m_fontFace m, glyphIndex) := entry]> (_glyphCache b)) b in
            '(cumulativeAdvance, b) ← append_glyph p row baselineY i entry cumulativeAdvance b;
            glyphs_loop fuel env p row m baselineY (S i) cumulativeAdvance b
          else
            b ← retry_after_pack_failure p b;
            glyphs_loop fuel env p row m baselineY i cumulativeAdvance b
        else
          '(cumulativeAdvance, b) ← append_glyph p row baselineY i entry cumulativeAdvance b;
          glyphs_loop fuel env p row m baselineY (S i) cumulativeAdvance b
    end
  else Ok (cumulativeAdvance, b).

Definition text_row (fuel : nat) (env : Platform) (p : RenderingPayload)
    (y : nat) (row : ShapedRow) (b : BackendD3D11) : res BackendD3D11 :=
  let baselineY :=
    f32_add (f32_mul (cellSizeDIP_y (d_font p)) (f32_of_Z (Z.of_nat y)))
            (baselineInDIP (font (s p))) in
  '(_, b) ← for_each
      (fun m '(cumulativeAdvance, b) =>
         glyphs_loop fuel env p row m baselineY (glyphsFrom m) cumulativeAdvance b)
      (mappings row) (f32_zero, b);
  Ok b.

Definition Render_text (fuel : nat) (env : Platform) (p : RenderingPayload)
    (b : BackendD3D11) : res BackendD3D11 :=
  let b := if is_set _glyphAtlas b then b else _resetAtlasAndBeginDraw p b in
  b ← for_rows (text_row fuel env p) 0 (rows p) b;
  Ok (if beganDrawing b then call EndDraw b else b).

(** ** Render: the grid lines (lines 303 to 425) *)

Definition f32x4_of_Z (x y w h : Z) : f32x4 :=
  mk_f32x4 (f32_of_Z x) (f32_of_Z y) (f32_of_Z w) (f32_of_Z h).

(** [if (r.lines.test(g)) _appendRect(...)]. *)
Definition line_if (r : GridLineRange) (g : GridLines) (pos : f32x4)
    (st : ShadingType) (b : BackendD3D11) : res BackendD3D11 :=
  if lines r g then _appendRect3 pos (gl_color r) st b else Ok b.

Definition gridLine_range (p : RenderingPayload) (y : nat) (r : GridLineRange)
    (b : BackendD3D11) : res BackendD3D11 :=
  let f := font (s p) in
  let top := wrap64 (y2 (cellSize f) * Z.of_nat y) in
  let left := wrap_int (x2 (cellSize f) * from r) in
  let width := wrap_int (x2 (cellSize f) * wrap_int (to r - from r)) in
  b ← line_if r Left
        (f32x4_of_Z left top (thinLineWidth f) (y2 (cellSize f))) SolidFill b;
  b ← line_if r Top
        (f32x4_of_Z left top (x2 (cellSize f)) (thinLineWidth f)) SolidFill b;
  b ← line_if r Right
        (f32x4_of_Z (wrap_int (wrap_int (left + x2 (cellSize f)) - thinLineWidth f)) top
           (thinLineWidth f) (y2 (cellSize f))) SolidFill b;
  b ← line_if r Bottom
        (f32x4_of_Z left (wrap64 (wrap64 (top + y2 (cellSize f)) - thinLineWidth f))
           (x2 (cellSize f)) (thinLineWidth f)) SolidFill b;
  b ← line_if r Underline
        (f32x4_of_Z left (wrap64 (top + underlinePos f)) width (underlineWidth f))
        SolidFill b;
  b ← line_if r HyperlinkUnderline
        (f32x4_of_Z left (wrap64 (top + underlinePos f)) width (underlineWidth f))
        DashedLine b;
  b ← line_if r DoubleUnderline
        (f32x4_of_Z left (wrap64 (top + x2 (doubleUnderlinePos f))) width (thinLineWidth f))
        SolidFill b;
  b ← line_if r DoubleUnderline
        (f32x4_of_Z left (wrap64 (top + y2 (doubleUnderlinePos f))) width (thinLineWidth f))
        SolidFill b;
  line_if r Strikethrough
    (f32x4_of_Z left (wrap64 (top + strikethroughPos f)) width (strikethroughWidth f))
    SolidFill b.

Definition Render_gridLines (p : RenderingPayload) (b : BackendD3D11)
    : res BackendD3D11 :=
  for_rows (fun y row b => for_each (gridLine_range p y) (gridLineRanges row) b)
    0 (rows p) b.

(** ** Render: the cursor (lines 428 to 493) *)

Definition invertColor (c : u32) : u32 := Z.lxor c 12632256.

(** The lambda [intersect]: [r] clipped to [clip], and whether anything is
    left of it. *)
Definition intersect (clip r : f32r) : bool * f32r :=
  let r := mk_f32r (f32_max (left clip) (left r)) (top r) (right r) (bottom r) in
  let r := mk_f32r (left r) (top r) (f32_min (right clip) (right r)) (bottom r) in
  let r := mk_f32r (left r) (f32_max (top clip) (top r)) (right r) (bottom r) in
  let r := mk_f32r (left r) (top r) (right r) (f32_min (bottom clip) (bottom r)) in
  (f32_ltb (left r) (right r) && f32_ltb (top r) (bottom r), r).

(** The cursor rectangle in pixels, as [rect] and as [rect2]; the products
    and the differences are computed in [int]. *)
Definition cursor_rect (p : RenderingPayload) : f32x4 :=
  let c := cursorRect p in
  let cs := cellSize (font (s p)) in
  f32x4_of_Z (wrap_int (x2 cs * r_left c)) (wrap_int (y2 cs * r_top c))
             (wrap_int (x2 cs * wrap_int (r_right c - r_left c)))
             (wrap_int (y2 cs * wrap_int (r_bottom c - r_top c))).

Definition cursor_rect2 (p : RenderingPayload) : f32r :=
  let rect := cursor_rect p in
  mk_f32r (x4 rect) (y4 rect) (f32_add (x4 rect) (z4 rect)) (f32_add (y4 rect) (w4 rect)).

(** The index into the background bitmap, an [int], and the inverted colour
    found there (lines 459 to 461); a negative index is outside the span. *)
Definition cursor_idx (p : RenderingPayload) : i32 :=
  wrap_int (wrap_int (r_top (cursorRect p) * y2 (cellCount (s p))) + r_left (cursorRect p)).

Definition cursor_backgroundColorInv (p : RenderingPayload) : res u32 :=
  let idx := cursor_idx p in
  backgroundColor ← (if idx <? 0 then Fail OutOfBounds
                     else vector_at (backgroundBitmap p) (Z.to_nat idx));
  Ok (invertColor backgroundColor).

(** Line 462: the inverted fill of the cursor. *)
Definition Render_cursor_fill (p : RenderingPayload) (b : BackendD3D11)
    : res BackendD3D11 :=
  backgroundColorInv ← cursor_backgroundColorInv p;
  _appendRect3 (cursor_rect p) backgroundColorInv SolidFill b.

(** The clipped and inverted copy of [ref], if [ref] meets the cursor. *)
Definition cursor_copy (rect2 : f32r) (ref : VertexInstanceData)
    : option VertexInstanceData :=
  let refrect := v_rect ref in
  let refrect2 := mk_f32r (x4 refrect) (y4 refrect)
                    (f32_add (x4 refrect) (z4 refrect))
                    (f32_add (y4 refrect) (w4 refrect)) in
  let '(hit, refrect2) := intersect rect2 refrect2 in
  if hit then
    let cx := left refrect2 in
    let cy := top refrect2 in
    let cz := f32_sub (right refrect2) (left refrect2) in
    let cw := f32_sub (bottom refrect2) (top refrect2) in
    Some (mk_VertexInstanceData
            (mk_f32x4 cx cy cz cw)
            (mk_f32x4 (f32_add (x4 (v_tex ref)) (f32_sub cx (x4 (v_rect ref))))
                      (f32_add (y4 (v_tex ref)) (f32_sub cy (y4 (v_rect ref))))
                      cz cw)
            (invertColor (v_color ref))
            (if ShadingType_eqb (v_shadingType ref) Passthrough
             then PassthroughInvert else v_shadingType ref))
  else None.

(** One round of the loop of lines 464 to 485, on the index [i] and the
    vector [_vertexInstanceData]. *)
Definition cursor_loop_body (rect2 : f32r) (st : nat * list VertexInstanceData)
    : res (nat * list VertexInstanceData) :=
  let '(i, v) := st in
  ref ← vector_at v i;
  Ok (S i, match cursor_copy rect2 ref with
           | Some copy => v ++ [copy]
           | None => v
           end).

(** The loop: [l] is [_vertexInstanceData.size() - 1], computed once, in
    [size_t]. *)
Definition Render_cursor_copies (p : RenderingPayload) (b : BackendD3D11)
    : res BackendD3D11 :=
  let l := Z.to_N (wrap64 (Z.of_nat (length (_vertexInstanceData b)) - 1)) in
  '(_, v) ← repeat_N (cursor_loop_body (cursor_rect2 p)) l
               (0%nat, _vertexInstanceData b);
  Ok (set_vertexInstanceData v b).

Definition Render_cursor (p : RenderingPayload) (b : BackendD3D11)
    : res BackendD3D11 :=
  if non_empty (cursorRect p) then
    if cursorColor (cursor (s p)) =? INVALID_COLOR then
      b ← Render_cursor_fill p b;
      Render_cursor_copies p b
    else
      _appendRect3 (cursor_rect p) (cursorColor (cursor (s p))) SolidFill b
  else Ok b.

(** ** Render: the selection, and the frame as a whole *)

Definition selection_row (p : RenderingPayload) (y : nat) (row : ShapedRow)
    (b : BackendD3D11) : res BackendD3D11 :=
  if selectionFrom row <? selectionTo row then
    let cs := cellSize (font (s p)) in
    _appendRect3
      (f32x4_of_Z (wrap_int (x2 cs * selectionFrom row)) (wrap64 (y2 cs * Z.of_nat y))
                  (wrap_int (x2 cs * wrap_int (selectionTo row - selectionFrom row)))
                  (y2 cs))
      (selectionColor (misc (s p))) SolidFill b
  else Ok b.

Definition Render_selection (p : RenderingPayload) (b : BackendD3D11)
    : res BackendD3D11 :=
  for_rows (selection_row p) 0 (rows p) b.

(** Everything after the generation tracker. *)
Definition Render_draw (fuel : nat) (env : Platform) (p : RenderingPayload)
    (b : BackendD3D11) : res BackendD3D11 :=
  let b := Render_setup p b in
  b ← Render_background p b;
  b ← Render_text fuel env p b;
  b ← Render_gridLines p b;
  b ← Render_cursor p b;
  b ← Render_selection p b;
  b ← _flushRects p b;
  Ok (call Present b).

Definition Render (fuel : nat) (env : Platform) (p : RenderingPayload)
    (b : BackendD3D11) : res BackendD3D11 :=
  Render_draw fuel env p (Render_refresh env p b).

(** ** Notions used in the statements *)

Definition power_of_two (z : Z) : Prop := ∃ k : Z, 0 <= k ∧ z = 2 ^ k.

(** The reflection succeeded and shows the variable at index 0 of constant
    buffer 0, the time, without the flag "used" (bit 1 of [uFlags]). *)
Definition time_proved_unused (r : Reflection) : bool :=
  match r with
  | VariableDesc uFlags => negb (Z.testbit uFlags 1)
  | _ => false
  end.

Definition is_Recreate (c : Call) : bool :=
  match c with
  | Recreate _ => true
  | _ => false
  end.

(** The rebuilds logged so far, oldest first. *)
Definition rebuilds (b : BackendD3D11) : list Call :=
  List.filter is_Recreate (calls b).

(** The staging arrays as [_appendRect] and [_flushRects] keep them. *)
Record batcher_wf (b : BackendD3D11) : Prop := mk_batcher_wf {
  wf_instancesSize : (_instancesSize b <= length (_instances b))%nat;
  wf_indices : length (_indices b) = (length (_instances b) * 6)%nat;
  wf_indicesSize : _indicesSize b = (_instancesSize b * 6)%nat;
}.

(** The six indices [_appendRect] writes for a quad whose corners start at
    [off]. *)
Definition quad_indices (off : Z) : list (option u32) :=
  [Some off; Some (off + 1); Some (off + 2); Some (off + 3); Some (off + 2);
   Some (off + 1)].

(** The capacity [_flushRects] gives a device buffer that is too small for
    [n] elements. *)
Definition grown_capacity (p : RenderingPayload) (n : nat) : nat :=
  Nat.max (Z.to_nat (x2 (cellCount (s p))) * Z.to_nat (y2 (cellCount (s p))))
          (n + n / 2).

(** The device calls of a flush that reallocate the instance buffer and the
    index buffer, when they are too small, and the calls that upload and
    draw. *)
Definition instance_realloc_calls (p : RenderingPayload) (b : BackendD3D11) : list Call :=
  if decide (_instanceBufferSize b < _instancesSize b)%nat then
    [ CreateBuffer _instanceBuffer
        (sizeof_QuadInstance * Z.of_nat (grown_capacity p (_instancesSize b)));
      CreateShaderResourceView _instanceBufferView;
      VSSetShaderResources ]
  else [].

Definition index_realloc_calls (p : RenderingPayload) (b : BackendD3D11) : list Call :=
  if decide (_indexBufferSize b < _indicesSize b)%nat then
    [ CreateBuffer _indexBuffer
        (sizeof_u32 * Z.of_nat (grown_capacity p (_indicesSize b)));
      IASetIndexBuffer ]
  else [].

Definition upload_and_draw_calls (b : BackendD3D11) : list Call :=
  [ Map_WRITE_DISCARD _instanceBuffer;
    memcpy_QuadInstance (take (_instancesSize b) (_instances b));
    Unmap _instanceBuffer;
    Map_WRITE_DISCARD _indexBuffer;
    memcpy_u32 (take (_indicesSize b) (_indices b));
    Unmap _indexBuffer;
    DrawIndexed (wrap32 (Z.of_nat (_indicesSize b))) ].

(** What [_appendRect] starts from once it has made room. *)
Definition with_room (b : BackendD3D11) : BackendD3D11 :=
  if decide (length (_instances b) <= _instancesSize b)%nat
  then _bumpInstancesSize b else b.

(** A backend with the staging arrays and their sizes blanked: what
    [_appendRect] does not touch. *)
Definition beside_batch (b : BackendD3D11) : BackendD3D11 :=
  set_indicesSize 0%nat (set_instancesSize 0%nat (set_indices [] (set_instances [] b))).

(** The observed overall generation and the rebuilds logged so far. *)
Definition kept (b : BackendD3D11) : Z * list Call :=
  (_generation b, rebuilds b).

(** What the generation tracker compares and the rebuilds logged so far. *)
Definition observed (b : BackendD3D11) : Z * Z * u16x2 * u16x2 * list Call :=
  (_fontGeneration b, _miscGeneration b, _targetSize b, _cellCount b, rebuilds b).

(** What a flush leaves alone besides the log and the device buffers. *)
Definition beside_flush (b : BackendD3D11)
    : gmap (nat * Z) GlyphCacheEntry * stbrp_context * bool
      * list (option QuadInstance) * list (option u32) :=
  (_glyphCache b, _rectPacker b, beganDrawing b, _instances b, _indices b).

(** The batcher's members, which the atlas code leaves alone. *)
Definition batch_of (b : BackendD3D11)
    : list (option QuadInstance) * list (option u32) * nat * nat * nat * nat :=
  (_instances b, _indices b, _instancesSize b, _indicesSize b,
   _instanceBufferSize b, _indexBufferSize b).

(** The log of [b'] continues the log of [b]. *)
Definition extends (b b' : BackendD3D11) : Prop := calls b `prefix_of` calls b'.

(** The device calls of a flush: none when nothing is queued. *)
Definition flush_calls (p : RenderingPayload) (b : BackendD3D11) : list Call :=
  if decide (_instancesSize b = 0)%nat then []
  else instance_realloc_calls p b ++ index_realloc_calls p b ++ upload_and_draw_calls b.

(** The backend as the text pass has it when it draws a glyph that missed
    the cache: the slot is made and the Direct2D batch has begun. *)
Definition before_draw (fontFace : nat) (glyphIndex : Z) (b : BackendD3D11)
    : BackendD3D11 :=
  _beginDrawing
    (set_glyphCache (<[(fontFace, glyphIndex) := GlyphCacheEntry_new]> (_glyphCache b)) b).

(** What the retry loop of the wide glyph keeps true of the backend. *)
Definition wide_glyph_state (b : BackendD3D11) : Prop :=
  _glyphCache b !! (0%nat, 65) = None ∧
  _rectPacker b = stbrp_init_target 256 256 ∧
  batcher_wf b ∧ (_instancesSize b <= 1000)%nat.

(** The quad that the [i]-th call of a run of appends queues. *)
Definition quad_of (args : nat -> f32x4 * f32x4 * u32 * ShadingType) (i : nat)
    : option QuadInstance :=
  let '(pos, tex, col, st) := args i in Some (mk_QuadInstance pos tex col st).

(** The six indices of the quad in slot [slot]: [4 * slot + {0, 1, 2, 3, 2, 1}]. *)
Definition indices_of_slot (slot : nat) : list (option u32) :=
  quad_indices (4 * Z.of_nat slot).

(** How many quads an empty batch takes before [_bumpInstancesSize] replaces
    staging arrays that hold some: the first growth, from no array at all to
    1024 slots, finds nothing queued. *)
Definition room (b : BackendD3D11) : nat :=
  if decide (length (_instances b) = 0)%nat then 1024%nat else length (_instances b).

(** Every glyph can be drawn into an atlas that holds no other glyph: it
    has no ink, or the packer places it in the empty atlas of the payload. *)
Definition packs_into_empty_atlas (env : Platform) (p : RenderingPayload) : Prop :=
  ∀ face glyph entry em b,
    _rectPacker b = stbrp_init_target (atlas_u (targetSize (s p)))
                                      (atlas_v (targetSize (s p))) ->
    (_drawGlyph env p face glyph entry em b).1.1 = true.

(** Two rounds of the glyph loop for every glyph of every mapping. *)
Definition fuel_for_retries (fuel : nat) (p : RenderingPayload) : Prop :=
  Forall (fun row =>
    Forall (fun m => (2 * (glyphsTo m - glyphsFrom m) <= fuel)%nat) (mappings row))
    (rows p).

(** The rows of the background bitmap as the background pass copies them:
    row [i] is the [cellCount.x] colours from [i * cellCount.x] on. *)
Definition background_rows (p : RenderingPayload) : list Call :=
  let cx := Z.to_nat (x2 (cellCount (s p))) in
  (fun i => memcpy_u32 (Some <$> take cx (drop (i * cx) (backgroundBitmap p))))
    <$> seq 0 (Z.to_nat (y2 (cellCount (s p)))).

(** The quad of the background: the whole target, textured with the
    background bitmap. *)
Definition background_quad (p : RenderingPayload) : QuadInstance :=
  let targetWidth := f32_of_Z (x2 (targetSize (s p))) in
  let targetHeight := f32_of_Z (y2 (targetSize (s p))) in
  let contentWidth :=
    f32_of_Z (wrap_int (x2 (cellCount (s p)) * x2 (cellSize (font (s p))))) in
  let contentHeight :=
    f32_of_Z (wrap_int (y2 (cellCount (s p)) * y2 (cellSize (font (s p))))) in
  mk_QuadInstance
    (mk_f32x4 f32_zero f32_zero targetWidth targetHeight)
    (mk_f32x4 f32_zero f32_zero
       (f32_div targetWidth contentWidth) (f32_div targetHeight contentHeight))
    0 Background.

(** The lines a range of grid lines asks for, one entry a quad: a double
    underline is two quads. *)
Definition lines_drawn (r : GridLineRange) : list GridLines :=
  List.filter (lines r)
    [Left; Top; Right; Bottom; Underline; HyperlinkUnderline; DoubleUnderline;
     DoubleUnderline; Strikethrough].

(** The rows that have a selection. *)
Definition selected_rows (p : RenderingPayload) : list ShapedRow :=
  List.filter (fun row => selectionFrom row <? selectionTo row) (rows p).

(** Whether the settings name a custom pixel shader. *)
Definition has_shader_path (p : RenderingPayload) : bool :=
  match customPixelShaderPath (misc (s p)) with
  | [] => false
  | _ :: _ => true
  end.

(** The device and Direct2D calls that make a new atlas of [u] by [v] pixels
    with its view, its render target and the brush (lines 845 to 890). *)
Definition atlas_recreate_calls (u v : u16) : list Call :=
  [ CreateTexture2D _glyphAtlas u v; CreateShaderResourceView _glyphAtlasView;
    CreateDxgiSurfaceRenderTarget; SetAntialiasMode; SetTextRenderingParams;
    SetDpi; SetTextAntialiasMode; CreateSolidColorBrush; PSSetShaderResources ].

(** The atlas size of the payload is the size the packer has: the test of
    line 843 fails and the atlas texture is kept. *)
Definition atlas_size_kept (p : RenderingPayload) (b : BackendD3D11) : bool :=
  (atlas_u (targetSize (s p)) =? width (_rectPacker b))
  && (atlas_v (targetSize (s p)) =? height (_rectPacker b)).

(** What [_resetAtlasAndBeginDraw] logs before it begins to draw. *)
Definition atlas_reset_calls (p : RenderingPayload) (b : BackendD3D11) : list Call :=
  if atlas_size_kept p b then []
  else atlas_recreate_calls (atlas_u (targetSize (s p))) (atlas_v (targetSize (s p))).

(** A glyph that the packer places in no empty atlas of the payload's size. *)
Definition never_packs (env : Platform) (p : RenderingPayload)
    (fontFace : nat) (glyphIndex : Z) (emSize : f32) : Prop :=
  ∀ entry b,
    _rectPacker b = stbrp_init_target (atlas_u (targetSize (s p)))
                                      (atlas_v (targetSize (s p))) ->
    (_drawGlyph env p fontFace glyphIndex entry emSize b).1.1 = false.

(** ** Inputs for the examples *)

Definition test_args (i : nat) : f32x4 * f32x4 * u32 * ShadingType :=
  (f32x4_of_Z (Z.of_nat i) 0 1 1, f32x4_zero, Z.of_nat i, SolidFill).

Definition font0 : FontSettings :=
  mk_FontSettings (mk_u16x2 8 16) (f32_of_Z 12) 1 13 1 (mk_u16x2 12 14) 8 1
    (f32_of_Z 96) GRAYSCALE.

Definition misc0 : MiscSettings := mk_MiscSettings 0 16777215 [] false.

Definition derived0 : DerivedFont :=
  mk_DerivedFont (f32_of_Z 16) f32_one f32_one.

(** A frame of 80 by 30 cells with a user shader configured. *)
Definition payload_shader : RenderingPayload :=
  mk_RenderingPayload
    (mk_Settings 1 font0 1 (mk_MiscSettings 0 0 [115; 46; 104] false) 1
       (mk_CursorSettings 0) (mk_u16x2 640 480) (mk_u16x2 80 30))
    derived0 [] [] (mk_rect 0 0 0 0) false.

(** A new backend with the first [n] test quads queued. *)
Definition backend_with (n : nat) : BackendD3D11 :=
  res_get BackendD3D11_new (appendRects test_args 0 n BackendD3D11_new).

(** A frame of 3 by 2 cells, each of its own background colour, with an
    inverting cursor on the first cell of the second row. *)
Definition payload_cursor : RenderingPayload :=
  mk_RenderingPayload
    (mk_Settings 1 font0 1 misc0 1 (mk_CursorSettings INVALID_COLOR)
       (mk_u16x2 24 32) (mk_u16x2 3 2))
    derived0 [] [10; 20; 30; 40; 50; 60] (mk_rect 0 1 1 2) false.

(** A packer that lays rectangles side by side on one shelf. *)
Definition shelf_pack (c : stbrp_context) (w h : Z) : option (Z * Z) :=
  let x := foldr (fun r acc => r.1.2 + acc) 0 (placed c) in
  if (x + w <=? width c) && (h <=? height c) then Some (x, 0) else None.

Definition platform0 : Platform :=
  mk_Platform Unchanged (mk_RenderParams f32_one f32_one f32_one) true
    (VariableDesc 0)
    (fun _ _ _ => mk_f32r f32_zero f32_zero (f32_of_Z 8) (f32_of_Z 12))
    (fun _ _ => false) shelf_pack.

(** The same, but every glyph has an ink box 70000 units wide: wider than
    any atlas. *)
Definition platform_wide : Platform :=
  mk_Platform Unchanged (mk_RenderParams f32_one f32_one f32_one) true
    (VariableDesc 0)
    (fun _ _ _ => mk_f32r f32_zero f32_zero (f32_of_Z 70000) (f32_of_Z 12))
    (fun _ _ => false) shelf_pack.

(** A frame of 3 by 2 cells with one glyph on its first row and a cursor of
    a fixed colour. *)
Definition row_A : ShapedRow :=
  mk_ShapedRow [mk_FontMapping 0 (f32_of_Z 12) 0 1] [65] [f32_of_Z 8]
    [mk_GlyphOffset f32_zero f32_zero] [16777215] [] 0 0.

Definition payload_plain : RenderingPayload :=
  mk_RenderingPayload
    (mk_Settings 1 font0 1 misc0 1 (mk_CursorSettings 16777215)
       (mk_u16x2 24 32) (mk_u16x2 3 2))
    derived0 [row_A; mk_ShapedRow [] [] [] [] [] [] 0 0]
    [10; 20; 30; 40; 50; 60] (mk_rect 0 1 1 2) false.

(** The backend after that frame. *)
Definition backend_after_frame : BackendD3D11 :=
  res_get BackendD3D11_new (Render 8 platform0 payload_plain BackendD3D11_new).

(** The backend of a first frame on [platform_wide] when its text pass
    begins. *)
Definition backend_before_text : BackendD3D11 :=
  res_get BackendD3D11_new
    (Render_background payload_plain
       (Render_setup payload_plain
          (Render_refresh platform_wide payload_plain BackendD3D11_new))).

(** The backend with two test quads after a flush. *)
Definition backend_flushed : BackendD3D11 :=
  res_get BackendD3D11_new (_flushRects payload_plain (backend_with 2)).

(** A frame of 16384 by 8192 cells: more cells than a buffer of [UINT_MAX]
    bytes holds instances. *)
Definition payload_huge : RenderingPayload :=
  mk_RenderingPayload
    (mk_Settings 1 font0 1 misc0 1 (mk_CursorSettings 16777215)
       (mk_u16x2 65535 65535) (mk_u16x2 16384 8192))
    derived0 [] [] (mk_rect 0 0 0 0) false.

(** A platform whose glyphs have no ink. *)
Definition platform_blank : Platform :=
  mk_Platform Unchanged (mk_RenderParams f32_one f32_one f32_one) true
    (VariableDesc 0)
    (fun _ _ _ => mk_f32r f32_zero f32_zero f32_zero f32_zero)
    (fun _ _ => false) shelf_pack.

(** A cache entry as [_drawGlyph] leaves one, and a new backend with glyph
    65 of font face 0 cached under it. *)
Definition entry_A : GlyphCacheEntry :=
  mk_GlyphCacheEntry (Some TextGrayscale) (-1) (-1) (f32x4_of_Z 0 0 10 14).

Definition backend_cached : BackendD3D11 :=
  set_glyphCache (<[(0%nat, 65) := entry_A]> ∅) BackendD3D11_new.

(** The frame of [payload_plain] with a background bitmap of two colours
    for its six cells. *)
Definition payload_short : RenderingPayload :=
  mk_RenderingPayload
    (mk_Settings 1 font0 1 misc0 1 (mk_CursorSettings 16777215)
       (mk_u16x2 24 32) (mk_u16x2 3 2))
    derived0 [] [10; 20] (mk_rect 0 0 0 0) false.

(** A frame of 3 by 2 cells whose first row has an underline and a double
    underline over two cells and a selection of two cells. *)
Definition payload_overlays : RenderingPayload :=
  mk_RenderingPayload
    (mk_Settings 1 font0 1 misc0 1 (mk_CursorSettings 16777215)
       (mk_u16x2 24 32) (mk_u16x2 3 2))
    derived0
    [ mk_ShapedRow [] [] [] [] []
        [ mk_GridLineRange
            (fun g => match g with Underline | DoubleUnderline => true | _ => false end)
            255 0 2 ] 0 2;
      mk_ShapedRow [] [] [] [] [] [] 0 0 ]
    [10; 20; 30; 40; 50; 60] (mk_rect 0 0 0 0) false.

(** The backend of the first frame of [payload_plain] after its text pass. *)
Definition backend_after_text : BackendD3D11 :=
  res_get BackendD3D11_new (Render_text 8 platform0 payload_plain backend_before_text).

(** A new backend with one quad queued, and the backends of the grid line
    and selection passes of [payload_overlays]. *)
Definition backend_one : BackendD3D11 :=
  res_get BackendD3D11_new
    (_appendRect (f32x4_of_Z 0 0 1 1) f32x4_zero 7 SolidFill BackendD3D11_new).

Definition backend_lines : BackendD3D11 :=
  res_get BackendD3D11_new (Render_gridLines payload_overlays BackendD3D11_new).

Definition backend_selection : BackendD3D11 :=
  res_get BackendD3D11_new (Render_selection payload_overlays BackendD3D11_new).

(** A new backend whose packer is the empty packer of a 256 by 256 atlas. *)
Definition backend_fresh : BackendD3D11 :=
  set_rectPacker (stbrp_init_target 256 256) BackendD3D11_new.

(** A platform whose shader compiler fails. *)
Definition platform_no_compile : Platform :=
  mk_Platform Unchanged (mk_RenderParams f32_one f32_one f32_one) false
    (VariableDesc 0)
    (fun _ _ _ => mk_f32r f32_zero f32_zero (f32_of_Z 8) (f32_of_Z 12))
    (fun _ _ => false) shelf_pack.

(** A frame of 2 by 2 cells, each of its own background colour, with an
    inverting cursor on the first cell of the second row. *)
Definition payload_cursor_square : RenderingPayload :=
  mk_RenderingPayload
    (mk_Settings 1 font0 1 misc0 1 (mk_CursorSettings INVALID_COLOR)
       (mk_u16x2 16 32) (mk_u16x2 2 2))
    derived0 [] [10; 20; 30; 40] (mk_rect 0 1 1 2) false.

(** The frame of [payload_plain] with a user shader configured, the backend
    after it, and the next frame: the cursor has another colour, which moves
    the overall generation and nothing that the tracker compares. *)
Definition payload_custom : RenderingPayload :=
  mk_RenderingPayload
    (mk_Settings 1 font0 1 (mk_MiscSettings 0 16777215 [115; 46; 104] false) 1
       (mk_CursorSettings 16777215) (mk_u16x2 24 32) (mk_u16x2 3 2))
    derived0 [row_A; mk_ShapedRow [] [] [] [] [] [] 0 0]
    [10; 20; 30; 40; 50; 60] (mk_rect 0 1 1 2) false.

Definition backend_after_custom : BackendD3D11 :=
  res_get BackendD3D11_new (Render 8 platform0 payload_custom BackendD3D11_new).

Definition payload_custom_next : RenderingPayload :=
  mk_RenderingPayload
    (mk_Settings 2 font0 1 (mk_MiscSettings 0 16777215 [115; 46; 104] false) 1
       (mk_CursorSettings 255) (mk_u16x2 24 32) (mk_u16x2 3 2))
    derived0 [row_A; mk_ShapedRow [] [] [] [] [] [] 0 0]
    [10; 20; 30; 40; 50; 60] (mk_rect 0 1 1 2) false.

(** A platform whose glyphs have an ink box 150 units wide: two of them do
    not fit side by side in an atlas of 256 by 256 pixels. *)
Definition platform_broad : Platform :=
  mk_Platform Unchanged (mk_RenderParams f32_one f32_one f32_one) true
    (VariableDesc 0)
    (fun _ _ _ => mk_f32r f32_zero f32_zero (f32_of_Z 150) (f32_of_Z 12))
    (fun _ _ => false) shelf_pack.

(** A frame of 3 by 2 cells with two different glyphs on its first row. *)
Definition row_AB : ShapedRow :=
  mk_ShapedRow [mk_FontMapping 0 (f32_of_Z 12) 0 2] [65; 66]
    [f32_of_Z 8; f32_of_Z 8]
    [mk_GlyphOffset f32_zero f32_zero; mk_GlyphOffset f32_zero f32_zero]
    [16777215; 16777215] [] 0 0.

Definition payload_pair : RenderingPayload :=
  mk_RenderingPayload
    (mk_Settings 1 font0 1 misc0 1 (mk_CursorSettings 16777215)
       (mk_u16x2 24 32) (mk_u16x2 3 2))
    derived0 [row_AB; mk_ShapedRow [] [] [] [] [] [] 0 0]
    [10; 20; 30; 40; 50; 60] (mk_rect 0 1 1 2) false.

(** ** The atlas dimensions *)

Lemma wrap32_small z : 0 <= z < 4294967296 -> wrap32 z = z.
Proof. intros H. unfold wrap32. by apply Z.mod_small. Qed.

Lemma atlas_index_bounds size :
  0 <= x2 size -> 0 <= y2 size -> x2 size * y2 size <= 2 ^ 30 ->
  atlas_area size = Z.max 65536 (x2 size * y2 size) ∧
  15 <= atlas_index size <= 29.
Proof.
  intros Hx Hy Hxy. unfold atlas_index, _BitScanReverse, atlas_area.
  assert (0 <= x2 size * y2 size) by nia.
  rewrite wrap32_small by (change (2 ^ 30) with 1073741824 in Hxy; lia).
  split; [done|].
  set (A := Z.max 65536 (x2 size * y2 size)).
  assert (65535 <= A - 1 <= 2 ^ 30 - 1) as [Hlo Hhi] by (unfold A; lia).
  split.
  - change 15 with (Z.log2 65535). by apply Z.log2_le_mono.
  - change 29 with (Z.log2 (2 ^ 30 - 1)). by apply Z.log2_le_mono.
Qed.

Lemma atlas_dimension_exact n :
  8 <= n <= 15 -> saturated_cast_u16 (wrap32 (Z.shiftl 1 n)) = 2 ^ n.
Proof.
  intros Hn. rewrite Z.shiftl_1_l.
  assert (2 ^ 8 <= 2 ^ n <= 2 ^ 15) as Hp
    by (split; apply Z.pow_le_mono_r; lia).
  change (2 ^ 8) with 256 in Hp. change (2 ^ 15) with 32768 in Hp.
  rewrite wrap32_small by lia.
  unfold saturated_cast_u16, U16_MAX.
  destruct (Z.ltb_spec (2 ^ n) 0); [lia|].
  destruct (Z.ltb_spec 65535 (2 ^ n)); [lia|done].
Qed.

(** C3, as amended: for a target of at most 2^30 pixels the atlas is a power
    of two wide and high, holds at least [A = max(65536, x*y)] pixels and
    fewer than [4 * A]; a target of 985 by 1946 pixels gives 2048 by 1024. *)
Theorem C3_atlas_dimensions (size : u16x2) :
  0 <= x2 size -> 0 <= y2 size -> x2 size * y2 size <= 2 ^ 30 ->
  let A := Z.max 65536 (x2 size * y2 size) in
  power_of_two (atlas_u size) ∧ power_of_two (atlas_v size) ∧
  A <= atlas_u size * atlas_v size < 4 * A ∧
  atlas_u (mk_u16x2 985 1946) = 2048 ∧ atlas_v (mk_u16x2 985 1946) = 1024.
Proof.
  intros Hx Hy Hxy A.
  destruct (atlas_index_bounds size Hx Hy Hxy) as [Harea Hidx].
  set (i := atlas_index size) in *.
  assert (8 <= (i + 2) / 2 <= 15) as Hu
    by (Z.to_euclidean_division_equations; lia).
  assert (8 <= (i + 1) / 2 <= 15) as Hv
    by (Z.to_euclidean_division_equations; lia).
  assert ((i + 2) / 2 + (i + 1) / 2 = i + 1) as Hsum
    by (Z.to_euclidean_division_equations; lia).
  unfold atlas_u, atlas_v. fold i.
  rewrite !atlas_dimension_exact by done.
  split; [exists ((i + 2) / 2); lia|].
  split; [exists ((i + 1) / 2); lia|].
  split; [|by vm_compute].
  rewrite <- Z.pow_add_r, Hsum by lia.
  assert (0 < A - 1) as Hpos by (unfold A; lia).
  pose proof (Z.log2_spec (A - 1) Hpos) as [Hl Hr].
  assert (Z.log2 (A - 1) = i) as Hi
    by (unfold i, atlas_index, _BitScanReverse; by rewrite Harea).
  rewrite Hi in Hl, Hr.
  replace (Z.succ i) with (i + 1) in Hr by lia.
  rewrite Z.pow_add_r in * by lia. change (2 ^ 1) with 2 in *. lia.
Qed.

Lemma C3_atlas_dimensions_witness :
  power_of_two (atlas_u (mk_u16x2 1920 1080)) ∧
  atlas_u (mk_u16x2 1920 1080) * atlas_v (mk_u16x2 1920 1080) = 2097152.
Proof.
  pose proof (C3_atlas_dimensions (mk_u16x2 1920 1080)
                ltac:(simpl; lia) ltac:(simpl; lia) ltac:(vm_compute; discriminate))
    as (Hu & _ & _).
  split; [exact Hu | vm_compute; reflexivity].
Defined.

(** C3, as stated, fails where the cast to [u16] saturates: a target of
    40000 by 40000 pixels gets an atlas 65535 wide, not a power of two. *)
Lemma C3_saturated_width_counterexample :
  atlas_u (mk_u16x2 40000 40000) = 65535 ∧
  ¬ power_of_two (atlas_u (mk_u16x2 40000 40000)).
Proof.
  split; [by vm_compute|].
  replace (atlas_u (mk_u16x2 40000 40000)) with 65535 by (by vm_compute).
  intros (k & Hk & E).
  destruct (Z.le_gt_cases 16 k) as [H|H].
  - assert (2 ^ 16 <= 2 ^ k) by (apply Z.pow_le_mono_r; lia).
    change (2 ^ 16) with 65536 in *. lia.
  - assert (k ∈ [0;1;2;3;4;5;6;7;8;9;10;11;12;13;14;15]) as Hin.
    { assert (∃ n : nat, k = Z.of_nat n ∧ (n < 16)%nat) as (n & -> & Hn)
        by (exists (Z.to_nat k); lia).
      do 16 (destruct n as [|n]; [set_solver|]). lia. }
    repeat (apply elem_of_cons in Hin as [->|Hin]; [by vm_compute in E|]).
    by apply elem_of_nil in Hin.
Qed.

(** ** The custom shader stage *)

Lemma WI_IsFlagSet_USED uFlags :
  WI_IsFlagSet uFlags D3D_SVF_USED = Z.testbit uFlags 1.
Proof.
  unfold WI_IsFlagSet, D3D_SVF_USED.
  assert (Z.land uFlags 2 = if Z.testbit uFlags 1 then 2 else 0) as ->.
  { apply Z.bits_inj'. intros n Hn. rewrite Z.land_spec.
    change 2 with (2 ^ 1) at 1.
    destruct (Z.eq_dec n 1) as [->|Hne].
    - rewrite Z.pow2_bits_true by lia.
      destruct (Z.testbit uFlags 1); [done|]. by rewrite Z.bits_0.
    - rewrite Z.pow2_bits_false by lia. rewrite andb_false_r.
      destruct (Z.testbit uFlags 1).
      + change 2 with (2 ^ 1). by rewrite Z.pow2_bits_false by lia.
      + by rewrite Z.bits_0. }
  by destruct (Z.testbit uFlags 1).
Qed.

Lemma requiresContinuousRedraw_put t c b :
  _requiresContinuousRedraw (put t c b) = _requiresContinuousRedraw b.
Proof. reflexivity. Qed.

Lemma requiresContinuousRedraw_custom_tail b :
  _requiresContinuousRedraw
    (if is_set _customPixelShader b then
       put _customShaderSamplerState (CreateSamplerState _customShaderSamplerState)
         (put _customShaderConstantBuffer
            (CreateBuffer _customShaderConstantBuffer sizeof_CustomConstBuffer)
            (put _customVertexShader (CreateVertexShader _customVertexShader) b))
     else b)
  = _requiresContinuousRedraw b.
Proof. destruct (is_set _customPixelShader b); reflexivity. Qed.

(** C9: after [_recreateCustomShader], with a user shader that compiles,
    [RequiresContinuousRedraw] is false exactly when the reflection succeeds
    and shows the time unused, and true otherwise; with the built-in retro
    effect and no user shader it is false, and with neither it is false. *)
Theorem C9_requires_continuous_redraw (env : Platform) (p : RenderingPayload)
    (b : BackendD3D11) :
  let b' := _recreateCustomShader env p b in
  (customPixelShaderPath (misc (s p)) ≠ [] -> compileSucceeded env = true ->
     RequiresContinuousRedraw b' = negb (time_proved_unused (reflection env))) ∧
  (customPixelShaderPath (misc (s p)) = [] ->
     useRetroTerminalEffect (misc (s p)) = true ->
     RequiresContinuousRedraw b' = false) ∧
  (customPixelShaderPath (misc (s p)) = [] ->
     useRetroTerminalEffect (misc (s p)) = false ->
     RequiresContinuousRedraw b' = false).
Proof.
  unfold RequiresContinuousRedraw, _recreateCustomShader.
  cbv zeta. rewrite requiresContinuousRedraw_custom_tail.
  split; [|split].
  - intros Hpath Hok.
    destruct (customPixelShaderPath (misc (s p))) as [|c path]; [done|].
    rewrite Hok.
    destruct (reflection env) as [ | | | | uFlags ]; try reflexivity.
    change (WI_IsFlagSet uFlags D3D_SVF_USED = negb (negb (Z.testbit uFlags 1))).
    rewrite WI_IsFlagSet_USED. by rewrite negb_involutive.
  - intros -> ->. done.
  - intros -> ->. done.
Qed.

Lemma C9_requires_continuous_redraw_witness :
  RequiresContinuousRedraw (_recreateCustomShader platform0 payload_shader BackendD3D11_new)
  = false.
Proof.
  refine (proj1 (C9_requires_continuous_redraw platform0 payload_shader BackendD3D11_new)
            _ _).
  - simpl. discriminate.
  - reflexivity.
Defined.

(** Members of updated backends, computed innermost first. *)
Ltac backend_simpl :=
  cbv beta iota zeta delta
    [ _generation _fontGeneration _miscGeneration _targetSize _cellCount
      ptrs _renderParams _requiresContinuousRedraw _rectPacker _glyphCache
      beganDrawing _brushColor _instances _indices _instancesSize
      _indicesSize _instanceBufferSize _indexBufferSize _vertexInstanceData
      calls set_generation set_fontGeneration set_miscGeneration
      set_targetSize set_cellCount set_ptrs set_renderParams
      set_requiresContinuousRedraw set_rectPacker set_glyphCache
      set_beganDrawing set_brushColor set_instances set_indices
      set_instancesSize set_indicesSize set_instanceBufferSize
      set_indexBufferSize set_vertexInstanceData set_calls call put reset ].

Tactic Notation "backend_simpl" "in" hyp(H) :=
  cbv beta iota zeta delta
    [ _generation _fontGeneration _miscGeneration _targetSize _cellCount
      ptrs _renderParams _requiresContinuousRedraw _rectPacker _glyphCache
      beganDrawing _brushColor _instances _indices _instancesSize
      _indicesSize _instanceBufferSize _indexBufferSize _vertexInstanceData
      calls set_generation set_fontGeneration set_miscGeneration
      set_targetSize set_cellCount set_ptrs set_renderParams
      set_requiresContinuousRedraw set_rectPacker set_glyphCache
      set_beganDrawing set_brushColor set_instances set_indices
      set_instancesSize set_indicesSize set_instanceBufferSize
      set_indexBufferSize set_vertexInstanceData set_calls call put reset ] in H.

(** ** The quad batcher: appends *)

Lemma bind_Ok {A B} (a : A) (k : A -> res B) : (Ok a ≫= k) = k a.
Proof. reflexivity. Qed.

Lemma res_get_Ok {A} (d : A) (r : res A) : is_Ok r = true -> r = Ok (res_get d r).
Proof. destruct r; [reflexivity | discriminate]. Defined.

Lemma bind_Ok_inv {A B} (m : res A) (k : A -> res B) (r : B) :
  (m ≫= k) = Ok r -> ∃ a, m = Ok a ∧ k a = Ok r.
Proof. destruct m as [a|f]; [eauto | discriminate]. Qed.

Lemma Buffer_store_ok {T} (l : Buffer T) i v :
  (i < length l)%nat -> Buffer_store l i v = Ok (<[i := Some v]> l).
Proof. intros H. unfold Buffer_store. by rewrite decide_True. Qed.

Lemma Buffer_store_inv {T} (l l' : Buffer T) i v :
  Buffer_store l i v = Ok l' -> (i < length l)%nat ∧ l' = <[i := Some v]> l.
Proof. unfold Buffer_store. case_decide; [|discriminate]. by intros [= <-]. Qed.

Lemma push_index_ok v b :
  (_indicesSize b < length (_indices b))%nat ->
  push_index v b =
    Ok (set_indicesSize (S (_indicesSize b))
          (set_indices (<[_indicesSize b := Some v]> (_indices b)) b)).
Proof. intros H. unfold push_index. by rewrite Buffer_store_ok. Qed.

Lemma push_index_inv v b b' :
  push_index v b = Ok b' ->
  b' = set_indicesSize (S (_indicesSize b))
         (set_indices (<[_indicesSize b := Some v]> (_indices b)) b).
Proof.
  unfold push_index. intros H. apply bind_Ok_inv in H as (l & Hl & [= <-]).
  apply Buffer_store_inv in Hl as [_ ->]. done.
Qed.

(** The four members of the batcher, read after one of them was assigned. *)
Lemma instances_set_instances v b : _instances (set_instances v b) = v.
Proof. reflexivity. Qed.
Lemma instances_set_indices v b : _instances (set_indices v b) = _instances b.
Proof. reflexivity. Qed.
Lemma instances_set_instancesSize v b : _instances (set_instancesSize v b) = _instances b.
Proof. reflexivity. Qed.
Lemma instances_set_indicesSize v b : _instances (set_indicesSize v b) = _instances b.
Proof. reflexivity. Qed.
Lemma indices_set_instances v b : _indices (set_instances v b) = _indices b.
Proof. reflexivity. Qed.
Lemma indices_set_indices v b : _indices (set_indices v b) = v.
Proof. reflexivity. Qed.
Lemma indices_set_instancesSize v b : _indices (set_instancesSize v b) = _indices b.
Proof. reflexivity. Qed.
Lemma indices_set_indicesSize v b : _indices (set_indicesSize v b) = _indices b.
Proof. reflexivity. Qed.
Lemma instancesSize_set_instances v b : _instancesSize (set_instances v b) = _instancesSize b.
Proof. reflexivity. Qed.
Lemma instancesSize_set_indices v b : _instancesSize (set_indices v b) = _instancesSize b.
Proof. reflexivity. Qed.
Lemma instancesSize_set_instancesSize v b : _instancesSize (set_instancesSize v b) = v.
Proof. reflexivity. Qed.
Lemma instancesSize_set_indicesSize v b : _instancesSize (set_indicesSize v b) = _instancesSize b.
Proof. reflexivity. Qed.
Lemma indicesSize_set_instances v b : _indicesSize (set_instances v b) = _indicesSize b.
Proof. reflexivity. Qed.
Lemma indicesSize_set_indices v b : _indicesSize (set_indices v b) = _indicesSize b.
Proof. reflexivity. Qed.
Lemma indicesSize_set_instancesSize v b : _indicesSize (set_instancesSize v b) = _indicesSize b.
Proof. reflexivity. Qed.
Lemma indicesSize_set_indicesSize v b : _indicesSize (set_indicesSize v b) = v.
Proof. reflexivity. Qed.

#[global] Hint Rewrite
  instances_set_instances instances_set_indices instances_set_instancesSize
  instances_set_indicesSize indices_set_instances indices_set_indices
  indices_set_instancesSize indices_set_indicesSize instancesSize_set_instances
  instancesSize_set_indices instancesSize_set_instancesSize instancesSize_set_indicesSize
  indicesSize_set_instances indicesSize_set_indices indicesSize_set_instancesSize
  indicesSize_set_indicesSize : batch.

Lemma with_room_sizes b :
  _instancesSize (with_room b) = _instancesSize b ∧
  _indicesSize (with_room b) = _indicesSize b.
Proof. unfold with_room. by case_decide. Qed.

Lemma with_room_wf b :
  batcher_wf b ->
  (_instancesSize b < length (_instances (with_room b)))%nat ∧
  length (_indices (with_room b)) = (length (_instances (with_room b)) * 6)%nat.
Proof.
  intros [H1 H2 H3]. unfold with_room. case_decide.
  - unfold _bumpInstancesSize, Buffer_new. simpl. rewrite !length_replicate. lia.
  - lia.
Qed.

Lemma beside_batch_set_instances v b :
  beside_batch (set_instances v b) = beside_batch b.
Proof. by destruct b. Qed.

Lemma beside_batch_set_indices v b :
  beside_batch (set_indices v b) = beside_batch b.
Proof. by destruct b. Qed.

Lemma beside_batch_set_instancesSize v b :
  beside_batch (set_instancesSize v b) = beside_batch b.
Proof. by destruct b. Qed.

Lemma beside_batch_set_indicesSize v b :
  beside_batch (set_indicesSize v b) = beside_batch b.
Proof. by destruct b. Qed.

Ltac beside_batch_simpl :=
  rewrite ?beside_batch_set_instances, ?beside_batch_set_indices,
    ?beside_batch_set_instancesSize, ?beside_batch_set_indicesSize.

Lemma push_index_spec v b b' :
  push_index v b = Ok b' ->
  _indices b' = <[_indicesSize b := Some v]> (_indices b) ∧
  _indicesSize b' = S (_indicesSize b) ∧
  _instances b' = _instances b ∧
  _instancesSize b' = _instancesSize b ∧
  beside_batch b' = beside_batch b.
Proof.
  intros ->%push_index_inv. repeat split.
Qed.

Lemma with_room_beside_batch b : beside_batch (with_room b) = beside_batch b.
Proof.
  unfold with_room, _bumpInstancesSize. case_decide; by beside_batch_simpl.
Qed.

(** What an append that succeeds leaves in the staging arrays; everything
    else is as before. *)
Lemma appendRect_spec pos tex col st b b' :
  _appendRect pos tex col st b = Ok b' ->
  let n := _instancesSize b in
  let k := _indicesSize b in
  let off := wrap32 (Z.of_nat (n * 4)) in
  (n < length (_instances (with_room b)))%nat ∧
  _instances b' = <[n := Some (mk_QuadInstance pos tex col st)]> (_instances (with_room b)) ∧
  _indices b' =
    <[S (S (S (S (S k)))) := Some (wrap32 (off + 1))]>
      (<[S (S (S (S k))) := Some (wrap32 (off + 2))]>
        (<[S (S (S k)) := Some (wrap32 (off + 3))]>
          (<[S (S k) := Some (wrap32 (off + 2))]>
            (<[S k := Some (wrap32 (off + 1))]>
              (<[k := Some (wrap32 (off + 0))]> (_indices (with_room b))))))) ∧
  _instancesSize b' = S n ∧
  _indicesSize b' = S (S (S (S (S (S k))))) ∧
  beside_batch b' = beside_batch b.
Proof.
  intros H n k off. unfold _appendRect in H. fold (with_room b) in H.
  fold n in H. fold off in H.
  pose proof (with_room_sizes b) as [Hn Hk].
  pose proof (with_room_beside_batch b) as Hb.
  fold n in Hn. fold k in Hk. rewrite Hn in H.
  apply bind_Ok_inv in H as (l & Hl & H). apply Buffer_store_inv in Hl as [Hlt ->].
  set (b0 := set_instancesSize (S n) (set_instances _ (with_room b))) in H.
  assert (_indices b0 = _indices (with_room b) ∧ _indicesSize b0 = k ∧
          _instances b0 = <[n := Some (mk_QuadInstance pos tex col st)]>
                            (_instances (with_room b)) ∧
          _instancesSize b0 = S n ∧ beside_batch b0 = beside_batch b)
    as (E1 & E2 & E3 & E4 & E5).
  { unfold b0. repeat split; beside_batch_simpl; done. }
  clearbody b0.
  apply bind_Ok_inv in H as (b1 & (F1 & F2 & F3 & F4 & F5)%push_index_spec & H).
  rewrite E1, E2 in F1. rewrite E2 in F2. rewrite E3 in F3. rewrite E4 in F4.
  rewrite E5 in F5. clear b0 E1 E2 E3 E4 E5.
  apply bind_Ok_inv in H as (b2 & (G1 & G2 & G3 & G4 & G5)%push_index_spec & H).
  rewrite F1, F2 in G1. rewrite F2 in G2. rewrite F3 in G3. rewrite F4 in G4.
  rewrite F5 in G5. clear b1 F1 F2 F3 F4 F5.
  apply bind_Ok_inv in H as (b1 & (F1 & F2 & F3 & F4 & F5)%push_index_spec & H).
  rewrite G1, G2 in F1. rewrite G2 in F2. rewrite G3 in F3. rewrite G4 in F4.
  rewrite G5 in F5. clear b2 G1 G2 G3 G4 G5.
  apply bind_Ok_inv in H as (b2 & (G1 & G2 & G3 & G4 & G5)%push_index_spec & H).
  rewrite F1, F2 in G1. rewrite F2 in G2. rewrite F3 in G3. rewrite F4 in G4.
  rewrite F5 in G5. clear b1 F1 F2 F3 F4 F5.
  apply bind_Ok_inv in H as (b1 & (F1 & F2 & F3 & F4 & F5)%push_index_spec & H).
  rewrite G1, G2 in F1. rewrite G2 in F2. rewrite G3 in F3. rewrite G4 in F4.
  rewrite G5 in F5. clear b2 G1 G2 G3 G4 G5.
  apply push_index_spec in H as (G1 & G2 & G3 & G4 & G5).
  rewrite F1, F2 in G1. rewrite F2 in G2. rewrite F3 in G3. rewrite F4 in G4.
  rewrite F5 in G5. done.
Qed.

Lemma appendRect_frame pos tex col st b b' :
  _appendRect pos tex col st b = Ok b' -> beside_batch b' = beside_batch b.
Proof. intros H. by apply appendRect_spec in H as (_ & _ & _ & _ & _ & ?). Qed.

(** On well-formed staging arrays an append succeeds, queues one quad and
    six indices, and leaves the arrays well formed. *)
Lemma appendRect_ok pos tex col st b :
  batcher_wf b ->
  ∃ b', _appendRect pos tex col st b = Ok b' ∧ batcher_wf b' ∧
    _instancesSize b' = S (_instancesSize b) ∧
    _indicesSize b' = (_indicesSize b + 6)%nat ∧
    _instances b' !! _instancesSize b = Some (Some (mk_QuadInstance pos tex col st)).
Proof.
  intros Hwf. pose proof (with_room_wf b Hwf) as [Hlt Hlen].
  pose proof (with_room_sizes b) as [Hn Hk].
  pose proof (wf_indicesSize b Hwf) as Hk6.
  unfold _appendRect. fold (with_room b).
  rewrite Hn. rewrite Buffer_store_ok by done. rewrite bind_Ok.
  do 5 (rewrite push_index_ok by (simpl; rewrite ?length_insert; lia); rewrite bind_Ok).
  rewrite push_index_ok by (simpl; rewrite ?length_insert; lia).
  eexists. split; [reflexivity|].
  split; [|split; [|split]].
  - split; simpl; rewrite ?length_insert; lia.
  - by simpl.
  - simpl. lia.
  - simpl. by apply list_lookup_insert_eq.
Qed.

(** Without growth an append leaves the quads queued before it where they
    are. *)
Lemma appendRect_keeps_without_growth pos tex col st b b' i :
  (_instancesSize b < length (_instances b))%nat ->
  _appendRect pos tex col st b = Ok b' ->
  (i < _instancesSize b)%nat ->
  _instances b' !! i = _instances b !! i.
Proof.
  intros Hroom H Hi. apply appendRect_spec in H as (_ & -> & _).
  unfold with_room. rewrite decide_False by lia.
  apply list_lookup_insert_ne. lia.
Qed.

(** With growth every slot below the new quad is left without a value. *)
Lemma appendRect_growth_discards pos tex col st b b' i :
  (length (_instances b) <= _instancesSize b)%nat ->
  _appendRect pos tex col st b = Ok b' ->
  (i < _instancesSize b)%nat ->
  _instances b' !! i = Some None.
Proof.
  intros Hfull H Hi. apply appendRect_spec in H as (Hlt & -> & _).
  unfold with_room in *. rewrite decide_True in * by lia.
  unfold _bumpInstancesSize, Buffer_new in *. autorewrite with batch in *.
  rewrite length_replicate in Hlt.
  rewrite list_lookup_insert_ne by lia.
  apply lookup_replicate_2. lia.
Qed.

Lemma appendRects_ok args from n b :
  batcher_wf b ->
  ∃ b', appendRects args from n b = Ok b' ∧ batcher_wf b' ∧
    _instancesSize b' = (_instancesSize b + n)%nat ∧
    _indicesSize b' = (_indicesSize b + 6 * n)%nat.
Proof.
  revert from b. induction n as [|n IH]; intros from b Hwf.
  - exists b. simpl. repeat split; try apply Hwf; lia.
  - simpl. destruct (args from) as [[[pos tex] col] st].
    destruct (appendRect_ok pos tex col st b Hwf) as (b1 & -> & Hwf1 & Hn1 & Hk1 & _).
    rewrite bind_Ok.
    destruct (IH (S from) b1 Hwf1) as (b' & -> & Hwf' & Hn' & Hk').
    exists b'. repeat split; try apply Hwf'; lia.
Qed.

Lemma BackendD3D11_new_wf : batcher_wf BackendD3D11_new.
Proof. by split. Qed.

(** The six indices of the quad an append queues. *)
Lemma appendRect_indices pos tex col st b b' :
  batcher_wf b ->
  _appendRect pos tex col st b = Ok b' ->
  let off := wrap32 (Z.of_nat (_instancesSize b * 4)) in
  take 6 (drop (_indicesSize b) (_indices b')) =
    [ Some (wrap32 (off + 0)); Some (wrap32 (off + 1)); Some (wrap32 (off + 2));
      Some (wrap32 (off + 3)); Some (wrap32 (off + 2)); Some (wrap32 (off + 1)) ].
Proof.
  intros Hwf H off. pose proof (with_room_wf b Hwf) as [Hlt Hlen].
  pose proof (wf_indicesSize b Hwf) as Hk6.
  apply appendRect_spec in H as (_ & _ & -> & _). fold off.
  set (k := _indicesSize b) in *.
  apply list_eq. intros j.
  rewrite lookup_take, lookup_drop.
  destruct (decide (j < 6)%nat) as [Hj|Hj]; [|by rewrite lookup_ge_None_2 by (simpl; lia)].
  rewrite (Nat.add_comm k j).
  do 6 (destruct j as [|j];
    [ simpl;
      repeat first
        [ rewrite list_lookup_insert_eq by (rewrite ?length_insert; lia)
        | rewrite list_lookup_insert_ne by lia ];
      reflexivity
    | ]).
  lia.
Qed.

Lemma appendRects_split args from n m b :
  appendRects args from (n + m) b =
  appendRects args from n b ≫= appendRects args (from + n) m.
Proof.
  revert from b. induction n as [|n IH]; intros from b.
  - by rewrite Nat.add_0_r.
  - cbn [Nat.add appendRects]. destruct (args from) as [[[pos tex] col] st].
    destruct (_appendRect pos tex col st b) as [b1|f]; [|done].
    rewrite !bind_Ok, IH. by rewrite Nat.add_succ_r.
Qed.

(** The capacity of the staging array after an append. *)
Lemma appendRect_capacity pos tex col st b b' :
  _appendRect pos tex col st b = Ok b' ->
  length (_instances b') =
    if decide (length (_instances b) <= _instancesSize b)%nat
    then Nat.max 1024 (length (_instances b) * 2) else length (_instances b).
Proof.
  intros (_ & -> & _)%appendRect_spec. rewrite length_insert.
  unfold with_room. case_decide; [|done].
  unfold _bumpInstancesSize, Buffer_new. autorewrite with batch.
  by rewrite length_replicate.
Qed.

(** Appends that find room leave the capacity as it is. *)
Lemma appendRects_with_room args from n b :
  batcher_wf b ->
  (_instancesSize b + n <= length (_instances b))%nat ->
  ∃ b', appendRects args from n b = Ok b' ∧ batcher_wf b' ∧
    _instancesSize b' = (_instancesSize b + n)%nat ∧
    _indicesSize b' = (_indicesSize b + 6 * n)%nat ∧
    length (_instances b') = length (_instances b).
Proof.
  revert from b. induction n as [|n IH]; intros from b Hwf Hroom.
  - exists b. simpl. repeat split; try apply Hwf; lia.
  - simpl. destruct (args from) as [[[pos tex] col] st].
    destruct (appendRect_ok pos tex col st b Hwf) as (b1 & H1 & Hwf1 & Hn1 & Hk1 & _).
    pose proof (appendRect_capacity _ _ _ _ _ _ H1) as Hc.
    rewrite decide_False in Hc by lia.
    rewrite H1, bind_Ok.
    destruct (IH (S from) b1 Hwf1) as (b' & -> & Hwf' & Hn' & Hk' & Hc'); [lia|].
    exists b'. repeat split; try apply Hwf'; lia.
Qed.

(** With growth the indices queued before are left without a value too. *)
Lemma appendRect_growth_discards_indices pos tex col st b b' i :
  batcher_wf b ->
  (length (_instances b) <= _instancesSize b)%nat ->
  _appendRect pos tex col st b = Ok b' ->
  (i < _indicesSize b)%nat ->
  _indices b' !! i = Some None.
Proof.
  intros [Hn Hlen Hk] Hfull H Hi. apply appendRect_spec in H as (Hlt & _ & -> & _).
  unfold with_room in *. rewrite decide_True in * by lia.
  unfold _bumpInstancesSize, Buffer_new in *. autorewrite with batch in *.
  rewrite length_replicate in *.
  rewrite !list_lookup_insert_ne by lia.
  apply lookup_replicate_2. lia.
Qed.

(** The first appends on empty staging arrays: one growth, to 1024 slots. *)
Lemma appendRects_grow_once args from n b :
  batcher_wf b -> length (_instances b) = 0%nat -> (0 < n <= 1024)%nat ->
  ∃ b', appendRects args from n b = Ok b' ∧ batcher_wf b' ∧
    _instancesSize b' = n ∧ _indicesSize b' = (6 * n)%nat ∧
    length (_instances b') = 1024%nat.
Proof.
  intros Hwf Hlen Hn. destruct n as [|n]; [lia|].
  pose proof Hwf as [Hs _ Hk]. rewrite Hlen in Hs.
  simpl. destruct (args from) as [[[pos tex] col] st].
  destruct (appendRect_ok pos tex col st b Hwf) as (b1 & H1 & Hwf1 & Hn1 & Hk1 & _).
  pose proof (appendRect_capacity _ _ _ _ _ _ H1) as Hc.
  rewrite decide_True in Hc by lia. rewrite Hlen in Hc.
  rewrite H1, bind_Ok.
  destruct (appendRects_with_room args (S from) n b1 Hwf1)
    as (b' & -> & Hwf' & Hn' & Hk' & Hlen'); [lia|].
  exists b'. repeat split; try apply Hwf'; lia.
Qed.

(** One append more than the staging arrays hold: they grow, and nothing
    that was queued is left in them. *)
Lemma appendRect_overflow pos tex col st b :
  batcher_wf b -> _instancesSize b = length (_instances b) ->
  ∃ b', _appendRect pos tex col st b = Ok b' ∧
    _instancesSize b' = S (_instancesSize b) ∧
    _indicesSize b' = (_indicesSize b + 6)%nat ∧
    length (_instances b') = Nat.max 1024 (length (_instances b) * 2) ∧
    (∀ i, (i < _instancesSize b)%nat -> _instances b' !! i = Some None) ∧
    _instances b' !! _instancesSize b = Some (Some (mk_QuadInstance pos tex col st)) ∧
    (∀ i, (i < _indicesSize b)%nat -> _indices b' !! i = Some None) ∧
    (let off := wrap32 (Z.of_nat (_instancesSize b * 4)) in
     take 6 (drop (_indicesSize b) (_indices b')) =
       [ Some (wrap32 (off + 0)); Some (wrap32 (off + 1)); Some (wrap32 (off + 2));
         Some (wrap32 (off + 3)); Some (wrap32 (off + 2)); Some (wrap32 (off + 1)) ]).
Proof.
  intros Hwf Hfull.
  destruct (appendRect_ok pos tex col st b Hwf) as (b' & H & Hwf' & Hn & Hk & Hlast).
  exists b'. split; [done|]. split; [done|]. split; [done|].
  split. { rewrite (appendRect_capacity _ _ _ _ _ _ H). by rewrite decide_True by lia. }
  split.
  { intros i Hi. apply (appendRect_growth_discards pos tex col st b b' i); [lia|done|done]. }
  split; [done|].
  split.
  { intros i Hi.
    apply (appendRect_growth_discards_indices pos tex col st b b' i); [done|lia|done|done]. }
  by apply (appendRect_indices _ _ _ _ _ _ Hwf H).
Qed.

Lemma take_all_None {T} (l : list (option T)) n :
  (∀ i, (i < n)%nat -> l !! i = Some None) -> take n l = replicate n None.
Proof.
  intros H. apply list_eq. intros i. rewrite lookup_take.
  destruct (decide (i < n)%nat) as [Hi|Hi].
  - rewrite H by done. symmetry. by apply lookup_replicate_2.
  - symmetry. apply lookup_ge_None_2. rewrite length_replicate. lia.
Qed.

(** The 1025 appends of the examples: 1024 that fill the first staging
    arrays and one that overflows them. *)
Lemma appendRects_1025 :
  ∃ b1 b2,
    appendRects test_args 0 1025 BackendD3D11_new = Ok b2 ∧
    batcher_wf b1 ∧ _instancesSize b1 = 1024%nat ∧
    _indicesSize b1 = (6 * 1024)%nat ∧ length (_instances b1) = 1024%nat ∧
    _appendRect (f32x4_of_Z 1024 0 1 1) f32x4_zero 1024 SolidFill b1 = Ok b2.
Proof.
  destruct (appendRects_grow_once test_args 0 1024 BackendD3D11_new
              BackendD3D11_new_wf eq_refl ltac:(lia))
    as (b1 & H1 & Hwf1 & Hn1 & Hk1 & Hc1).
  destruct (appendRect_overflow (f32x4_of_Z 1024 0 1 1) f32x4_zero 1024 SolidFill b1 Hwf1)
    as (b2 & H2 & _); [congruence|].
  exists b1, b2.
  refine (conj _ (conj Hwf1 (conj Hn1 (conj Hk1 (conj Hc1 H2))))).
  rewrite (appendRects_split test_args 0 1024 1), H1, bind_Ok.
  cbn [appendRects]. change (test_args (0 + 1024)) with
    (f32x4_of_Z 1024 0 1 1, f32x4_zero, 1024, SolidFill).
  cbv beta iota. by rewrite H2, !bind_Ok.
Qed.

(** C1, on the code: 1025 appends on a new backend leave 1025 quads and 6150
    indices counted, but the 1025th append replaced the staging array, and
    the slots of the first 1024 quads hold no value. *)
Theorem C1_growth_discards_queued_quads :
  (b ← appendRects test_args 0 1025 BackendD3D11_new;
   Ok (_instancesSize b, _indicesSize b, length (_instances b),
       _instances b !! 0%nat, _instances b !! 1023%nat,
       color <$> default None (_instances b !! 1024%nat)))
  = Ok (1025%nat, 6150%nat, 2048%nat, Some None, Some None, Some 1024).
Proof.
  destruct appendRects_1025 as (b1 & b2 & -> & Hwf1 & Hn1 & Hk1 & Hc1 & H2).
  destruct (appendRect_overflow (f32x4_of_Z 1024 0 1 1) f32x4_zero 1024 SolidFill b1 Hwf1)
    as (b2' & H2' & Hn2 & Hk2 & Hc2 & Hlost & Hlast & _); [congruence|].
  rewrite H2 in H2'. injection H2' as <-.
  rewrite bind_Ok, Hn2, Hk2, Hc2, !Hlost by lia.
  rewrite Hn1 in Hlast. rewrite Hlast, Hn1, Hk1, Hc1. reflexivity.
Qed.

(** C10, on the code: after the same 1025 appends the counts are 1025 and
    6 * 1025, the indices of the last quad are 4096, 4097, 4098, 4099, 4098,
    4097, and the indices of quad 0 hold no value. *)
Theorem C10_growth_discards_queued_indices :
  (b ← appendRects test_args 0 1025 BackendD3D11_new;
   Ok (_instancesSize b, _indicesSize b,
       take 6 (_indices b), take 6 (drop 6144 (_indices b))))
  = Ok (1025%nat, 6150%nat, replicate 6 None, quad_indices 4096).
Proof.
  destruct appendRects_1025 as (b1 & b2 & -> & Hwf1 & Hn1 & Hk1 & Hc1 & H2).
  destruct (appendRect_overflow (f32x4_of_Z 1024 0 1 1) f32x4_zero 1024 SolidFill b1 Hwf1)
    as (b2' & H2' & Hn2 & Hk2 & _ & _ & _ & Hlost & Hlast); [congruence|].
  rewrite H2 in H2'. injection H2' as <-.
  rewrite Hn1, Hk1 in Hlast. rewrite Hk1 in Hlost.
  rewrite bind_Ok, Hn2, Hk2, Hn1, Hk1.
  rewrite (take_all_None (_indices b2) 6) by (intros i Hi; apply Hlost; lia).
  f_equal. f_equal. exact Hlast.
Qed.

(** ** The quad batcher: flush *)

Lemma narrow_UINT_ok z : 0 <= z <= UINT_MAX -> narrow_UINT z = Ok z.
Proof.
  intros [H1 H2]. unfold narrow_UINT.
  destruct (Z.leb_spec 0 z); [|lia]. destruct (Z.leb_spec z UINT_MAX); [done|lia].
Qed.

Lemma Buffer_read_ok {T} (l : Buffer T) n :
  (n <= length l)%nat -> Buffer_read l n = Ok (take n l).
Proof. intros H. unfold Buffer_read. by rewrite decide_True. Qed.

Lemma calls_call c b : calls (call c b) = calls b ++ [c].
Proof. reflexivity. Qed.

Lemma calls_put t c b : calls (put t c b) = calls b ++ [c].
Proof. reflexivity. Qed.

Lemma calls_reset t b : calls (reset t b) = calls b.
Proof. reflexivity. Qed.

(** What a flush does, call by call. *)
Lemma flushRects_spec (p : RenderingPayload) (b : BackendD3D11) :
  (_instancesSize b <= length (_instances b))%nat ->
  (_indicesSize b <= length (_indices b))%nat ->
  ((_instanceBufferSize b < _instancesSize b)%nat ->
   sizeof_QuadInstance * Z.of_nat (grown_capacity p (_instancesSize b)) <= UINT_MAX) ->
  ((_indexBufferSize b < _indicesSize b)%nat ->
   sizeof_u32 * Z.of_nat (grown_capacity p (_indicesSize b)) <= UINT_MAX) ->
  (_instancesSize b = 0%nat -> _flushRects p b = Ok b) ∧
  (_instancesSize b ≠ 0%nat ->
   ∃ b', _flushRects p b = Ok b' ∧
     calls b' = calls b ++ instance_realloc_calls p b ++ index_realloc_calls p b
                        ++ upload_and_draw_calls b ∧
     _instanceBufferSize b' =
       (if decide (_instanceBufferSize b < _instancesSize b)%nat
        then grown_capacity p (_instancesSize b) else _instanceBufferSize b) ∧
     _indexBufferSize b' =
       (if decide (_indexBufferSize b < _indicesSize b)%nat
        then grown_capacity p (_indicesSize b) else _indexBufferSize b) ∧
     _instancesSize b' = 0%nat ∧ _indicesSize b' = 0%nat).
Proof.
  intros Hn Hk Hfit1 Hfit2. unfold _flushRects. split.
  - intros H0. by rewrite decide_True.
  - intros Hne. rewrite decide_False by done.
    unfold instance_realloc_calls, index_realloc_calls, upload_and_draw_calls.
    fold (grown_capacity p (_instancesSize b)).
    destruct (decide (_instanceBufferSize b < _instancesSize b)%nat) as [H1|H1].
    + rewrite narrow_UINT_ok by (unfold sizeof_QuadInstance in *; lia).
      rewrite !bind_Ok. cbn [_indexBufferSize _indicesSize set_instanceBufferSize
        call put reset set_calls set_ptrs].
      fold (grown_capacity p (_indicesSize b)).
      destruct (decide (_indexBufferSize b < _indicesSize b)%nat) as [H2|H2].
      * rewrite narrow_UINT_ok by (unfold sizeof_u32 in *; lia).
        rewrite !bind_Ok. simpl.
        rewrite !Buffer_read_ok by done. rewrite !bind_Ok.
        eexists. split; [reflexivity|]. simpl.
        rewrite <- !app_assoc. done.
      * rewrite !bind_Ok. simpl.
        rewrite !Buffer_read_ok by done. rewrite !bind_Ok.
        eexists. split; [reflexivity|]. simpl.
        rewrite <- !app_assoc. done.
    + rewrite !bind_Ok.
      fold (grown_capacity p (_indicesSize b)).
      destruct (decide (_indexBufferSize b < _indicesSize b)%nat) as [H2|H2].
      * rewrite narrow_UINT_ok by (unfold sizeof_u32 in *; lia).
        rewrite !bind_Ok. simpl.
        rewrite !Buffer_read_ok by done. rewrite !bind_Ok.
        eexists. split; [reflexivity|]. simpl.
        rewrite <- !app_assoc. done.
      * rewrite !bind_Ok. simpl.
        rewrite !Buffer_read_ok by done. rewrite !bind_Ok.
        eexists. split; [reflexivity|]. simpl.
        rewrite <- !app_assoc. done.
Qed.

(** C8, as amended: a flush with nothing queued does nothing.  Otherwise,
    provided that a device buffer that has to grow gets a byte width that fits
    a [UINT] ([gsl::narrow] throws if not), it reallocates the instance
    buffer to [max(cellCount.x * cellCount.y, size + size / 2)] elements, and
    binds it, exactly when the queued count exceeds its capacity (the index
    buffer likewise), uploads the queued instances and indices through
    write-discard maps, issues one indexed draw of all queued indices, and
    resets both counts to zero. *)
Theorem C8_flushRects (p : RenderingPayload) (b : BackendD3D11) :
  (_instancesSize b <= length (_instances b))%nat ->
  (_indicesSize b <= length (_indices b))%nat ->
  ((_instanceBufferSize b < _instancesSize b)%nat ->
   sizeof_QuadInstance * Z.of_nat (grown_capacity p (_instancesSize b)) <= UINT_MAX) ->
  ((_indexBufferSize b < _indicesSize b)%nat ->
   sizeof_u32 * Z.of_nat (grown_capacity p (_indicesSize b)) <= UINT_MAX) ->
  (_instancesSize b = 0%nat -> _flushRects p b = Ok b) ∧
  (_instancesSize b ≠ 0%nat ->
   ∃ b', _flushRects p b = Ok b' ∧
     calls b' = calls b ++ instance_realloc_calls p b ++ index_realloc_calls p b
                        ++ upload_and_draw_calls b ∧
     _instanceBufferSize b' =
       (if decide (_instanceBufferSize b < _instancesSize b)%nat
        then grown_capacity p (_instancesSize b) else _instanceBufferSize b) ∧
     _indexBufferSize b' =
       (if decide (_indexBufferSize b < _indicesSize b)%nat
        then grown_capacity p (_indicesSize b) else _indexBufferSize b) ∧
     _instancesSize b' = 0%nat ∧ _indicesSize b' = 0%nat).
Proof. apply flushRects_spec. Qed.

Lemma C8_flushRects_witness :
  ∃ b', _flushRects payload_shader (backend_with 2) = Ok b' ∧
    calls b' = calls (backend_with 2)
                 ++ instance_realloc_calls payload_shader (backend_with 2)
                 ++ index_realloc_calls payload_shader (backend_with 2)
                 ++ upload_and_draw_calls (backend_with 2) ∧
    _instanceBufferSize b' = 2400%nat ∧ _indexBufferSize b' = 2400%nat ∧
    _instancesSize b' = 0%nat ∧ _indicesSize b' = 0%nat.
Proof.
  refine (proj2 (C8_flushRects payload_shader (backend_with 2) _ _ _ _) _).
  - vm_compute. lia.
  - vm_compute. lia.
  - intros _. vm_compute. discriminate.
  - intros _. vm_compute. discriminate.
  - vm_compute. discriminate.
Defined.

(** A flush that must grow the instance buffer beyond [UINT_MAX] bytes. *)
Lemma flushRects_too_wide p b :
  _instancesSize b ≠ 0%nat ->
  (_instanceBufferSize b < _instancesSize b)%nat ->
  UINT_MAX < sizeof_QuadInstance * Z.of_nat (grown_capacity p (_instancesSize b)) ->
  _flushRects p b = Fail NarrowingError.
Proof.
  intros Hz Hsmall Hbig. unfold _flushRects.
  rewrite decide_False by done. rewrite decide_True by done. cbv zeta.
  fold (grown_capacity p (_instancesSize b)).
  unfold narrow_UINT. destruct (Z.leb_spec (sizeof_QuadInstance *
    Z.of_nat (grown_capacity p (_instancesSize b))) UINT_MAX); [lia|].
  by rewrite andb_false_r.
Qed.

(** C8, as stated, fails where an instance buffer for the grid does not fit
    a [UINT]: with one quad queued and a grid of 16384 by 8192 cells the
    flush is not empty, yet it throws in [gsl::narrow] before it creates a
    buffer, copies or draws. *)
Lemma C8_narrowing_counterexample :
  _instancesSize (backend_with 1) = 1%nat ∧
  _flushRects payload_huge (backend_with 1) = Fail NarrowingError.
Proof.
  split; [reflexivity|]. apply flushRects_too_wide.
  - vm_compute. discriminate.
  - vm_compute. lia.
  - change (_instancesSize (backend_with 1)) with 1%nat.
    unfold grown_capacity, sizeof_QuadInstance, UINT_MAX.
    change (x2 (cellCount (s payload_huge))) with 16384.
    change (y2 (cellCount (s payload_huge))) with 8192.
    rewrite Nat2Z.inj_max, Nat2Z.inj_mul, !Z2Nat.id by lia. lia.
Qed.

(** ** The cursor *)

(** C5, on the code: in a grid of 3 columns and 2 rows the cursor on row 1,
    column 0 is filled with the inverse of entry 2 of the background bitmap,
    the colour of row 0, column 2; its own cell is entry 3. *)
Theorem C5_cursor_fill_reads_another_cell :
  cursor_idx payload_cursor = 2 ∧
  (b ← Render_cursor_fill payload_cursor BackendD3D11_new;
   Ok (color <$> default None (_instances b !! 0%nat)))
  = Ok (Some (invertColor 30)) ∧
  backgroundBitmap payload_cursor
    !! Z.to_nat (r_top (cursorRect payload_cursor) * x2 (cellCount (s payload_cursor))
                 + r_left (cursorRect payload_cursor)) = Some 40 ∧
  invertColor 30 ≠ invertColor 40.
Proof. vm_compute. repeat split; discriminate. Qed.

(** The loop of the cursor pass writes to [_vertexInstanceData] and to
    nothing else: whatever it finds there, no quad is queued in
    [_instances]. *)
Lemma Render_cursor_copies_frame p b b' :
  Render_cursor_copies p b = Ok b' ->
  b' = set_vertexInstanceData (_vertexInstanceData b') b.
Proof.
  unfold Render_cursor_copies. intros H.
  apply bind_Ok_inv in H as ([i v] & _ & [= <-]). by destruct b.
Qed.

(** C2, on the code: with the background quad queued and an inverting
    cursor on it, the cursor pass queues the fill and then scans
    [_vertexInstanceData], which is empty: the bound [size() - 1] wraps
    around and element 0 is read outside the vector. *)
Theorem C2_cursor_pass_scans_another_vector :
  (b ← Render_background payload_cursor (Render_setup payload_cursor BackendD3D11_new);
   Ok (_instancesSize b, _vertexInstanceData b))
  = Ok (1%nat, []) ∧
  (intersect (cursor_rect2 payload_cursor)
     (mk_f32r f32_zero f32_zero (f32_of_Z 24) (f32_of_Z 32))).1 = true ∧
  (b ← Render_background payload_cursor (Render_setup payload_cursor BackendD3D11_new);
   b ← Render_cursor_fill payload_cursor b;
   Ok (_instancesSize b, _vertexInstanceData b))
  = Ok (2%nat, []) ∧
  (b ← Render_background payload_cursor (Render_setup payload_cursor BackendD3D11_new);
   Render_cursor payload_cursor b)
  = Fail OutOfBounds.
Proof. vm_compute. done. Qed.

(** ** What a frame leaves alone *)

Lemma kept_call c b : is_Recreate c = false -> kept (call c b) = kept b.
Proof.
  intros H. unfold kept, rebuilds. simpl.
  rewrite List.filter_app. simpl. rewrite H. by rewrite app_nil_r.
Qed.

Lemma kept_put t c b : is_Recreate c = false -> kept (put t c b) = kept b.
Proof. intros H. by rewrite <- (kept_call c b H). Qed.

Lemma kept_reset t b : kept (reset t b) = kept b.
Proof. reflexivity. Qed.

Lemma kept_beginDrawing b : kept (_beginDrawing b) = kept b.
Proof. unfold _beginDrawing. destruct (beganDrawing b); [done|]. by apply kept_call. Qed.

Lemma kept_endDrawing b : kept (_endDrawing b) = kept b.
Proof. unfold _endDrawing. destruct (beganDrawing b); [|done]. by apply kept_call. Qed.

Lemma kept_set_brushColor v b : kept (set_brushColor v b) = kept b.
Proof. reflexivity. Qed.
Lemma kept_set_glyphCache v b : kept (set_glyphCache v b) = kept b.
Proof. reflexivity. Qed.
Lemma kept_set_rectPacker v b : kept (set_rectPacker v b) = kept b.
Proof. reflexivity. Qed.
Lemma kept_set_ptrs v b : kept (set_ptrs v b) = kept b.
Proof. reflexivity. Qed.
Lemma kept_set_instancesSize v b : kept (set_instancesSize v b) = kept b.
Proof. reflexivity. Qed.
Lemma kept_set_indicesSize v b : kept (set_indicesSize v b) = kept b.
Proof. reflexivity. Qed.
Lemma kept_set_instances v b : kept (set_instances v b) = kept b.
Proof. reflexivity. Qed.
Lemma kept_set_indices v b : kept (set_indices v b) = kept b.
Proof. reflexivity. Qed.
Lemma kept_set_instanceBufferSize v b : kept (set_instanceBufferSize v b) = kept b.
Proof. reflexivity. Qed.
Lemma kept_set_indexBufferSize v b : kept (set_indexBufferSize v b) = kept b.
Proof. reflexivity. Qed.
Lemma kept_set_vertexInstanceData v b : kept (set_vertexInstanceData v b) = kept b.
Proof. reflexivity. Qed.
Lemma kept_set_beganDrawing v b : kept (set_beganDrawing v b) = kept b.
Proof. reflexivity. Qed.
Lemma kept_set_renderParams v b : kept (set_renderParams v b) = kept b.
Proof. reflexivity. Qed.
Lemma kept_set_requiresContinuousRedraw v b : kept (set_requiresContinuousRedraw v b) = kept b.
Proof. reflexivity. Qed.
Lemma kept_set_fontGeneration v b : kept (set_fontGeneration v b) = kept b.
Proof. reflexivity. Qed.
Lemma kept_set_miscGeneration v b : kept (set_miscGeneration v b) = kept b.
Proof. reflexivity. Qed.
Lemma kept_set_targetSize v b : kept (set_targetSize v b) = kept b.
Proof. reflexivity. Qed.
Lemma kept_set_cellCount v b : kept (set_cellCount v b) = kept b.
Proof. reflexivity. Qed.

Lemma kept_let (e : BackendD3D11) (f : BackendD3D11 -> BackendD3D11) b0 :
  kept e = kept b0 ->
  (∀ b, kept b = kept b0 -> kept (f b) = kept b0) ->
  kept (let b := e in f b) = kept b0.
Proof. intros H1 H2. by apply H2. Qed.

Lemma kept_let_value {A} (e : A) (f : A -> BackendD3D11) b0 :
  (∀ a, kept (f a) = kept b0) -> kept (let a := e in f a) = kept b0.
Proof. intros H. apply H. Qed.

(** The equations above, applied along a chain of [let]s without unfolding
    it. *)
Ltac kept_step :=
  first
    [ lazymatch goal with
      | |- kept (let x := ?e in @?f x) = kept ?b0 =>
          lazymatch type of e with
          | BackendD3D11 => refine (kept_let e f b0 _ _); [ | intros ? ?; cbv beta ]
          | _ => refine (kept_let_value e f b0 _); intros ?; cbv beta
          end
      | |- kept (if ?c then _ else _) = _ => destruct c
      end
    | assumption
    | reflexivity
    | rewrite kept_call by reflexivity
    | rewrite kept_put by reflexivity
    | rewrite kept_reset
    | rewrite kept_beginDrawing
    | rewrite kept_endDrawing
    | rewrite kept_set_brushColor
    | rewrite kept_set_glyphCache
    | rewrite kept_set_rectPacker
    | rewrite kept_set_ptrs
    | rewrite kept_set_instancesSize
    | rewrite kept_set_indicesSize
    | rewrite kept_set_instances
    | rewrite kept_set_indices
    | rewrite kept_set_instanceBufferSize
    | rewrite kept_set_indexBufferSize
    | rewrite kept_set_vertexInstanceData
    | rewrite kept_set_beganDrawing
    | rewrite kept_set_renderParams
    | rewrite kept_set_requiresContinuousRedraw
    | rewrite kept_set_fontGeneration
    | rewrite kept_set_miscGeneration
    | rewrite kept_set_targetSize
    | rewrite kept_set_cellCount ].

Ltac kept_solve := repeat kept_step.

Lemma kept_resetAtlasAndBeginDraw p b : kept (_resetAtlasAndBeginDraw p b) = kept b.
Proof.
  cbv beta delta [_resetAtlasAndBeginDraw recreate_atlas
                    _d2dRenderTargetUpdateFontSettings].
  kept_solve.
Qed.

Lemma kept_beside_batch b : kept (beside_batch b) = kept b.
Proof. by destruct b. Qed.

Lemma kept_appendRect pos tex col st b b' :
  _appendRect pos tex col st b = Ok b' -> kept b' = kept b.
Proof.
  intros H%appendRect_frame.
  by rewrite <- (kept_beside_batch b'), H, kept_beside_batch.
Qed.

Lemma kept_flushRects p b b' : _flushRects p b = Ok b' -> kept b' = kept b.
Proof.
  unfold _flushRects. destruct (decide (_instancesSize b = 0)%nat) as [Hz|Hz]; [by intros [= <-]|].
  intros H. apply bind_Ok_inv in H as (b1 & H1 & H).
  apply bind_Ok_inv in H as (b2 & H2 & H).
  apply bind_Ok_inv in H as (l1 & _ & H).
  apply bind_Ok_inv in H as (l2 & _ & [= <-]).
  assert (kept b1 = kept b) as E1.
  { destruct (decide (_instanceBufferSize b < _instancesSize b)%nat);
      [|by injection H1 as <-].
    apply bind_Ok_inv in H1 as (w & _ & [= <-]). kept_solve. }
  assert (kept b2 = kept b) as E2.
  { destruct (decide (_indexBufferSize b1 < _indicesSize b1)%nat);
      [|by injection H2 as <-].
    apply bind_Ok_inv in H2 as (w & _ & [= <-]). kept_solve. }
  kept_solve.
Qed.

Lemma for_each_inv {T A X : Type} (g : A -> X) (body : T -> A -> res A) l a a' :
  (∀ t a a', body t a = Ok a' -> g a' = g a) ->
  for_each body l a = Ok a' -> g a' = g a.
Proof.
  intros Hbody. revert a. induction l as [|t l IH]; intros a H; simpl in H.
  - by injection H as <-.
  - apply bind_Ok_inv in H as (a1 & H1 & H).
    rewrite (IH _ H). by eapply Hbody.
Qed.

Lemma for_rows_inv {A X : Type} (g : A -> X) (body : nat -> ShapedRow -> A -> res A)
    y l a a' :
  (∀ y row a a', body y row a = Ok a' -> g a' = g a) ->
  for_rows body y l a = Ok a' -> g a' = g a.
Proof.
  intros Hbody. revert y a. induction l as [|row l IH]; intros y a H; simpl in H.
  - by injection H as <-.
  - apply bind_Ok_inv in H as (a1 & H1 & H).
    rewrite (IH _ _ H). by eapply Hbody.
Qed.

Lemma kept_Render_setup p b : kept (Render_setup p b) = kept b.
Proof. cbv beta delta [Render_setup]. kept_solve. Qed.

Lemma kept_Render_background p b b' :
  Render_background p b = Ok b' -> kept b' = kept b.
Proof.
  unfold Render_background. intros H.
  apply bind_Ok_inv in H as (b1 & H1 & H).
  apply kept_appendRect in H. rewrite H. rewrite kept_call by reflexivity.
  apply (for_each_inv kept) in H1.
  - rewrite H1. by rewrite kept_call.
  - intros i a a'. unfold copy_background_row. case_decide; [|discriminate].
    intros [= <-]. by rewrite kept_call.
Qed.

Lemma kept_drawGlyph env p face glyph entry em b drawn entry' b' :
  _drawGlyph env p face glyph entry em b = (drawn, entry', b') -> kept b' = kept b.
Proof.
  unfold _drawGlyph. destruct (_ || _); [by intros [= _ _ <-]|].
  cbv zeta. destruct (stbrp_pack_rects _ _ _ _) as [[x y]|]; intros [= _ _ <-];
    [|done].
  rewrite kept_call by reflexivity. by rewrite kept_set_rectPacker.
Qed.

Lemma kept_append_glyph p row baselineY i entry cum b cum' b' :
  append_glyph p row baselineY i entry cum b = Ok (cum', b') -> kept b' = kept b.
Proof.
  unfold append_glyph. intros H.
  apply bind_Ok_inv in H as (b1 & H1 & H).
  apply bind_Ok_inv in H as (adv & _ & [= _ <-]).
  destruct (e_shadingType entry); [|by injection H1 as <-].
  apply bind_Ok_inv in H1 as (off & _ & H1).
  apply bind_Ok_inv in H1 as (col & _ & H1).
  by apply kept_appendRect in H1.
Qed.

Lemma kept_retry_after_pack_failure p b b' :
  retry_after_pack_failure p b = Ok b' -> kept b' = kept b.
Proof.
  unfold retry_after_pack_failure. intros H.
  apply bind_Ok_inv in H as (b1 & H1 & [= <-]).
  rewrite kept_resetAtlasAndBeginDraw. apply kept_flushRects in H1.
  by rewrite H1, kept_endDrawing.
Qed.

Lemma kept_glyphs_loop fuel env p row m baselineY i cum b cum' b' :
  glyphs_loop fuel env p row m baselineY i cum b = Ok (cum', b') ->
  kept b' = kept b.
Proof.
  revert i cum b. induction fuel as [|fuel IH]; intros i cum b H; simpl in H.
  - case_decide; [discriminate|]. by injection H as _ <-.
  - case_decide; [|by injection H as _ <-].
    apply bind_Ok_inv in H as (glyphIndex & _ & H).
    destruct (FindOrInsert _ _ _) as [[entry inserted] cache].
    destruct inserted.
    + destruct (_drawGlyph _ _ _ _ _ _ _) as [[drawn entry'] b1] eqn:Hd.
      apply kept_drawGlyph in Hd. rewrite kept_beginDrawing, kept_set_glyphCache in Hd.
      destruct drawn.
      * apply bind_Ok_inv in H as ([cum1 b2] & H1 & H).
        apply kept_append_glyph in H1. rewrite kept_set_glyphCache in H1.
        apply IH in H. congruence.
      * apply bind_Ok_inv in H as (b2 & H1 & H).
        apply kept_retry_after_pack_failure in H1. apply IH in H. congruence.
    + apply bind_Ok_inv in H as ([cum1 b2] & H1 & H).
      apply kept_append_glyph in H1. rewrite kept_set_glyphCache in H1.
      apply IH in H. congruence.
Qed.

Lemma kept_Render_text fuel env p b b' :
  Render_text fuel env p b = Ok b' -> kept b' = kept b.
Proof.
  unfold Render_text. intros H.
  apply bind_Ok_inv in H as (b1 & H1 & [= <-]).
  assert (kept b1 = kept b) as <-.
  { apply (for_rows_inv kept) in H1.
    - rewrite H1. destruct (is_set _glyphAtlas b); [done|].
      apply kept_resetAtlasAndBeginDraw.
    - clear. intros y row a a'. unfold text_row. intros H.
      apply bind_Ok_inv in H as ([cum b1] & H1 & [= <-]).
      apply (for_each_inv (fun st : f32 * BackendD3D11 => kept st.2)) in H1; [done|].
      clear. intros m [cum b] [cum' b']. apply kept_glyphs_loop. }
  destruct (beganDrawing b1); [|done]. by rewrite kept_call.
Qed.

Lemma kept_line_if r g pos st b b' : line_if r g pos st b = Ok b' -> kept b' = kept b.
Proof.
  unfold line_if, _appendRect3. destruct (lines r g); [|by intros [= <-]].
  apply kept_appendRect.
Qed.

Lemma kept_Render_gridLines p b b' :
  Render_gridLines p b = Ok b' -> kept b' = kept b.
Proof.
  unfold Render_gridLines. apply (for_rows_inv kept).
  intros y row a a'. apply (for_each_inv kept).
  clear. intros r a a'. unfold gridLine_range. cbv zeta. intros H.
  repeat (apply bind_Ok_inv in H as (? & ?%kept_line_if & H)).
  apply kept_line_if in H. congruence.
Qed.

Lemma kept_Render_cursor p b b' : Render_cursor p b = Ok b' -> kept b' = kept b.
Proof.
  unfold Render_cursor. destruct (non_empty _); [|by intros [= <-]].
  destruct (_ =? _).
  - intros H. apply bind_Ok_inv in H as (b1 & H1 & H).
    apply Render_cursor_copies_frame in H. rewrite H, kept_set_vertexInstanceData.
    unfold Render_cursor_fill in H1.
    apply bind_Ok_inv in H1 as (c & _ & H1). by apply kept_appendRect in H1.
  - apply kept_appendRect.
Qed.

Lemma kept_Render_selection p b b' :
  Render_selection p b = Ok b' -> kept b' = kept b.
Proof.
  unfold Render_selection. apply (for_rows_inv kept).
  intros y row a a'. unfold selection_row. destruct (_ <? _); [|by intros [= <-]].
  apply kept_appendRect.
Qed.

(** The drawing part of a frame leaves the observed overall generation
    alone and rebuilds nothing. *)
Lemma kept_Render_draw fuel env p b b' :
  Render_draw fuel env p b = Ok b' -> kept b' = kept b.
Proof.
  unfold Render_draw. intros H.
  apply bind_Ok_inv in H as (b1 & H1%kept_Render_background & H).
  apply bind_Ok_inv in H as (b2 & H2%kept_Render_text & H).
  apply bind_Ok_inv in H as (b3 & H3%kept_Render_gridLines & H).
  apply bind_Ok_inv in H as (b4 & H4%kept_Render_cursor & H).
  apply bind_Ok_inv in H as (b5 & H5%kept_Render_selection & H).
  apply bind_Ok_inv in H as (b6 & H6%kept_flushRects & [= <-]).
  rewrite kept_call by reflexivity. rewrite kept_Render_setup in H1. congruence.
Qed.

(** ** The generation tracker *)

Lemma refresh_generation env p b :
  _generation (Render_refresh env p b) = generation (s p).
Proof.
  unfold Render_refresh. destruct (Z.eqb_spec (_generation b) (generation (s p))); done.
Qed.

(** C7: when a frame follows a frame with the same overall generation (so
    also when all five counters are the same), the generation tracker leaves
    the backend as it is, every resource included, and the whole second call
    logs no rebuild. *)
Theorem C7_same_generation_rebuilds_nothing (fuel fuel' : nat) (env env' : Platform)
    (p p' : RenderingPayload) (b b1 : BackendD3D11) :
  Render fuel env p b = Ok b1 ->
  generation (s p') = generation (s p) ->
  Render_refresh env' p' b1 = b1 ∧
  (∀ b2, Render fuel' env' p' b1 = Ok b2 -> rebuilds b2 = rebuilds b1).
Proof.
  intros H Hgen. unfold Render in H. apply kept_Render_draw in H.
  assert (_generation b1 = generation (s p')) as Hb1.
  { rewrite Hgen, <- (refresh_generation env p b). by injection H. }
  assert (Render_refresh env' p' b1 = b1) as Hid.
  { unfold Render_refresh. by rewrite Hb1, Z.eqb_refl. }
  split; [done|]. intros b2 H2. unfold Render in H2. rewrite Hid in H2.
  apply kept_Render_draw in H2. by injection H2.
Qed.

Lemma C7_same_generation_rebuilds_nothing_witness :
  Render_refresh platform0 payload_plain backend_after_frame = backend_after_frame ∧
  (∀ b2, Render 8 platform0 payload_plain backend_after_frame = Ok b2 ->
         rebuilds b2 = rebuilds backend_after_frame).
Proof.
  apply (C7_same_generation_rebuilds_nothing 8 8 platform0 platform0
           payload_plain payload_plain BackendD3D11_new backend_after_frame).
  - apply res_get_Ok. vm_compute. reflexivity.
  - reflexivity.
Defined.

Lemma rebuilds_call c b :
  rebuilds (call c b) = rebuilds b ++ (if is_Recreate c then [c] else []).
Proof.
  unfold rebuilds. simpl. rewrite List.filter_app. simpl. by destruct (is_Recreate c).
Qed.

Lemma rebuilds_put t c b :
  rebuilds (put t c b) = rebuilds b ++ (if is_Recreate c then [c] else []).
Proof. apply rebuilds_call. Qed.

Lemma rebuilds_reset t b : rebuilds (reset t b) = rebuilds b.
Proof. reflexivity. Qed.

Lemma rebuilds_set_brushColor v b : rebuilds (set_brushColor v b) = rebuilds b.
Proof. reflexivity. Qed.
Lemma rebuilds_set_glyphCache v b : rebuilds (set_glyphCache v b) = rebuilds b.
Proof. reflexivity. Qed.
Lemma rebuilds_set_rectPacker v b : rebuilds (set_rectPacker v b) = rebuilds b.
Proof. reflexivity. Qed.
Lemma rebuilds_set_ptrs v b : rebuilds (set_ptrs v b) = rebuilds b.
Proof. reflexivity. Qed.
Lemma rebuilds_set_instancesSize v b : rebuilds (set_instancesSize v b) = rebuilds b.
Proof. reflexivity. Qed.
Lemma rebuilds_set_indicesSize v b : rebuilds (set_indicesSize v b) = rebuilds b.
Proof. reflexivity. Qed.
Lemma rebuilds_set_instances v b : rebuilds (set_instances v b) = rebuilds b.
Proof. reflexivity. Qed.
Lemma rebuilds_set_indices v b : rebuilds (set_indices v b) = rebuilds b.
Proof. reflexivity. Qed.
Lemma rebuilds_set_instanceBufferSize v b : rebuilds (set_instanceBufferSize v b) = rebuilds b.
Proof. reflexivity. Qed.
Lemma rebuilds_set_indexBufferSize v b : rebuilds (set_indexBufferSize v b) = rebuilds b.
Proof. reflexivity. Qed.
Lemma rebuilds_set_vertexInstanceData v b : rebuilds (set_vertexInstanceData v b) = rebuilds b.
Proof. reflexivity. Qed.
Lemma rebuilds_set_beganDrawing v b : rebuilds (set_beganDrawing v b) = rebuilds b.
Proof. reflexivity. Qed.
Lemma rebuilds_set_renderParams v b : rebuilds (set_renderParams v b) = rebuilds b.
Proof. reflexivity. Qed.
Lemma rebuilds_set_requiresContinuousRedraw v b : rebuilds (set_requiresContinuousRedraw v b) = rebuilds b.
Proof. reflexivity. Qed.
Lemma rebuilds_set_fontGeneration v b : rebuilds (set_fontGeneration v b) = rebuilds b.
Proof. reflexivity. Qed.
Lemma rebuilds_set_miscGeneration v b : rebuilds (set_miscGeneration v b) = rebuilds b.
Proof. reflexivity. Qed.
Lemma rebuilds_set_targetSize v b : rebuilds (set_targetSize v b) = rebuilds b.
Proof. reflexivity. Qed.
Lemma rebuilds_set_cellCount v b : rebuilds (set_cellCount v b) = rebuilds b.
Proof. reflexivity. Qed.
Lemma rebuilds_set_generation v b : rebuilds (set_generation v b) = rebuilds b.
Proof. reflexivity. Qed.

Lemma let_inv {X} (g : BackendD3D11 -> X) (Q : BackendD3D11 -> Prop)
    (e : BackendD3D11) (f : BackendD3D11 -> BackendD3D11) (x0 : X) :
  g e = x0 -> (∀ b, g b = x0 -> Q (f b)) -> Q (let b := e in f b).
Proof. intros H1 H2. by apply H2. Qed.

(** The rebuilds of an expression, read off along its chain of [let]s. *)
Ltac rb_step :=
  first
    [ lazymatch goal with
      | |- rebuilds (let x := ?e in @?f x) = ?R =>
          lazymatch type of e with
          | BackendD3D11 =>
              refine (let_inv rebuilds (fun y => rebuilds y = R) e f _ _ _);
              [ | intros ? ?; cbv beta ]
          | _ => change (rebuilds (f e) = R); cbv beta
          end
      | |- rebuilds (if ?c then _ else _) = _ => destruct c
      | |- rebuilds (match ?c with _ => _ end) = _ => destruct c
      end
    | rewrite rebuilds_call; cbn [is_Recreate]; rewrite ?app_nil_r
    | rewrite rebuilds_put; cbn [is_Recreate]; rewrite ?app_nil_r
    | rewrite rebuilds_reset
    | rewrite rebuilds_set_brushColor
    | rewrite rebuilds_set_glyphCache
    | rewrite rebuilds_set_rectPacker
    | rewrite rebuilds_set_ptrs
    | rewrite rebuilds_set_instancesSize
    | rewrite rebuilds_set_indicesSize
    | rewrite rebuilds_set_instances
    | rewrite rebuilds_set_indices
    | rewrite rebuilds_set_instanceBufferSize
    | rewrite rebuilds_set_indexBufferSize
    | rewrite rebuilds_set_vertexInstanceData
    | rewrite rebuilds_set_beganDrawing
    | rewrite rebuilds_set_renderParams
    | rewrite rebuilds_set_requiresContinuousRedraw
    | rewrite rebuilds_set_fontGeneration
    | rewrite rebuilds_set_miscGeneration
    | rewrite rebuilds_set_targetSize
    | rewrite rebuilds_set_cellCount
    | rewrite rebuilds_set_generation
    | eassumption
    | match goal with
      | H : rebuilds ?x = _ |- context [rebuilds ?x] => rewrite H
      end
    | rewrite <- !app_assoc; reflexivity
    | reflexivity ].

Ltac rb_solve := repeat rb_step.

Lemma rebuilds_recreateBackgroundBitmapSamplerState b :
  rebuilds (_recreateBackgroundBitmapSamplerState b)
  = rebuilds b ++ [Recreate BackgroundBitmapSamplerState].
Proof. unfold _recreateBackgroundBitmapSamplerState. rb_solve. Qed.

Lemma rebuilds_recreateCustomShader env p b :
  rebuilds (_recreateCustomShader env p b) = rebuilds b ++ [Recreate CustomShader].
Proof. unfold _recreateCustomShader. rb_solve. Qed.

Lemma rebuilds_recreateCustomOffscreenTexture p b :
  rebuilds (_recreateCustomOffscreenTexture p b)
  = rebuilds b ++ [Recreate CustomOffscreenTexture].
Proof. unfold _recreateCustomOffscreenTexture. rb_solve. Qed.

Lemma rebuilds_recreateBackgroundColorBitmap p b :
  rebuilds (_recreateBackgroundColorBitmap p b)
  = rebuilds b ++ [Recreate BackgroundColorBitmap].
Proof. unfold _recreateBackgroundColorBitmap. rb_solve. Qed.

Lemma rebuilds_recreateConstBuffer b :
  rebuilds (_recreateConstBuffer b) = rebuilds b ++ [Recreate ConstBuffer].
Proof. unfold _recreateConstBuffer. rb_solve. Qed.

Lemma rebuilds_d2dRenderTargetUpdateFontSettings b :
  rebuilds (_d2dRenderTargetUpdateFontSettings b) = rebuilds b.
Proof. unfold _d2dRenderTargetUpdateFontSettings. rb_solve. Qed.

Lemma observed_call c b : is_Recreate c = false -> observed (call c b) = observed b.
Proof.
  intros H. unfold observed. rewrite rebuilds_call, H. by rewrite app_nil_r.
Qed.

Lemma observed_put t c b : is_Recreate c = false -> observed (put t c b) = observed b.
Proof. intros H. by rewrite <- (observed_call c b H). Qed.

Lemma observed_reset t b : observed (reset t b) = observed b.
Proof. reflexivity. Qed.

Ltac observed_step :=
  first
    [ assumption
    | reflexivity
    | rewrite observed_call by reflexivity
    | rewrite observed_put by reflexivity
    | rewrite observed_reset
    | lazymatch goal with
      | |- observed (if ?c then _ else _) = _ => destruct c
      | |- observed (match ?c with _ => _ end) = _ => destruct c
      end ].

Lemma targetSize_let (e : BackendD3D11) (f : BackendD3D11 -> BackendD3D11) b0 :
  _targetSize e = _targetSize b0 ->
  (∀ b, _targetSize b = _targetSize b0 -> _targetSize (f b) = _targetSize b0) ->
  _targetSize (let b := e in f b) = _targetSize b0.
Proof. intros H1 H2. by apply H2. Qed.

Lemma targetSize_let_value {A} (e : A) (f : A -> BackendD3D11) b0 :
  (∀ a, _targetSize (f a) = _targetSize b0) ->
  _targetSize (let a := e in f a) = _targetSize b0.
Proof. intros H. apply H. Qed.

(** [_targetSize] of an expression, read off along its chain of [let]s. *)
Ltac targetSize_step :=
  first
    [ lazymatch goal with
      | |- _targetSize (let x := ?e in @?f x) = _targetSize ?b0 =>
          lazymatch type of e with
          | BackendD3D11 => refine (targetSize_let e f b0 _ _); [ | intros ? ?; cbv beta ]
          | _ => refine (targetSize_let_value e f b0 _); intros ?; cbv beta
          end
      | |- _targetSize (if ?c then _ else _) = _ => destruct c
      | |- _targetSize (match ?c with _ => _ end) = _ => destruct c
      | |- _targetSize (call _ ?b) = ?R => change (_targetSize b = R)
      | |- _targetSize (put _ _ ?b) = ?R => change (_targetSize b = R)
      | |- _targetSize (reset _ ?b) = ?R => change (_targetSize b = R)
      | |- _targetSize (set_renderParams _ ?b) = ?R => change (_targetSize b = R)
      | |- _targetSize (set_requiresContinuousRedraw _ ?b) = ?R =>
          change (_targetSize b = R)
      | |- _targetSize (set_generation _ ?b) = ?R => change (_targetSize b = R)
      | |- _targetSize (set_fontGeneration _ ?b) = ?R => change (_targetSize b = R)
      | |- _targetSize (set_miscGeneration _ ?b) = ?R => change (_targetSize b = R)
      | |- _targetSize (set_cellCount _ ?b) = ?R => change (_targetSize b = R)
      end
    | assumption
    | reflexivity ].

(** The generation tracker assigns the four other observed values and never
    [_targetSize]. *)
Lemma targetSize_Render_refresh env p b :
  _targetSize (Render_refresh env p b) = _targetSize b.
Proof.
  cbv beta delta [Render_refresh _recreateCustomShader
    _recreateBackgroundBitmapSamplerState _recreateBackgroundColorBitmap
    _recreateCustomOffscreenTexture _recreateConstBuffer
    _d2dRenderTargetUpdateFontSettings].
  repeat targetSize_step.
Qed.

(** C6, on the code: the generation tracker never stores the target size.
    After a first frame of 24 by 32 pixels the observed target size is still
    the (0, 0) of the constructor, so the next frame, whose target size,
    font generation, misc generation and cell count are those of the first,
    sees a changed target size: it creates the custom offscreen texture with
    its two views and updates the constant buffer again. *)
Theorem C6_target_size_is_never_stored :
  (∀ env p b, _targetSize (Render_refresh env p b) = _targetSize b) ∧
  Render 8 platform0 payload_custom BackendD3D11_new = Ok backend_after_custom ∧
  _targetSize backend_after_custom = mk_u16x2 0 0 ∧
  targetSize (s payload_custom) = mk_u16x2 24 32 ∧
  targetSize (s payload_custom_next) = targetSize (s payload_custom) ∧
  font_generation (s payload_custom_next) = _fontGeneration backend_after_custom ∧
  misc_generation (s payload_custom_next) = _miscGeneration backend_after_custom ∧
  cellCount (s payload_custom_next) = _cellCount backend_after_custom ∧
  drop (length (calls backend_after_custom))
       (calls (Render_refresh platform0 payload_custom_next backend_after_custom))
    = [ UpdateSwapChainSettings;
        Recreate CustomOffscreenTexture;
        CreateTexture2D _customOffscreenTexture 24 32;
        CreateShaderResourceView _customOffscreenTextureView;
        CreateRenderTargetView _customOffscreenTextureTargetView;
        Recreate ConstBuffer;
        UpdateSubresource _constantBuffer ] ∧
  _targetSize (Render_refresh platform0 payload_custom_next backend_after_custom)
    = mk_u16x2 0 0.
Proof.
  split; [exact targetSize_Render_refresh|].
  split; [apply res_get_Ok; vm_compute; reflexivity|].
  vm_compute. repeat split; reflexivity.
Qed.

(** ** The text pass: a glyph that does not pack *)

Lemma beside_flush_flushRects p b b' :
  _flushRects p b = Ok b' -> beside_flush b' = beside_flush b.
Proof.
  unfold _flushRects.
  destruct (decide (_instancesSize b = 0)%nat) as [Hz|Hz]; [by intros [= <-]|].
  intros H. apply bind_Ok_inv in H as (b1 & H1 & H).
  apply bind_Ok_inv in H as (b2 & H2 & H).
  apply bind_Ok_inv in H as (l1 & _ & H).
  apply bind_Ok_inv in H as (l2 & _ & [= <-]).
  assert (beside_flush b1 = beside_flush b) as E1.
  { destruct (decide (_instanceBufferSize b < _instancesSize b)%nat);
      [|by injection H1 as <-].
    by apply bind_Ok_inv in H1 as (w & _ & [= <-]). }
  assert (beside_flush b2 = beside_flush b1) as E2.
  { destruct (decide (_indexBufferSize b1 < _indicesSize b1)%nat);
      [|by injection H2 as <-].
    by apply bind_Ok_inv in H2 as (w & _ & [= <-]). }
  by rewrite <- E1, <- E2.
Qed.

Lemma batch_of_call c b : batch_of (call c b) = batch_of b.
Proof. reflexivity. Qed.

Lemma batch_of_put t c b : batch_of (put t c b) = batch_of b.
Proof. reflexivity. Qed.

Lemma batch_of_reset t b : batch_of (reset t b) = batch_of b.
Proof. reflexivity. Qed.

Lemma batch_of_beginDrawing b : batch_of (_beginDrawing b) = batch_of b.
Proof. unfold _beginDrawing. by destruct (beganDrawing b). Qed.

Lemma batch_of_endDrawing b : batch_of (_endDrawing b) = batch_of b.
Proof. unfold _endDrawing. by destruct (beganDrawing b). Qed.

Lemma batch_of_set_ptrs v b : batch_of (set_ptrs v b) = batch_of b.
Proof. reflexivity. Qed.

Lemma batch_of_set_brushColor v b : batch_of (set_brushColor v b) = batch_of b.
Proof. reflexivity. Qed.

Lemma batch_of_set_glyphCache v b : batch_of (set_glyphCache v b) = batch_of b.
Proof. reflexivity. Qed.

Lemma batch_of_set_rectPacker v b : batch_of (set_rectPacker v b) = batch_of b.
Proof. reflexivity. Qed.

Lemma batch_of_let (e : BackendD3D11) (f : BackendD3D11 -> BackendD3D11) b0 :
  batch_of e = batch_of b0 ->
  (∀ b, batch_of b = batch_of b0 -> batch_of (f b) = batch_of b0) ->
  batch_of (let b := e in f b) = batch_of b0.
Proof. intros H1 H2. by apply H2. Qed.

Lemma batch_of_let_value {A} (e : A) (f : A -> BackendD3D11) b0 :
  (∀ a, batch_of (f a) = batch_of b0) -> batch_of (let a := e in f a) = batch_of b0.
Proof. intros H. apply H. Qed.

Ltac batch_of_step :=
  first
    [ lazymatch goal with
      | |- batch_of (let x := ?e in @?f x) = batch_of ?b0 =>
          lazymatch type of e with
          | BackendD3D11 => refine (batch_of_let e f b0 _ _); [ | intros ? ?; cbv beta ]
          | _ => refine (batch_of_let_value e f b0 _); intros ?; cbv beta
          end
      | |- batch_of (if ?c then _ else _) = _ => destruct c
      end
    | assumption
    | reflexivity
    | rewrite batch_of_call
    | rewrite batch_of_put
    | rewrite batch_of_reset
    | rewrite batch_of_beginDrawing
    | rewrite batch_of_endDrawing
    | rewrite batch_of_set_ptrs
    | rewrite batch_of_set_brushColor
    | rewrite batch_of_set_glyphCache
    | rewrite batch_of_set_rectPacker ].

Lemma batch_of_resetAtlasAndBeginDraw p b :
  batch_of (_resetAtlasAndBeginDraw p b) = batch_of b.
Proof.
  cbv beta delta [_resetAtlasAndBeginDraw recreate_atlas
                    _d2dRenderTargetUpdateFontSettings].
  repeat batch_of_step.
Qed.

Lemma extends_refl b : extends b b.
Proof. by exists []; rewrite app_nil_r. Qed.

Lemma extends_call c b0 b : extends b0 b -> extends b0 (call c b).
Proof. intros [k Hk]. exists (k ++ [c]). simpl. rewrite Hk. by rewrite app_assoc. Qed.

Lemma extends_put t c b0 b : extends b0 b -> extends b0 (put t c b).
Proof. apply extends_call. Qed.

Lemma extends_reset t b0 b : extends b0 b -> extends b0 (reset t b).
Proof. done. Qed.

Lemma extends_set_ptrs v b0 b : extends b0 b -> extends b0 (set_ptrs v b).
Proof. done. Qed.

Lemma extends_set_brushColor v b0 b : extends b0 b -> extends b0 (set_brushColor v b).
Proof. done. Qed.

Lemma extends_beginDrawing b0 b : extends b0 b -> extends b0 (_beginDrawing b).
Proof.
  unfold _beginDrawing. destruct (beganDrawing b); [done|].
  intros H. by apply (extends_call BeginDraw) in H.
Qed.

Lemma extends_let b0 (e : BackendD3D11) (f : BackendD3D11 -> BackendD3D11) :
  extends b0 e -> (∀ b, extends b0 b -> extends b0 (f b)) ->
  extends b0 (let b := e in f b).
Proof. intros H1 H2. by apply H2. Qed.

Lemma extends_let_value {A} b0 (e : A) (f : A -> BackendD3D11) :
  (∀ a, extends b0 (f a)) -> extends b0 (let a := e in f a).
Proof. intros H. apply H. Qed.

Ltac extends_step :=
  first
    [ lazymatch goal with
      | |- extends ?b0 (let x := ?e in @?f x) =>
          lazymatch type of e with
          | BackendD3D11 => refine (extends_let b0 e f _ _); [ | intros ? ?; cbv beta ]
          | _ => refine (extends_let_value b0 e f _); intros ?; cbv beta
          end
      | |- extends _ (if ?c then _ else _) => destruct c
      end
    | assumption
    | apply extends_refl
    | apply extends_call
    | apply extends_put
    | apply extends_beginDrawing
    | apply extends_reset
    | apply extends_set_ptrs
    | apply extends_set_brushColor ].

(** What [_resetAtlasAndBeginDraw] leaves: no cached glyph, a packer without
    rectangles for the atlas size of the payload, a Direct2D batch that has
    begun, and a log that ends with the clearing of the atlas. *)
Lemma resetAtlasAndBeginDraw_spec p b :
  let b' := _resetAtlasAndBeginDraw p b in
  _glyphCache b' = ∅ ∧
  _rectPacker b' = stbrp_init_target (atlas_u (targetSize (s p)))
                                     (atlas_v (targetSize (s p))) ∧
  beganDrawing b' = true ∧
  (∃ l, calls b' = calls b ++ l ++ [Clear]).
Proof.
  unfold _resetAtlasAndBeginDraw. cbv zeta.
  set (u := atlas_u (targetSize (s p))). set (v := atlas_v (targetSize (s p))).
  set (b1 := if negb (u =? width (_rectPacker b)) || negb (v =? height (_rectPacker b))
             then recreate_atlas u v b else b).
  assert (extends b b1) as [l Hl].
  { unfold b1. destruct (_ || _); [|apply extends_refl].
    cbv beta delta [recreate_atlas _d2dRenderTargetUpdateFontSettings].
    repeat extends_step. }
  clearbody b1. unfold _beginDrawing.
  rewrite (eq_refl : beganDrawing (set_rectPacker (stbrp_init_target u v)
                                     (set_glyphCache ∅ b1)) = beganDrawing b1).
  destruct (beganDrawing b1) eqn:E;
    (split; [reflexivity | split; [reflexivity | split; [first [exact E | reflexivity]|]]]).
  - exists l. simpl. by rewrite Hl, app_assoc.
  - exists (l ++ [BeginDraw]). simpl. rewrite Hl. by rewrite <- !app_assoc.
Qed.

Lemma drawGlyph_not_drawn env p face glyph entry em b entry' b' :
  _drawGlyph env p face glyph entry em b = (false, entry', b') -> b' = b.
Proof.
  unfold _drawGlyph. destruct (_ || _); [discriminate|].
  cbv zeta. destruct (stbrp_pack_rects _ _ _ _) as [[x y]|]; [discriminate|].
  by intros [= _ <-].
Qed.

Lemma beganDrawing_beginDrawing b : beganDrawing (_beginDrawing b) = true.
Proof. unfold _beginDrawing. by destruct (beganDrawing b) eqn:E. Qed.

(** The three calls that follow a pack failure, on a backend whose flush
    cannot throw. *)
Lemma retry_after_pack_failure_spec p b :
  beganDrawing b = true ->
  batcher_wf b ->
  ((_instanceBufferSize b < _instancesSize b)%nat ->
   sizeof_QuadInstance * Z.of_nat (grown_capacity p (_instancesSize b)) <= UINT_MAX) ->
  ((_indexBufferSize b < _indicesSize b)%nat ->
   sizeof_u32 * Z.of_nat (grown_capacity p (_indicesSize b)) <= UINT_MAX) ->
  ∃ b2 l,
    retry_after_pack_failure p b = Ok b2 ∧
    calls b2 = calls b ++ [EndDraw] ++ flush_calls p b ++ l ++ [Clear] ∧
    _instancesSize b2 = 0%nat ∧ _indicesSize b2 = 0%nat ∧
    _instances b2 = _instances b ∧ _indices b2 = _indices b ∧
    _glyphCache b2 = ∅ ∧
    _rectPacker b2 = stbrp_init_target (atlas_u (targetSize (s p)))
                                       (atlas_v (targetSize (s p))).
Proof.
  intros Hdraw [Hn Hlen Hk] Hfit1 Hfit2. unfold retry_after_pack_failure. cbv zeta.
  assert (_endDrawing b = set_beganDrawing false (call EndDraw b)) as ->
    by (unfold _endDrawing; by rewrite Hdraw).
  set (b0 := set_beganDrawing false (call EndDraw b)).
  assert (batch_of b0 = batch_of b) as Hb0 by reflexivity.
  assert (calls b0 = calls b ++ [EndDraw]) as Hc0 by reflexivity.
  assert (flush_calls p b0 = flush_calls p b) as Hf0 by reflexivity.
  clearbody b0. injection Hb0 as E1 E2 E3 E4 E5 E6.
  destruct (flushRects_spec p b0) as [Hzero Hsome].
  { by rewrite E1, E3. } { rewrite E2, E4. lia. }
  { rewrite E3, E5. done. } { rewrite E4, E6. done. }
  assert (∃ b1, _flushRects p b0 = Ok b1 ∧
            calls b1 = calls b0 ++ flush_calls p b0 ∧
            _instancesSize b1 = 0%nat ∧ _indicesSize b1 = 0%nat)
    as (b1 & Hflush & Hc1 & Hn1 & Hk1).
  { unfold flush_calls. destruct (decide (_instancesSize b0 = 0)%nat) as [Hz|Hz].
    - exists b0. rewrite app_nil_r. repeat split; [by apply Hzero|done|lia].
    - destruct (Hsome Hz) as (b1 & H1 & H2 & _ & _ & H3 & H4). by exists b1. }
  rewrite Hflush, bind_Ok.
  pose proof (beside_flush_flushRects _ _ _ Hflush) as Hbf.
  injection Hbf as F1 F2 F3 F4 F5.
  pose proof (resetAtlasAndBeginDraw_spec p b1) as (G1 & G2 & G3 & l & G4).
  pose proof (batch_of_resetAtlasAndBeginDraw p b1) as Hb2.
  exists (_resetAtlasAndBeginDraw p b1), l.
  split; [done|].
  set (b2 := _resetAtlasAndBeginDraw p b1) in *. clearbody b2.
  injection Hb2 as B1 B2 B3 B4 B5 B6.
  split.
  { rewrite G4, Hc1, Hc0, Hf0. by rewrite <- !app_assoc. }
  repeat split; congruence.
Qed.

(** A glyph that missed the cache and did not pack: the round ends the
    Direct2D batch, flushes what is queued, resets the atlas and the packer
    at the size of the payload, empties the cache and goes on with the same
    glyph at the same position; no failure is raised. *)
Lemma pack_failure_retries fuel env p row m baselineY i cum b glyphIndex :
  (i < glyphsTo m)%nat ->
  glyphIndices row !! i = Some glyphIndex ->
  _glyphCache b !! (m_fontFace m, glyphIndex) = None ->
  (_drawGlyph env p (m_fontFace m) glyphIndex GlyphCacheEntry_new (fontEmSize m)
     (before_draw (m_fontFace m) glyphIndex b)).1.1 = false ->
  batcher_wf b ->
  ((_instanceBufferSize b < _instancesSize b)%nat ->
   sizeof_QuadInstance * Z.of_nat (grown_capacity p (_instancesSize b)) <= UINT_MAX) ->
  ((_indexBufferSize b < _indicesSize b)%nat ->
   sizeof_u32 * Z.of_nat (grown_capacity p (_indicesSize b)) <= UINT_MAX) ->
  ∃ b2 l,
    glyphs_loop (S fuel) env p row m baselineY i cum b
      = glyphs_loop fuel env p row m baselineY i cum b2 ∧
    calls b2 = calls (before_draw (m_fontFace m) glyphIndex b)
                 ++ [EndDraw] ++ flush_calls p b ++ l ++ [Clear] ∧
    _instancesSize b2 = 0%nat ∧ _indicesSize b2 = 0%nat ∧
    _instances b2 = _instances b ∧ _indices b2 = _indices b ∧
    _glyphCache b2 = ∅ ∧
    _rectPacker b2 = stbrp_init_target (atlas_u (targetSize (s p)))
                                       (atlas_v (targetSize (s p))).
Proof.
  intros Hi Hglyph Hmiss Hfail Hwf Hfit1 Hfit2.
  set (b1 := before_draw (m_fontFace m) glyphIndex b) in *.
  assert (batch_of b1 = batch_of b) as Hb1
    by (unfold b1, before_draw; by rewrite batch_of_beginDrawing).
  assert (beganDrawing b1 = true) as Hd1 by apply beganDrawing_beginDrawing.
  assert (flush_calls p b1 = flush_calls p b) as Hf1.
  { unfold flush_calls, instance_realloc_calls, index_realloc_calls,
      upload_and_draw_calls. injection Hb1 as -> -> -> -> -> ->. done. }
  destruct (retry_after_pack_failure_spec p b1) as (b2 & l & Hretry & Hc & Hrest); [done| | | |].
  { injection Hb1 as E1 E2 E3 E4 E5 E6. destruct Hwf as [H1 H2 H3].
    split; congruence. }
  { injection Hb1 as E1 E2 E3 E4 E5 E6. rewrite E3, E5. done. }
  { injection Hb1 as E1 E2 E3 E4 E5 E6. rewrite E4, E6. done. }
  exists b2, l. split; [|split].
  - cbn [glyphs_loop]. rewrite decide_True by done.
    unfold vector_at. rewrite Hglyph, bind_Ok.
    unfold FindOrInsert. rewrite Hmiss. fold (before_draw (m_fontFace m) glyphIndex b).
    fold b1.
    destruct (_drawGlyph _ _ _ _ _ _ b1) as [[drawn entry'] b'] eqn:Hdraw.
    simpl in Hfail. subst drawn. apply drawGlyph_not_drawn in Hdraw as ->.
    by rewrite Hretry, bind_Ok.
  - by rewrite Hc, Hf1.
  - injection Hb1 as E1 E2 E3 E4 E5 E6. rewrite <- E1, <- E2. done.
Qed.

(** *** A glyph wider than the atlas *)

Lemma drawGlyph_wide entry b :
  _rectPacker b = stbrp_init_target 256 256 ->
  (_drawGlyph platform_wide payload_plain 0 65 entry (f32_of_Z 12) b).1.1 = false.
Proof. intros H. unfold _drawGlyph. rewrite H. vm_compute. reflexivity. Qed.

Lemma rectPacker_before_draw face glyph b :
  _rectPacker (before_draw face glyph b) = _rectPacker b.
Proof. unfold before_draw, _beginDrawing. by destruct (beganDrawing _). Qed.

Lemma recreate_atlas_log u v b :
  calls (recreate_atlas u v b) = calls b ++ atlas_recreate_calls u v ∧
  ptrs (recreate_atlas u v b) !! _glyphAtlas = Some (length (calls b)) ∧
  beganDrawing (recreate_atlas u v b) = beganDrawing b.
Proof.
  split; [|split]; [| |reflexivity].
  - cbv beta delta [recreate_atlas _d2dRenderTargetUpdateFontSettings put].
    cbv zeta. unfold call, atlas_recreate_calls.
    cbn [calls set_calls set_ptrs set_brushColor reset].
    by rewrite <- !app_assoc.
  - cbv beta delta [recreate_atlas _d2dRenderTargetUpdateFontSettings put].
    cbv zeta. unfold call. cbn [calls ptrs set_calls set_ptrs set_brushColor reset].
    by rewrite !lookup_insert_ne, lookup_insert_eq by discriminate.
Qed.

Lemma resetAtlasAndBeginDraw_log p b :
  let b' := _resetAtlasAndBeginDraw p b in
  calls b' = calls b ++ atlas_reset_calls p b
                     ++ (if beganDrawing b then [] else [BeginDraw]) ++ [Clear] ∧
  ptrs b' !! _glyphAtlas =
    (if atlas_size_kept p b then ptrs b !! _glyphAtlas else Some (length (calls b))).
Proof.
  unfold _resetAtlasAndBeginDraw, atlas_reset_calls, atlas_size_kept. cbv zeta.
  set (u := atlas_u (targetSize (s p))). set (v := atlas_v (targetSize (s p))).
  set (kept := (u =? width (_rectPacker b)) && (v =? height (_rectPacker b))).
  replace (negb (u =? width (_rectPacker b)) || negb (v =? height (_rectPacker b)))
    with (negb kept) by apply negb_andb.
  set (b1 := if negb kept then recreate_atlas u v b else b).
  assert (calls b1 = calls b ++ (if kept then [] else atlas_recreate_calls u v) ∧
          ptrs b1 !! _glyphAtlas
            = (if kept then ptrs b !! _glyphAtlas else Some (length (calls b))) ∧
          beganDrawing b1 = beganDrawing b) as (Hc & Hp & Hd).
  { unfold b1. destruct kept; cbn [negb]; [by rewrite app_nil_r|].
    apply recreate_atlas_log. }
  clearbody b1. unfold _beginDrawing.
  change (beganDrawing (set_rectPacker (stbrp_init_target u v) (set_glyphCache ∅ b1)))
    with (beganDrawing b1).
  rewrite Hd. destruct (beganDrawing b).
  - split; [|exact Hp]. change (calls b1 ++ [Clear] = calls b ++
      (if kept then [] else atlas_recreate_calls u v) ++ [] ++ [Clear]).
    rewrite Hc. by rewrite <- app_assoc.
  - split; [|exact Hp]. change ((calls b1 ++ [BeginDraw]) ++ [Clear] = calls b ++
      (if kept then [] else atlas_recreate_calls u v) ++ [BeginDraw] ++ [Clear]).
    rewrite Hc. by rewrite <- !app_assoc.
Qed.

Lemma flushRects_glyphAtlas p b b' :
  _flushRects p b = Ok b' -> ptrs b' !! _glyphAtlas = ptrs b !! _glyphAtlas.
Proof.
  unfold _flushRects.
  destruct (decide (_instancesSize b = 0)%nat) as [Hz|Hz]; [by intros [= <-]|].
  intros H. apply bind_Ok_inv in H as (b1 & H1 & H).
  apply bind_Ok_inv in H as (b2 & H2 & H).
  apply bind_Ok_inv in H as (l1 & _ & H).
  apply bind_Ok_inv in H as (l2 & _ & [= <-]).
  assert (ptrs b1 !! _glyphAtlas = ptrs b !! _glyphAtlas) as E1.
  { destruct (decide (_instanceBufferSize b < _instancesSize b)%nat);
      [|by injection H1 as <-].
    apply bind_Ok_inv in H1 as (w & _ & [= <-]).
    unfold put, reset, call. cbn [ptrs calls set_ptrs set_calls set_instanceBufferSize].
    by rewrite !lookup_insert_ne, !lookup_delete_ne by discriminate. }
  assert (ptrs b2 !! _glyphAtlas = ptrs b1 !! _glyphAtlas) as E2.
  { destruct (decide (_indexBufferSize b1 < _indicesSize b1)%nat);
      [|by injection H2 as <-].
    apply bind_Ok_inv in H2 as (w & _ & [= <-]).
    unfold put, reset, call. cbn [ptrs calls set_ptrs set_calls set_indexBufferSize].
    by rewrite !lookup_insert_ne, !lookup_delete_ne by discriminate. }
  change (ptrs b2 !! _glyphAtlas = ptrs b !! _glyphAtlas). congruence.
Qed.

(** The three calls that follow a pack failure, on a backend whose flush
    cannot throw: what they log, and which object the atlas is. *)
Lemma retry_after_pack_failure_log p b :
  beganDrawing b = true ->
  batcher_wf b ->
  ((_instanceBufferSize b < _instancesSize b)%nat ->
   sizeof_QuadInstance * Z.of_nat (grown_capacity p (_instancesSize b)) <= UINT_MAX) ->
  ((_indexBufferSize b < _indicesSize b)%nat ->
   sizeof_u32 * Z.of_nat (grown_capacity p (_indicesSize b)) <= UINT_MAX) ->
  ∃ b2,
    retry_after_pack_failure p b = Ok b2 ∧
    calls b2 = calls b ++ [EndDraw] ++ flush_calls p b ++ atlas_reset_calls p b
                       ++ [BeginDraw; Clear] ∧
    ptrs b2 !! _glyphAtlas =
      (if atlas_size_kept p b then ptrs b !! _glyphAtlas
       else Some (length (calls b ++ [EndDraw] ++ flush_calls p b))) ∧
    beganDrawing b2 = true.
Proof.
  intros Hdraw [Hn Hlen Hk] Hfit1 Hfit2. unfold retry_after_pack_failure. cbv zeta.
  assert (_endDrawing b = set_beganDrawing false (call EndDraw b)) as ->
    by (unfold _endDrawing; by rewrite Hdraw).
  set (b0 := set_beganDrawing false (call EndDraw b)).
  assert (batch_of b0 = batch_of b) as Hb0 by reflexivity.
  assert (calls b0 = calls b ++ [EndDraw]) as Hc0 by reflexivity.
  assert (flush_calls p b0 = flush_calls p b) as Hf0 by reflexivity.
  assert (ptrs b0 = ptrs b) as Hp0 by reflexivity.
  assert (_rectPacker b0 = _rectPacker b) as Hr0 by reflexivity.
  assert (beganDrawing b0 = false) as Hd0 by reflexivity.
  clearbody b0. injection Hb0 as E1 E2 E3 E4 E5 E6.
  destruct (flushRects_spec p b0) as [Hzero Hsome].
  { by rewrite E1, E3. } { rewrite E2, E4. lia. }
  { rewrite E3, E5. done. } { rewrite E4, E6. done. }
  assert (∃ b1, _flushRects p b0 = Ok b1 ∧
            calls b1 = calls b0 ++ flush_calls p b0)
    as (b1 & Hflush & Hc1).
  { unfold flush_calls. destruct (decide (_instancesSize b0 = 0)%nat) as [Hz|Hz].
    - exists b0. rewrite app_nil_r. split; [by apply Hzero|done].
    - destruct (Hsome Hz) as (b1 & H1 & H2 & _). by exists b1. }
  rewrite Hflush, bind_Ok.
  pose proof (beside_flush_flushRects _ _ _ Hflush) as Hbf.
  injection Hbf as F1 F2 F3 F4 F5.
  pose proof (flushRects_glyphAtlas _ _ _ Hflush) as Hatlas.
  pose proof (resetAtlasAndBeginDraw_log p b1) as [G1 G2].
  pose proof (resetAtlasAndBeginDraw_spec p b1) as (_ & _ & G3 & _).
  exists (_resetAtlasAndBeginDraw p b1). split; [done|].
  set (b2 := _resetAtlasAndBeginDraw p b1) in *. clearbody b2.
  assert (atlas_size_kept p b1 = atlas_size_kept p b) as Hkept
    by (unfold atlas_size_kept; by rewrite F2, Hr0).
  assert (atlas_reset_calls p b1 = atlas_reset_calls p b) as Hreset
    by (unfold atlas_reset_calls; by rewrite Hkept).
  rewrite Hkept in G2. rewrite Hreset, F3, Hd0 in G1.
  split; [|split; [|exact G3]].
  - rewrite G1, Hc1, Hc0, Hf0. by rewrite <- !app_assoc.
  - rewrite G2, Hatlas, Hp0, Hc1, Hc0, Hf0. by rewrite <- !app_assoc.
Qed.

Lemma ptrs_before_draw face glyph b : ptrs (before_draw face glyph b) = ptrs b.
Proof. unfold before_draw, _beginDrawing. by destruct (beganDrawing _). Qed.

(** A glyph that packs into no empty atlas is retried for ever: whatever
    the fuel, the loop is still at that glyph when the fuel is used up. *)
Lemma never_packs_retries_for_ever env p row m baselineY i glyphIndex :
  (i < glyphsTo m)%nat ->
  glyphIndices row !! i = Some glyphIndex ->
  never_packs env p (m_fontFace m) glyphIndex (fontEmSize m) ->
  ∀ fuel cum b,
    _glyphCache b !! (m_fontFace m, glyphIndex) = None ->
    (_drawGlyph env p (m_fontFace m) glyphIndex GlyphCacheEntry_new (fontEmSize m)
       (before_draw (m_fontFace m) glyphIndex b)).1.1 = false ->
    batcher_wf b ->
    ((_instanceBufferSize b < _instancesSize b)%nat ->
     sizeof_QuadInstance * Z.of_nat (grown_capacity p (_instancesSize b)) <= UINT_MAX) ->
    ((_indexBufferSize b < _indicesSize b)%nat ->
     sizeof_u32 * Z.of_nat (grown_capacity p (_indicesSize b)) <= UINT_MAX) ->
    glyphs_loop fuel env p row m baselineY i cum b = Fail OutOfFuel.
Proof.
  intros Hi Hglyph Hnever. induction fuel as [|fuel IH];
    intros cum b Hmiss Hfail Hwf Hfit1 Hfit2.
  { cbn [glyphs_loop]. by rewrite decide_True. }
  destruct (pack_failure_retries fuel env p row m baselineY i cum b glyphIndex
              Hi Hglyph Hmiss Hfail Hwf Hfit1 Hfit2)
    as (b2 & l & -> & _ & Hn2 & Hk2 & Hi2 & Hx2 & Hcache & Hpacker).
  pose proof Hwf as [Hn Hlen Hk].
  apply IH.
  - rewrite Hcache. apply lookup_empty.
  - apply Hnever. by rewrite rectPacker_before_draw.
  - split; [lia | congruence | lia].
  - lia.
  - lia.
Qed.

(** C4, as amended: when a glyph that missed the cache does not pack, and the
    flush that follows cannot throw, the text pass ends the Direct2D batch,
    flushes every queued quad (the device calls of [_flushRects], none when
    nothing is queued), makes a new atlas texture exactly when the atlas size
    of the payload is not the size the packer has, re-initialises the packer
    at that size, leaves the glyph cache empty, begins a Direct2D batch,
    clears the atlas and goes on with the same glyph at the same advance.
    No failure is raised and nothing counts the rounds: a glyph that packs
    into no empty atlas of that size is retried for ever. *)
Theorem C4_pack_failure_retries_same_glyph
    fuel env p row m baselineY i cum b glyphIndex :
  (i < glyphsTo m)%nat ->
  glyphIndices row !! i = Some glyphIndex ->
  _glyphCache b !! (m_fontFace m, glyphIndex) = None ->
  (_drawGlyph env p (m_fontFace m) glyphIndex GlyphCacheEntry_new (fontEmSize m)
     (before_draw (m_fontFace m) glyphIndex b)).1.1 = false ->
  batcher_wf b ->
  ((_instanceBufferSize b < _instancesSize b)%nat ->
   sizeof_QuadInstance * Z.of_nat (grown_capacity p (_instancesSize b)) <= UINT_MAX) ->
  ((_indexBufferSize b < _indicesSize b)%nat ->
   sizeof_u32 * Z.of_nat (grown_capacity p (_indicesSize b)) <= UINT_MAX) ->
  (∃ b2,
    glyphs_loop (S fuel) env p row m baselineY i cum b
      = glyphs_loop fuel env p row m baselineY i cum b2 ∧
    calls b2 = calls (before_draw (m_fontFace m) glyphIndex b)
                 ++ [EndDraw] ++ flush_calls p b ++ atlas_reset_calls p b
                 ++ [BeginDraw; Clear] ∧
    ptrs b2 !! _glyphAtlas =
      (if atlas_size_kept p b then ptrs b !! _glyphAtlas
       else Some (length (calls (before_draw (m_fontFace m) glyphIndex b)
                            ++ [EndDraw] ++ flush_calls p b))) ∧
    _instancesSize b2 = 0%nat ∧ _indicesSize b2 = 0%nat ∧
    _instances b2 = _instances b ∧ _indices b2 = _indices b ∧
    _glyphCache b2 = ∅ ∧
    _rectPacker b2 = stbrp_init_target (atlas_u (targetSize (s p)))
                                       (atlas_v (targetSize (s p))) ∧
    beganDrawing b2 = true) ∧
  (never_packs env p (m_fontFace m) glyphIndex (fontEmSize m) ->
   ∀ fuel', glyphs_loop fuel' env p row m baselineY i cum b = Fail OutOfFuel).
Proof.
  intros Hi Hglyph Hmiss Hfail Hwf Hfit1 Hfit2.
  split; [|intros Hnever fuel';
          by apply (never_packs_retries_for_ever env p row m baselineY i glyphIndex)].
  set (b1 := before_draw (m_fontFace m) glyphIndex b) in *.
  assert (batch_of b1 = batch_of b) as Hb1
    by (unfold b1, before_draw; by rewrite batch_of_beginDrawing).
  assert (beganDrawing b1 = true) as Hd1 by apply beganDrawing_beginDrawing.
  assert (_rectPacker b1 = _rectPacker b) as Hr1 by apply rectPacker_before_draw.
  assert (ptrs b1 = ptrs b) as Hp1 by apply ptrs_before_draw.
  assert (flush_calls p b1 = flush_calls p b) as Hf1.
  { unfold flush_calls, instance_realloc_calls, index_realloc_calls,
      upload_and_draw_calls. injection Hb1 as -> -> -> -> -> ->. done. }
  assert (atlas_size_kept p b1 = atlas_size_kept p b) as Hkept
    by (unfold atlas_size_kept; by rewrite Hr1).
  assert (atlas_reset_calls p b1 = atlas_reset_calls p b) as Hreset
    by (unfold atlas_reset_calls; by rewrite Hkept).
  assert (batcher_wf b1) as Hwf1.
  { injection Hb1 as E1 E2 E3 E4 E5 E6. destruct Hwf as [H1 H2 H3].
    split; congruence. }
  assert ((_instanceBufferSize b1 < _instancesSize b1)%nat ->
          sizeof_QuadInstance * Z.of_nat (grown_capacity p (_instancesSize b1))
            <= UINT_MAX) as Hfit1'.
  { injection Hb1 as E1 E2 E3 E4 E5 E6. rewrite E3, E5. done. }
  assert ((_indexBufferSize b1 < _indicesSize b1)%nat ->
          sizeof_u32 * Z.of_nat (grown_capacity p (_indicesSize b1)) <= UINT_MAX)
    as Hfit2'.
  { injection Hb1 as E1 E2 E3 E4 E5 E6. rewrite E4, E6. done. }
  destruct (retry_after_pack_failure_spec p b1 Hd1 Hwf1 Hfit1' Hfit2')
    as (b2 & l & Hretry & _ & Hn2 & Hk2 & Hi2 & Hx2 & Hcache & Hpacker).
  destruct (retry_after_pack_failure_log p b1 Hd1 Hwf1 Hfit1' Hfit2')
    as (b2' & Hretry' & Hcalls & Hatlas & Hdraw2).
  rewrite Hretry in Hretry'. injection Hretry' as <-.
  exists b2. split; [|split; [|split]].
  - cbn [glyphs_loop]. rewrite decide_True by done.
    unfold vector_at. rewrite Hglyph, bind_Ok.
    unfold FindOrInsert. rewrite Hmiss. fold (before_draw (m_fontFace m) glyphIndex b).
    fold b1.
    destruct (_drawGlyph _ _ _ _ _ _ b1) as [[drawn entry'] b'] eqn:Hdraw.
    simpl in Hfail. subst drawn. apply drawGlyph_not_drawn in Hdraw as ->.
    by rewrite Hretry, bind_Ok.
  - by rewrite Hcalls, Hf1, Hreset.
  - by rewrite Hatlas, Hkept, Hp1, Hf1.
  - injection Hb1 as E1 E2 _ _ _ _. rewrite <- E1, <- E2.
    repeat split; assumption.
Qed.

Lemma C4_pack_failure_retries_same_glyph_witness :
  (∃ b2,
    glyphs_loop 1 platform_wide payload_plain row_A
        (mk_FontMapping 0 (f32_of_Z 12) 0 1) f32_zero 0 f32_zero (backend_with 2)
      = glyphs_loop 0 platform_wide payload_plain row_A
          (mk_FontMapping 0 (f32_of_Z 12) 0 1) f32_zero 0 f32_zero b2 ∧
    calls b2 = calls (before_draw 0 65 (backend_with 2))
                 ++ [EndDraw] ++ flush_calls payload_plain (backend_with 2)
                 ++ atlas_reset_calls payload_plain (backend_with 2)
                 ++ [BeginDraw; Clear] ∧
    ptrs b2 !! _glyphAtlas =
      (if atlas_size_kept payload_plain (backend_with 2)
       then ptrs (backend_with 2) !! _glyphAtlas
       else Some (length (calls (before_draw 0 65 (backend_with 2))
                            ++ [EndDraw] ++ flush_calls payload_plain (backend_with 2)))) ∧
    _instancesSize b2 = 0%nat ∧ _indicesSize b2 = 0%nat ∧
    _instances b2 = _instances (backend_with 2) ∧
    _indices b2 = _indices (backend_with 2) ∧
    _glyphCache b2 = ∅ ∧
    _rectPacker b2 = stbrp_init_target (atlas_u (targetSize (s payload_plain)))
                                       (atlas_v (targetSize (s payload_plain))) ∧
    beganDrawing b2 = true) ∧
  (∀ fuel', glyphs_loop fuel' platform_wide payload_plain row_A
              (mk_FontMapping 0 (f32_of_Z 12) 0 1) f32_zero 0 f32_zero (backend_with 2)
            = Fail OutOfFuel).
Proof.
  destruct (C4_pack_failure_retries_same_glyph 0 platform_wide payload_plain row_A
              (mk_FontMapping 0 (f32_of_Z 12) 0 1) f32_zero 0 f32_zero
              (backend_with 2) 65) as [Hround Hever].
  - vm_compute. lia.
  - reflexivity.
  - vm_compute. reflexivity.
  - vm_compute. reflexivity.
  - split; vm_compute; [lia | reflexivity | reflexivity].
  - intros _. vm_compute. discriminate.
  - intros _. vm_compute. discriminate.
  - split; [exact Hround|]. apply Hever.
    intros entry b H. apply drawGlyph_wide. exact H.
Defined.

Lemma grown_capacity_fits n :
  Z.of_nat n <= 6000 ->
  sizeof_QuadInstance * Z.of_nat (grown_capacity payload_plain n) <= UINT_MAX.
Proof.
  intros H. unfold grown_capacity, sizeof_QuadInstance, UINT_MAX.
  change (Z.to_nat (x2 (cellCount (s payload_plain)))) with 3%nat.
  change (Z.to_nat (y2 (cellCount (s payload_plain)))) with 2%nat.
  assert (n / 2 <= n)%nat by (apply Nat.Div0.div_le_upper_bound; lia).
  lia.
Qed.

(** The loop over the only glyph of [row_A] uses up any fuel: each round
    fails to pack and leaves a backend on which the next round fails too. *)
Lemma wide_glyph_never_packs fuel : ∀ baselineY cum b,
  wide_glyph_state b ->
  glyphs_loop fuel platform_wide payload_plain row_A
    (mk_FontMapping 0 (f32_of_Z 12) 0 1) baselineY 0 cum b = Fail OutOfFuel.
Proof.
  induction fuel as [|fuel IH]; intros baselineY cum b (Hmiss & Hpacker & Hwf & Hn).
  { reflexivity. }
  pose proof Hwf as [Hn' Hlen Hk].
  destruct (pack_failure_retries fuel platform_wide payload_plain row_A
              (mk_FontMapping 0 (f32_of_Z 12) 0 1) baselineY 0 cum b 65)
    as (b2 & l & -> & _ & Hn2 & Hk2 & Hi2 & Hx2 & Hcache & Hpacker2).
  - cbn. lia.
  - reflexivity.
  - exact Hmiss.
  - apply drawGlyph_wide. by rewrite rectPacker_before_draw.
  - exact Hwf.
  - intros _. apply grown_capacity_fits. lia.
  - intros _. pose proof (grown_capacity_fits (_indicesSize b)) as Hfit.
    unfold sizeof_QuadInstance in Hfit. unfold sizeof_u32. lia.
  - apply IH. split; [|split; [|split]].
    + rewrite Hcache. apply lookup_empty.
    + rewrite Hpacker2. vm_compute. reflexivity.
    + split; [lia | congruence | lia].
    + lia.
Qed.

Lemma batch_of_eq b b' :
  batch_of b = batch_of b' ->
  _instances b = _instances b' ∧ _indices b = _indices b' ∧
  _instancesSize b = _instancesSize b' ∧ _indicesSize b = _indicesSize b'.
Proof. intros [= -> -> -> -> _ _]. done. Qed.

Lemma backend_before_text_ok :
  Render_background payload_plain
    (Render_setup payload_plain
       (Render_refresh platform_wide payload_plain BackendD3D11_new))
  = Ok backend_before_text.
Proof. apply res_get_Ok. vm_compute. reflexivity. Qed.

Lemma backend_before_text_wf : batcher_wf backend_before_text.
Proof. split; vm_compute; [lia | reflexivity | reflexivity]. Qed.

Lemma backend_before_text_queued : (_instancesSize backend_before_text <= 1000)%nat.
Proof. vm_compute. lia. Qed.

Lemma backend_before_text_no_atlas : is_set _glyphAtlas backend_before_text = false.
Proof. vm_compute. reflexivity. Qed.

Lemma wide_glyph_state_at_text :
  wide_glyph_state (_resetAtlasAndBeginDraw payload_plain backend_before_text).
Proof.
  pose proof (resetAtlasAndBeginDraw_spec payload_plain backend_before_text)
    as (Hcache & Hpacker & _ & _).
  pose proof (batch_of_resetAtlasAndBeginDraw payload_plain backend_before_text) as Hb.
  pose proof backend_before_text_wf as [Hn Hlen Hk].
  pose proof backend_before_text_queued as Hq.
  set (b := _resetAtlasAndBeginDraw payload_plain backend_before_text) in *.
  clearbody b. apply batch_of_eq in Hb as (E1 & E2 & E3 & E4).
  split; [|split; [|split]].
  - rewrite Hcache. apply lookup_empty.
  - rewrite Hpacker. vm_compute. reflexivity.
  - split; congruence.
  - congruence.
Qed.

Lemma text_row_wide fuel y b :
  wide_glyph_state b ->
  text_row fuel platform_wide payload_plain y row_A b = Fail OutOfFuel.
Proof.
  intros H. unfold text_row. cbv zeta.
  change (mappings row_A) with [mk_FontMapping 0 (f32_of_Z 12) 0 1].
  cbn [for_each glyphsFrom].
  by rewrite wide_glyph_never_packs.
Qed.

Lemma Render_wide_glyph fuel :
  Render fuel platform_wide payload_plain BackendD3D11_new = Fail OutOfFuel.
Proof.
  unfold Render, Render_draw. cbv zeta.
  rewrite backend_before_text_ok, bind_Ok.
  unfold Render_text. cbv zeta. rewrite backend_before_text_no_atlas.
  change (rows payload_plain) with [row_A; mk_ShapedRow [] [] [] [] [] [] 0 0].
  cbn [for_rows]. rewrite text_row_wide by apply wide_glyph_state_at_text.
  reflexivity.
Qed.

(** C4, on the code: a glyph whose ink box is wider than any atlas fails to
    pack on every round; the first frame that shapes it never leaves the text
    pass, whatever the number of rounds allowed, and reports no failure of
    its own. *)
Theorem C4_wide_glyph_counterexample :
  ¬ ∃ fuel, Render fuel platform_wide payload_plain BackendD3D11_new ≠ Fail OutOfFuel.
Proof. intros [fuel H]. apply H, Render_wide_glyph. Qed.

(** ** The quad batcher: more on appends *)

Lemma quad_indices_wrap n :
  4 * Z.of_nat n + 3 < 4294967296 ->
  [ Some (wrap32 (wrap32 (Z.of_nat (n * 4)) + 0));
    Some (wrap32 (wrap32 (Z.of_nat (n * 4)) + 1));
    Some (wrap32 (wrap32 (Z.of_nat (n * 4)) + 2));
    Some (wrap32 (wrap32 (Z.of_nat (n * 4)) + 3));
    Some (wrap32 (wrap32 (Z.of_nat (n * 4)) + 2));
    Some (wrap32 (wrap32 (Z.of_nat (n * 4)) + 1)) ]
  = indices_of_slot n.
Proof.
  intros H. unfold indices_of_slot, quad_indices.
  rewrite Nat2Z.inj_mul, (Z.mul_comm (Z.of_nat n)). change (Z.of_nat 4) with 4.
  rewrite (wrap32_small (4 * Z.of_nat n)) by lia.
  rewrite !wrap32_small by lia. by rewrite Z.add_0_r.
Qed.

(** An append that finds room: the arrays keep their capacity, what was
    queued stays, the quad and its indices follow. *)
Lemma appendRect_with_room pos tex col st b :
  batcher_wf b ->
  (_instancesSize b < length (_instances b))%nat ->
  ∃ b', _appendRect pos tex col st b = Ok b' ∧ batcher_wf b' ∧
    length (_instances b') = length (_instances b) ∧
    _instancesSize b' = S (_instancesSize b) ∧
    _indicesSize b' = (_indicesSize b + 6)%nat ∧
    take (S (_instancesSize b)) (_instances b') =
      take (_instancesSize b) (_instances b) ++ [Some (mk_QuadInstance pos tex col st)] ∧
    (let off := wrap32 (Z.of_nat (_instancesSize b * 4)) in
     take (_indicesSize b + 6) (_indices b') =
       take (_indicesSize b) (_indices b) ++
       [ Some (wrap32 (off + 0)); Some (wrap32 (off + 1)); Some (wrap32 (off + 2));
         Some (wrap32 (off + 3)); Some (wrap32 (off + 2)); Some (wrap32 (off + 1)) ]).
Proof.
  intros Hwf Hroom.
  destruct (appendRect_ok pos tex col st b Hwf) as (b' & H & Hwf' & Hn & Hk & Hlast).
  pose proof (appendRect_capacity _ _ _ _ _ _ H) as Hc.
  rewrite decide_False in Hc by lia.
  pose proof (appendRect_indices _ _ _ _ _ _ Hwf H) as Hidx.
  pose proof H as (_ & Hi & Hx & _)%appendRect_spec.
  assert (with_room b = b) as Hwr by (unfold with_room; by rewrite decide_False by lia).
  rewrite Hwr in Hi, Hx.
  exists b'. split; [done|]. split; [done|]. split; [done|].
  split; [done|]. split; [done|]. split.
  - rewrite (take_S_r _ _ _ Hlast). f_equal.
    rewrite Hi. by apply take_insert_ge.
  - cbv zeta in *. rewrite <- Hidx.
    rewrite <- (take_drop (_indicesSize b) (take (_indicesSize b + 6) (_indices b'))).
    rewrite take_take, Nat.min_l by lia.
    f_equal.
    + rewrite Hx. by rewrite !take_insert_ge by lia.
    + rewrite take_drop_commute. done.
Qed.

(** X1: on well-formed staging arrays an append succeeds and keeps them
    well formed; it queues one quad, in the slot after those queued, and six
    indices: [4 * slot + {0, 1, 2, 3, 2, 1}], reduced modulo 2^32. *)
Theorem X1_appendRect_queues_a_quad pos tex col st b :
  batcher_wf b ->
  ∃ b', _appendRect pos tex col st b = Ok b' ∧ batcher_wf b' ∧
    _instancesSize b' = S (_instancesSize b) ∧
    _indicesSize b' = (_indicesSize b + 6)%nat ∧
    _instances b' !! _instancesSize b = Some (Some (mk_QuadInstance pos tex col st)) ∧
    (let off := wrap32 (Z.of_nat (_instancesSize b * 4)) in
     take 6 (drop (_indicesSize b) (_indices b')) =
       [ Some (wrap32 (off + 0)); Some (wrap32 (off + 1)); Some (wrap32 (off + 2));
         Some (wrap32 (off + 3)); Some (wrap32 (off + 2)); Some (wrap32 (off + 1)) ]).
Proof.
  intros Hwf. destruct (appendRect_ok pos tex col st b Hwf) as (b' & H & Hwf' & Hn & Hk & Hq).
  exists b'. split; [done|]. split; [done|]. split; [done|]. split; [done|].
  split; [done|]. by apply (appendRect_indices _ _ _ _ _ _ Hwf H).
Qed.

Lemma X1_appendRect_queues_a_quad_witness :
  ∃ b', _appendRect (f32x4_of_Z 0 0 1 1) f32x4_zero 7 SolidFill BackendD3D11_new = Ok b' ∧
    batcher_wf b' ∧ _instancesSize b' = 1%nat ∧ _indicesSize b' = 6%nat ∧
    _instances b' !! 0%nat
      = Some (Some (mk_QuadInstance (f32x4_of_Z 0 0 1 1) f32x4_zero 7 SolidFill)) ∧
    take 6 (drop 0 (_indices b')) = [Some 0; Some 1; Some 2; Some 3; Some 2; Some 1].
Proof.
  apply (X1_appendRect_queues_a_quad (f32x4_of_Z 0 0 1 1) f32x4_zero 7 SolidFill
           BackendD3D11_new).
  split; reflexivity.
Defined.

(** X2: an append that finds room in the staging arrays keeps their
    capacity and everything queued before it: the queued quads are those of
    before followed by the new one, the queued indices those of before
    followed by the six of the new quad. *)
Theorem X2_append_with_room_keeps_the_queue pos tex col st b :
  batcher_wf b ->
  (_instancesSize b < length (_instances b))%nat ->
  ∃ b', _appendRect pos tex col st b = Ok b' ∧ batcher_wf b' ∧
    length (_instances b') = length (_instances b) ∧
    _instancesSize b' = S (_instancesSize b) ∧
    _indicesSize b' = (_indicesSize b + 6)%nat ∧
    take (S (_instancesSize b)) (_instances b') =
      take (_instancesSize b) (_instances b) ++ [Some (mk_QuadInstance pos tex col st)] ∧
    (let off := wrap32 (Z.of_nat (_instancesSize b * 4)) in
     take (_indicesSize b + 6) (_indices b') =
       take (_indicesSize b) (_indices b) ++
       [ Some (wrap32 (off + 0)); Some (wrap32 (off + 1)); Some (wrap32 (off + 2));
         Some (wrap32 (off + 3)); Some (wrap32 (off + 2)); Some (wrap32 (off + 1)) ]).
Proof. apply appendRect_with_room. Qed.

Lemma X2_append_with_room_keeps_the_queue_witness :
  ∃ b', _appendRect (f32x4_of_Z 0 0 1 1) f32x4_zero 7 SolidFill (backend_with 1) = Ok b' ∧
    batcher_wf b' ∧
    length (_instances b') = length (_instances (backend_with 1)) ∧
    _instancesSize b' = S (_instancesSize (backend_with 1)) ∧
    _indicesSize b' = (_indicesSize (backend_with 1) + 6)%nat ∧
    take (S (_instancesSize (backend_with 1))) (_instances b') =
      take (_instancesSize (backend_with 1)) (_instances (backend_with 1))
        ++ [Some (mk_QuadInstance (f32x4_of_Z 0 0 1 1) f32x4_zero 7 SolidFill)] ∧
    (let off := wrap32 (Z.of_nat (_instancesSize (backend_with 1) * 4)) in
     take (_indicesSize (backend_with 1) + 6) (_indices b') =
       take (_indicesSize (backend_with 1)) (_indices (backend_with 1)) ++
       [ Some (wrap32 (off + 0)); Some (wrap32 (off + 1)); Some (wrap32 (off + 2));
         Some (wrap32 (off + 3)); Some (wrap32 (off + 2)); Some (wrap32 (off + 1)) ]).
Proof.
  apply (X2_append_with_room_keeps_the_queue (f32x4_of_Z 0 0 1 1) f32x4_zero 7 SolidFill
           (backend_with 1)).
  - split; vm_compute; [lia | reflexivity | reflexivity].
  - vm_compute. lia.
Defined.

(** X3: an append on full staging arrays replaces them by arrays of twice
    the capacity, 1024 slots at least, and succeeds; of the quads and the
    indices queued before, none is left: their slots hold no value.  Only the
    new quad and its six indices are in the new arrays. *)
Theorem X3_append_on_full_arrays pos tex col st b :
  batcher_wf b -> _instancesSize b = length (_instances b) ->
  ∃ b', _appendRect pos tex col st b = Ok b' ∧
    _instancesSize b' = S (_instancesSize b) ∧
    _indicesSize b' = (_indicesSize b + 6)%nat ∧
    length (_instances b') = Nat.max 1024 (length (_instances b) * 2) ∧
    (∀ i, (i < _instancesSize b)%nat -> _instances b' !! i = Some None) ∧
    _instances b' !! _instancesSize b = Some (Some (mk_QuadInstance pos tex col st)) ∧
    (∀ i, (i < _indicesSize b)%nat -> _indices b' !! i = Some None) ∧
    (let off := wrap32 (Z.of_nat (_instancesSize b * 4)) in
     take 6 (drop (_indicesSize b) (_indices b')) =
       [ Some (wrap32 (off + 0)); Some (wrap32 (off + 1)); Some (wrap32 (off + 2));
         Some (wrap32 (off + 3)); Some (wrap32 (off + 2)); Some (wrap32 (off + 1)) ]).
Proof. apply appendRect_overflow. Qed.

Lemma X3_append_on_full_arrays_witness :
  ∃ b',
    _appendRect (f32x4_of_Z 1024 0 1 1) f32x4_zero 1024 SolidFill (backend_with 1024)
      = Ok b' ∧
    _instancesSize b' = 1025%nat ∧ _indicesSize b' = 6150%nat ∧
    length (_instances b') = 2048%nat ∧
    _instances b' !! 0%nat = Some None ∧ _instances b' !! 1023%nat = Some None ∧
    _instances b' !! 1024%nat
      = Some (Some (mk_QuadInstance (f32x4_of_Z 1024 0 1 1) f32x4_zero 1024 SolidFill)) ∧
    _indices b' !! 0%nat = Some None ∧ _indices b' !! 5%nat = Some None.
Proof.
  destruct (appendRects_grow_once test_args 0 1024 BackendD3D11_new
              BackendD3D11_new_wf eq_refl ltac:(lia))
    as (b1 & H1 & Hwf1 & Hn1 & Hk1 & Hc1).
  unfold backend_with. rewrite H1. clear H1. cbn [res_get].
  destruct (X3_append_on_full_arrays (f32x4_of_Z 1024 0 1 1) f32x4_zero 1024 SolidFill
              b1 Hwf1)
    as (b' & H & Hn & Hk & Hc & Hlost & Hlast & Hlosti & _); [congruence|].
  exists b'.
  rewrite Hn1 in Hn, Hlost, Hlast. rewrite Hk1 in Hk, Hlosti. rewrite Hc1 in Hc.
  refine (conj H (conj Hn (conj Hk (conj Hc (conj (Hlost 0%nat _) (conj (Hlost 1023%nat _)
            (conj Hlast (conj (Hlosti 0%nat _) (Hlosti 5%nat _))))))))); lia.
Defined.

(** X4: an append changes the staging arrays and their counts and nothing
    else: it logs no call, creates and releases no device object, and leaves
    the capacities of the device buffers, the glyph cache, the packer and the
    flag [beganDrawing] as they are. *)
Theorem X4_append_touches_the_batch_only pos tex col st b b' :
  _appendRect pos tex col st b = Ok b' ->
  calls b' = calls b ∧ ptrs b' = ptrs b ∧
  _instanceBufferSize b' = _instanceBufferSize b ∧
  _indexBufferSize b' = _indexBufferSize b ∧
  _glyphCache b' = _glyphCache b ∧ _rectPacker b' = _rectPacker b ∧
  beganDrawing b' = beganDrawing b ∧
  _vertexInstanceData b' = _vertexInstanceData b.
Proof.
  intros H%appendRect_frame.
  split; [by apply (f_equal calls) in H|]. split; [by apply (f_equal ptrs) in H|].
  split; [by apply (f_equal _instanceBufferSize) in H|].
  split; [by apply (f_equal _indexBufferSize) in H|].
  split; [by apply (f_equal _glyphCache) in H|].
  split; [by apply (f_equal _rectPacker) in H|].
  split; [by apply (f_equal beganDrawing) in H|].
  by apply (f_equal _vertexInstanceData) in H.
Qed.

Lemma X4_append_touches_the_batch_only_witness :
  calls backend_one = calls BackendD3D11_new ∧ ptrs backend_one = ptrs BackendD3D11_new.
Proof.
  destruct (X4_append_touches_the_batch_only (f32x4_of_Z 0 0 1 1) f32x4_zero 7 SolidFill
              BackendD3D11_new backend_one) as (H1 & H2 & _).
  - apply res_get_Ok. vm_compute. reflexivity.
  - exact (conj H1 H2).
Defined.

Lemma appendRects_S args from n b :
  appendRects args from (S n) b =
  _appendRect (args from).1.1.1 (args from).1.1.2 (args from).1.2 (args from).2 b
    ≫= appendRects args (S from) n.
Proof. cbn [appendRects]. by destruct (args from) as [[[pos tex] col] st]. Qed.

(** A run of appends that finds room queues its quads after those already
    queued, in the order of the calls, each with the indices of its slot. *)
Lemma appendRects_queue args from n b :
  batcher_wf b ->
  (_instancesSize b + n <= length (_instances b))%nat ->
  4 * Z.of_nat (_instancesSize b + n) < 4294967296 ->
  ∃ b', appendRects args from n b = Ok b' ∧ batcher_wf b' ∧
    length (_instances b') = length (_instances b) ∧
    _instancesSize b' = (_instancesSize b + n)%nat ∧
    _indicesSize b' = (_indicesSize b + 6 * n)%nat ∧
    take (_instancesSize b + n) (_instances b') =
      take (_instancesSize b) (_instances b) ++ (quad_of args <$> seq from n) ∧
    take (_indicesSize b + 6 * n) (_indices b') =
      take (_indicesSize b) (_indices b)
        ++ flat_map indices_of_slot (seq (_instancesSize b) n).
Proof.
  revert from b. induction n as [|n IH]; intros from b Hwf Hroom Hsmall.
  - exists b. cbn [appendRects seq fmap list_fmap flat_map Nat.mul].
    rewrite !Nat.add_0_r, !app_nil_r. done.
  - destruct (appendRect_with_room (args from).1.1.1 (args from).1.1.2
                (args from).1.2 (args from).2 b Hwf)
      as (b1 & H1 & Hwf1 & Hc1 & Hn1 & Hk1 & Hq1 & Hi1); [lia|].
    cbv zeta in Hi1. rewrite quad_indices_wrap in Hi1 by lia.
    destruct (IH (S from) b1 Hwf1) as (b' & H' & Hwf' & Hc' & Hn' & Hk' & Hq' & Hi');
      [lia|lia|].
    assert (Some (mk_QuadInstance (args from).1.1.1 (args from).1.1.2
                    (args from).1.2 (args from).2) = quad_of args from) as Eq.
    { unfold quad_of. by destruct (args from) as [[[pos tex] col] st]. }
    rewrite Eq in Hq1.
    exists b'. rewrite appendRects_S, H1, bind_Ok. split; [done|]. split; [done|].
    split; [congruence|]. split; [lia|]. split; [lia|].
    rewrite Hn1, Hk1, Hq1, Hi1 in *. split.
    + replace (_instancesSize b + S n)%nat with (S (_instancesSize b) + n)%nat by lia.
      rewrite Hq'. cbn [seq fmap list_fmap]. by rewrite <- app_assoc.
    + replace (_indicesSize b + 6 * S n)%nat with (_indicesSize b + 6 + 6 * n)%nat by lia.
      rewrite Hi'. cbn [seq flat_map]. by rewrite <- app_assoc.
Qed.

Lemma appendRect_calls pos tex col st b b' :
  _appendRect pos tex col st b = Ok b' -> calls b' = calls b.
Proof. intros H%appendRect_frame. by apply (f_equal calls) in H. Qed.

Lemma appendRects_calls args from n b b' :
  appendRects args from n b = Ok b' -> calls b' = calls b.
Proof.
  revert from b. induction n as [|n IH]; intros from b H; simpl in H.
  - by injection H as <-.
  - destruct (args from) as [[[pos tex] col] st].
    apply bind_Ok_inv in H as (b1 & H1 & H).
    rewrite (IH _ _ H). by eapply appendRect_calls.
Qed.

(** The same from an empty batch, the first growth included. *)
Lemma appendRects_queue_empty args from n b :
  batcher_wf b -> _instancesSize b = 0%nat -> (n <= room b)%nat ->
  4 * Z.of_nat n < 4294967296 ->
  ∃ b', appendRects args from n b = Ok b' ∧ batcher_wf b' ∧
    _instancesSize b' = n ∧ _indicesSize b' = (6 * n)%nat ∧
    take n (_instances b') = quad_of args <$> seq from n ∧
    take (6 * n) (_indices b') = flat_map indices_of_slot (seq 0 n).
Proof.
  intros Hwf Hn0 Hn Hsmall.
  pose proof (wf_indicesSize b Hwf) as Hk0. rewrite Hn0 in Hk0. cbn in Hk0.
  unfold room in Hn. destruct (decide (length (_instances b) = 0)%nat) as [Hlen|Hlen].
  - destruct n as [|n].
    { exists b. cbn. rewrite Hn0, Hk0. by rewrite !take_0. }
    destruct (appendRect_ok (args from).1.1.1 (args from).1.1.2
                (args from).1.2 (args from).2 b Hwf) as (b1 & H1 & Hwf1 & _).
    destruct (appendRect_overflow (args from).1.1.1 (args from).1.1.2
                (args from).1.2 (args from).2 b Hwf)
      as (b1' & H1' & Hn1 & Hk1 & Hc1 & _ & Hq1 & _ & Hi1); [congruence|].
    rewrite H1 in H1'. injection H1' as <-.
    rewrite ?Hn0, ?Hk0, ?Hlen in *. cbv zeta in Hi1. rewrite drop_0 in Hi1.
    rewrite quad_indices_wrap in Hi1 by lia.
    assert (Some (mk_QuadInstance (args from).1.1.1 (args from).1.1.2
                    (args from).1.2 (args from).2) = quad_of args from) as Eq.
    { unfold quad_of. by destruct (args from) as [[[pos tex] col] st]. }
    rewrite Eq in Hq1. apply take_S_r in Hq1. rewrite take_0 in Hq1.
    destruct (appendRects_queue args (S from) n b1 Hwf1)
      as (b' & H' & Hwf' & _ & Hn' & Hk' & Hq' & Hi'); [lia|lia|].
    cbn [Nat.add] in Hk1. rewrite Hn1 in Hn', Hq', Hi'. rewrite Hk1 in Hk', Hi'.
    rewrite Hq1 in Hq'. rewrite Hi1 in Hi'.
    exists b'. rewrite appendRects_S, H1, bind_Ok.
    split; [done|]. split; [done|]. split; [done|]. split; [lia|]. split.
    + cbn [Nat.add] in Hq'. by rewrite Hq'.
    + replace (6 * S n)%nat with (6 + 6 * n)%nat by lia. by rewrite Hi'.
  - destruct (appendRects_queue args from n b Hwf)
      as (b' & H' & Hwf' & _ & Hn' & Hk' & Hq' & Hi'); [lia|lia|].
    rewrite Hn0 in Hn', Hq', Hi'. rewrite Hk0 in Hk', Hi'.
    cbn [Nat.add] in Hn', Hk', Hq', Hi'. rewrite take_0 in Hq'. rewrite take_0 in Hi'.
    exists b'. split; [done|]. split; [done|]. split; [done|]. split; [done|]. done.
Qed.

(** X5: quads appended to an empty batch that has room for them reach the
    device in the order of the calls: the flush uploads exactly these quads,
    the six indices of each slot, and draws six indices a quad. *)
Theorem X5_queued_quads_reach_the_device args from n p b :
  batcher_wf b -> _instancesSize b = 0%nat -> (0 < n <= room b)%nat ->
  sizeof_QuadInstance * Z.of_nat (grown_capacity p n) <= UINT_MAX ->
  sizeof_u32 * Z.of_nat (grown_capacity p (6 * n)) <= UINT_MAX ->
  ∃ b1 b2 l,
    appendRects args from n b = Ok b1 ∧ _flushRects p b1 = Ok b2 ∧
    calls b2 = calls b ++ l ++
      [ Map_WRITE_DISCARD _instanceBuffer;
        memcpy_QuadInstance (quad_of args <$> seq from n);
        Unmap _instanceBuffer;
        Map_WRITE_DISCARD _indexBuffer;
        memcpy_u32 (flat_map indices_of_slot (seq 0 n));
        Unmap _indexBuffer;
        DrawIndexed (6 * Z.of_nat n) ] ∧
    _instancesSize b2 = 0%nat ∧ _indicesSize b2 = 0%nat.
Proof.
  intros Hwf Hn0 Hn Hfit1 Hfit2.
  assert (Z.of_nat (6 * n) <= Z.of_nat (grown_capacity p (6 * n))) as Hgrow.
  { unfold grown_capacity. lia. }
  unfold sizeof_u32, UINT_MAX in Hfit2.
  destruct (appendRects_queue_empty args from n b Hwf Hn0)
    as (b1 & H1 & Hwf1 & Hn1 & Hk1 & Hq & Hi); [lia|lia|].
  destruct (flushRects_spec p b1) as [_ Hflush].
  { apply Hwf1. }
  { destruct Hwf1 as [? ? ?]. lia. }
  { intros _. by rewrite Hn1. }
  { intros _. rewrite Hk1. done. }
  destruct Hflush as (b2 & H2 & Hcalls & _ & _ & Hn2 & Hk2); [lia|].
  exists b1, b2, (instance_realloc_calls p b1 ++ index_realloc_calls p b1).
  split; [done|]. split; [done|]. split; [|done].
  rewrite Hcalls, (appendRects_calls _ _ _ _ _ H1).
  rewrite <- !app_assoc. do 3 f_equal.
  unfold upload_and_draw_calls. rewrite Hn1, Hk1, Hq, Hi.
  rewrite wrap32_small by lia. by rewrite Nat2Z.inj_mul.
Qed.

Lemma X5_queued_quads_reach_the_device_witness :
  ∃ b1 b2 l,
    appendRects test_args 0 2 BackendD3D11_new = Ok b1 ∧
    _flushRects payload_plain b1 = Ok b2 ∧
    calls b2 = calls BackendD3D11_new ++ l ++
      [ Map_WRITE_DISCARD _instanceBuffer;
        memcpy_QuadInstance (quad_of test_args <$> seq 0 2);
        Unmap _instanceBuffer;
        Map_WRITE_DISCARD _indexBuffer;
        memcpy_u32 (flat_map indices_of_slot (seq 0 2));
        Unmap _indexBuffer;
        DrawIndexed (6 * Z.of_nat 2) ] ∧
    _instancesSize b2 = 0%nat ∧ _indicesSize b2 = 0%nat.
Proof.
  apply (X5_queued_quads_reach_the_device test_args 0 2 payload_plain BackendD3D11_new).
  - exact BackendD3D11_new_wf.
  - reflexivity.
  - vm_compute. lia.
  - vm_compute. discriminate.
  - vm_compute. discriminate.
Defined.

(** ** The quad batcher: more on the flush *)

Lemma flushRects_inv p b b' :
  _flushRects p b = Ok b' -> _instancesSize b ≠ 0%nat ->
  _instanceBufferSize b' =
    (if decide (_instanceBufferSize b < _instancesSize b)%nat
     then grown_capacity p (_instancesSize b) else _instanceBufferSize b) ∧
  _indexBufferSize b' =
    (if decide (_indexBufferSize b < _indicesSize b)%nat
     then grown_capacity p (_indicesSize b) else _indexBufferSize b) ∧
  _instancesSize b' = 0%nat ∧ _indicesSize b' = 0%nat.
Proof.
  intros H Hz. unfold _flushRects in H. rewrite decide_False in H by done.
  apply bind_Ok_inv in H as (b1 & H1 & H).
  apply bind_Ok_inv in H as (b2 & H2 & H).
  apply bind_Ok_inv in H as (l1 & _ & H).
  apply bind_Ok_inv in H as (l2 & _ & [= <-]).
  assert (_instanceBufferSize b1 =
            (if decide (_instanceBufferSize b < _instancesSize b)%nat
             then grown_capacity p (_instancesSize b) else _instanceBufferSize b) ∧
          _indexBufferSize b1 = _indexBufferSize b ∧
          _indicesSize b1 = _indicesSize b) as (E1 & E2 & E3).
  { destruct (decide (_instanceBufferSize b < _instancesSize b)%nat);
      [|by injection H1 as <-].
    by apply bind_Ok_inv in H1 as (w & _ & [= <-]). }
  assert (_instanceBufferSize b2 = _instanceBufferSize b1 ∧
          _indexBufferSize b2 =
            (if decide (_indexBufferSize b1 < _indicesSize b1)%nat
             then grown_capacity p (_indicesSize b1) else _indexBufferSize b1))
    as (F1 & F2).
  { destruct (decide (_indexBufferSize b1 < _indicesSize b1)%nat);
      [|by injection H2 as <-].
    by apply bind_Ok_inv in H2 as (w & _ & [= <-]). }
  rewrite E2, E3 in F2. rewrite E1 in F1.
  repeat split; assumption.
Qed.

(** X6: a flush leaves nothing queued, so a second flush right after it does
    nothing at all. *)
Theorem X6_flush_twice p b b' :
  _flushRects p b = Ok b' ->
  _instancesSize b' = 0%nat ∧ _flushRects p b' = Ok b'.
Proof.
  intros H.
  assert (_instancesSize b' = 0%nat) as Hz.
  { destruct (decide (_instancesSize b = 0)%nat) as [Hz|Hz].
    - unfold _flushRects in H. rewrite decide_True in H by done. by injection H as <-.
    - by apply (flushRects_inv _ _ _ H Hz). }
  split; [done|]. unfold _flushRects. by rewrite decide_True.
Qed.

Lemma X6_flush_twice_witness :
  _instancesSize backend_flushed = 0%nat ∧
  _flushRects payload_plain backend_flushed = Ok backend_flushed.
Proof.
  apply (X6_flush_twice payload_plain (backend_with 2) backend_flushed).
  apply res_get_Ok. vm_compute. reflexivity.
Defined.

(** X7: a flush moves no quad and no index in the staging arrays (it only
    sets the counts to zero) and leaves the glyph cache, the rectangle packer
    and the Direct2D batch as they are. *)
Theorem X7_flush_keeps_arrays p b b' :
  _flushRects p b = Ok b' ->
  _instances b' = _instances b ∧ _indices b' = _indices b ∧
  _glyphCache b' = _glyphCache b ∧ _rectPacker b' = _rectPacker b ∧
  beganDrawing b' = beganDrawing b.
Proof.
  intros H%beside_flush_flushRects. unfold beside_flush in H.
  by injection H as -> -> -> -> ->.
Qed.

Lemma X7_flush_keeps_arrays_witness :
  _instances backend_flushed = _instances (backend_with 2) ∧
  _indices backend_flushed = _indices (backend_with 2) ∧
  _glyphCache backend_flushed = _glyphCache (backend_with 2) ∧
  _rectPacker backend_flushed = _rectPacker (backend_with 2) ∧
  beganDrawing backend_flushed = beganDrawing (backend_with 2).
Proof.
  apply (X7_flush_keeps_arrays payload_plain (backend_with 2) backend_flushed).
  apply res_get_Ok. vm_compute. reflexivity.
Defined.

(** X8: the device buffers never shrink, and after a flush that uploaded
    something they hold at least as many elements as were uploaded. *)
Theorem X8_flush_capacity p b b' :
  _flushRects p b = Ok b' ->
  (_instanceBufferSize b <= _instanceBufferSize b')%nat ∧
  (_indexBufferSize b <= _indexBufferSize b')%nat ∧
  (_instancesSize b ≠ 0%nat ->
   (_instancesSize b <= _instanceBufferSize b')%nat ∧
   (_indicesSize b <= _indexBufferSize b')%nat).
Proof.
  intros H. destruct (decide (_instancesSize b = 0)%nat) as [Hz|Hz].
  - unfold _flushRects in H. rewrite decide_True in H by done. injection H as <-.
    split; [done|]. split; [done|]. done.
  - destruct (flushRects_inv _ _ _ H Hz) as (-> & -> & _).
    unfold grown_capacity. repeat case_decide; lia.
Qed.

Lemma X8_flush_capacity_witness :
  (_instanceBufferSize (backend_with 2) <= _instanceBufferSize backend_flushed)%nat ∧
  (_indexBufferSize (backend_with 2) <= _indexBufferSize backend_flushed)%nat ∧
  (_instancesSize (backend_with 2) ≠ 0%nat ->
   (_instancesSize (backend_with 2) <= _instanceBufferSize backend_flushed)%nat ∧
   (_indicesSize (backend_with 2) <= _indexBufferSize backend_flushed)%nat).
Proof.
  apply (X8_flush_capacity payload_plain (backend_with 2) backend_flushed).
  apply res_get_Ok. vm_compute. reflexivity.
Defined.

(** X9: a flush that has to create an instance buffer of more than
    [UINT_MAX] bytes fails in [gsl::narrow]; no buffer is created. *)
Theorem X9_flush_narrowing p b :
  _instancesSize b ≠ 0%nat ->
  (_instanceBufferSize b < _instancesSize b)%nat ->
  UINT_MAX < sizeof_QuadInstance * Z.of_nat (grown_capacity p (_instancesSize b)) ->
  _flushRects p b = Fail NarrowingError.
Proof.
  intros Hz Hsmall Hbig. unfold _flushRects.
  rewrite decide_False by done. rewrite decide_True by done. cbv zeta.
  fold (grown_capacity p (_instancesSize b)).
  unfold narrow_UINT. destruct (Z.leb_spec (sizeof_QuadInstance *
    Z.of_nat (grown_capacity p (_instancesSize b))) UINT_MAX); [lia|].
  by rewrite andb_false_r.
Qed.

Lemma X9_flush_narrowing_witness :
  _flushRects payload_huge (backend_with 1) = Fail NarrowingError.
Proof.
  apply X9_flush_narrowing.
  - vm_compute. discriminate.
  - vm_compute. lia.
  - change (_instancesSize (backend_with 1)) with 1%nat.
    unfold grown_capacity, sizeof_QuadInstance, UINT_MAX.
    change (x2 (cellCount (s payload_huge))) with 16384.
    change (y2 (cellCount (s payload_huge))) with 8192.
    rewrite Nat2Z.inj_max, Nat2Z.inj_mul, !Z2Nat.id by lia. lia.
Defined.

(** ** The glyph atlas: its shape, and what a reset leaves *)

(** X10: for a target of at most 2^30 pixels the atlas is at least 256 pixels
    high and either square or twice as wide as high; up to 65536 pixels of
    target it is 256 by 256. *)
Theorem X10_atlas_shape (size : u16x2) :
  0 <= x2 size -> 0 <= y2 size -> x2 size * y2 size <= 2 ^ 30 ->
  256 <= atlas_v size ∧
  (atlas_u size = atlas_v size ∨ atlas_u size = 2 * atlas_v size) ∧
  (x2 size * y2 size <= 65536 -> atlas_u size = 256 ∧ atlas_v size = 256).
Proof.
  intros Hx Hy Hxy.
  destruct (atlas_index_bounds size Hx Hy Hxy) as [Harea Hidx].
  assert (Z.log2 (Z.max 65536 (x2 size * y2 size) - 1) = atlas_index size) as Hi
    by (unfold atlas_index, _BitScanReverse; by rewrite Harea).
  set (i := atlas_index size) in *.
  assert (8 <= (i + 2) / 2 <= 15) as Hu
    by (Z.to_euclidean_division_equations; lia).
  assert (8 <= (i + 1) / 2 <= 15) as Hv
    by (Z.to_euclidean_division_equations; lia).
  unfold atlas_u, atlas_v. fold i.
  rewrite !atlas_dimension_exact by done.
  split; [|split].
  - change 256 with (2 ^ 8). apply Z.pow_le_mono_r; lia.
  - assert ((i + 2) / 2 = (i + 1) / 2 ∨ (i + 2) / 2 = (i + 1) / 2 + 1) as [->| ->]
      by (Z.to_euclidean_division_equations; lia).
    + by left.
    + right. rewrite Z.pow_add_r by lia. change (2 ^ 1) with 2. lia.
  - intros Hsmall. rewrite Z.max_l in Hi by lia.
    change (Z.log2 (65536 - 1)) with 15 in Hi. rewrite <- Hi. done.
Qed.

Lemma X10_atlas_shape_witness :
  256 <= atlas_v (mk_u16x2 1920 1080) ∧
  (atlas_u (mk_u16x2 1920 1080) = atlas_v (mk_u16x2 1920 1080) ∨
   atlas_u (mk_u16x2 1920 1080) = 2 * atlas_v (mk_u16x2 1920 1080)).
Proof.
  pose proof (X10_atlas_shape (mk_u16x2 1920 1080)
                ltac:(simpl; lia) ltac:(simpl; lia) ltac:(vm_compute; discriminate))
    as (H1 & H2 & _).
  exact (conj H1 H2).
Defined.

Lemma batch_of_set_beganDrawing v b : batch_of (set_beganDrawing v b) = batch_of b.
Proof. reflexivity. Qed.

(** X11: a reset of the atlas leaves no cached glyph, a packer without
    rectangles of the atlas size of the payload and a Direct2D batch that has
    begun; the last call it logs clears the atlas; the queued quads and
    indices are as before.  When the packer already has that size, no device
    object is created or released: the reset logs [BeginDraw], unless the
    batch had begun, and [Clear]. *)
Theorem X11_resetAtlas p b :
  let b' := _resetAtlasAndBeginDraw p b in
  let u := atlas_u (targetSize (s p)) in
  let v := atlas_v (targetSize (s p)) in
  _glyphCache b' = ∅ ∧ _rectPacker b' = stbrp_init_target u v ∧
  beganDrawing b' = true ∧
  (∃ l, calls b' = calls b ++ l ++ [Clear]) ∧
  _instances b' = _instances b ∧ _indices b' = _indices b ∧
  _instancesSize b' = _instancesSize b ∧ _indicesSize b' = _indicesSize b ∧
  (width (_rectPacker b) = u -> height (_rectPacker b) = v ->
   ptrs b' = ptrs b ∧
   calls b' = calls b ++ (if beganDrawing b then [] else [BeginDraw]) ++ [Clear]).
Proof.
  intros b' u v.
  pose proof (resetAtlasAndBeginDraw_spec p b) as (H1 & H2 & H3 & H4).
  pose proof (batch_of_eq _ _ (batch_of_resetAtlasAndBeginDraw p b)) as (E1 & E2 & E3 & E4).
  split; [done|]. split; [done|]. split; [done|]. split; [done|].
  split; [done|]. split; [done|]. split; [done|]. split; [done|].
  intros Hw Hh. unfold b', _resetAtlasAndBeginDraw. cbv zeta. fold u v.
  rewrite Hw, Hh, !Z.eqb_refl. cbn [negb orb].
  unfold _beginDrawing.
  change (beganDrawing (set_rectPacker (stbrp_init_target u v) (set_glyphCache ∅ b)))
    with (beganDrawing b).
  destruct (beganDrawing b); (split; [reflexivity|]); [reflexivity|].
  symmetry. exact (app_assoc (calls b) [BeginDraw] [Clear]).
Qed.

(** ** The text pass: rounds that do not retry *)

Lemma batcher_wf_batch_of b b' : batch_of b' = batch_of b -> batcher_wf b -> batcher_wf b'.
Proof.
  intros (E1 & E2 & E3 & E4)%batch_of_eq [H1 H2 H3]. split; congruence.
Qed.

Lemma drawGlyph_empty_box env p face glyph entry em b :
  (let box := getGlyphRunBlackBox env face glyph em in
   f32_leb (right box) (left box) || f32_leb (bottom box) (top box)) = true ->
  _drawGlyph env p face glyph entry em b = (true, entry, b).
Proof. intros H. unfold _drawGlyph. cbv zeta in *. by rewrite H. Qed.

Lemma calls_before_draw face glyph b :
  calls (before_draw face glyph b) =
  calls b ++ (if beganDrawing b then [] else [BeginDraw]).
Proof.
  unfold before_draw, _beginDrawing.
  change (beganDrawing (set_glyphCache _ b)) with (beganDrawing b).
  destruct (beganDrawing b); [|done]. symmetry. apply app_nil_r.
Qed.

Lemma glyphCache_before_draw face glyph b :
  _glyphCache (before_draw face glyph b) =
  <[(face, glyph) := GlyphCacheEntry_new]> (_glyphCache b).
Proof. unfold before_draw, _beginDrawing. by destruct (beganDrawing _). Qed.

Lemma batch_of_before_draw face glyph b :
  batch_of (before_draw face glyph b) = batch_of b.
Proof. unfold before_draw. by rewrite batch_of_beginDrawing. Qed.

(** X12: a glyph without ink (an empty black box) that is new to the cache
    takes no room in the atlas and queues no quad: the round caches it with
    shading type 0, adds its advance and goes on with the next glyph; the
    only call it can log is the [BeginDraw] of [_beginDrawing]. *)
Theorem X12_glyph_without_ink fuel env p row m baselineY i cum b glyphIndex adv :
  (i < glyphsTo m)%nat ->
  glyphIndices row !! i = Some glyphIndex ->
  _glyphCache b !! (m_fontFace m, glyphIndex) = None ->
  (let box := getGlyphRunBlackBox env (m_fontFace m) glyphIndex (fontEmSize m) in
   f32_leb (right box) (left box) || f32_leb (bottom box) (top box)) = true ->
  glyphAdvances row !! i = Some adv ->
  ∃ b',
    glyphs_loop (S fuel) env p row m baselineY i cum b
      = glyphs_loop fuel env p row m baselineY (S i) (f32_add cum adv) b' ∧
    _glyphCache b' = <[(m_fontFace m, glyphIndex) := GlyphCacheEntry_new]> (_glyphCache b) ∧
    _rectPacker b' = _rectPacker b ∧
    calls b' = calls b ++ (if beganDrawing b then [] else [BeginDraw]) ∧
    _instancesSize b' = _instancesSize b ∧ _indicesSize b' = _indicesSize b ∧
    _instances b' = _instances b ∧ _indices b' = _indices b.
Proof.
  intros Hi Hglyph Hmiss Hbox Hadv.
  set (b1 := before_draw (m_fontFace m) glyphIndex b).
  exists (set_glyphCache
            (<[(m_fontFace m, glyphIndex) := GlyphCacheEntry_new]> (_glyphCache b1)) b1).
  split.
  - cbn [glyphs_loop]. rewrite decide_True by done.
    unfold vector_at at 1. rewrite Hglyph, bind_Ok.
    unfold FindOrInsert. rewrite Hmiss. fold (before_draw (m_fontFace m) glyphIndex b).
    fold b1. rewrite (drawGlyph_empty_box _ _ _ _ _ _ _ Hbox).
    unfold append_glyph. cbn [e_shadingType GlyphCacheEntry_new].
    rewrite bind_Ok. unfold vector_at. rewrite Hadv. by rewrite !bind_Ok.
  - pose proof (batch_of_eq _ _ (batch_of_before_draw (m_fontFace m) glyphIndex b))
      as (E1 & E2 & E3 & E4). fold b1 in E1, E2, E3, E4.
    split.
    { change (_glyphCache (set_glyphCache ?v _)) with v. unfold b1.
      rewrite glyphCache_before_draw. apply insert_insert_eq. }
    split. { apply rectPacker_before_draw. }
    split. { apply calls_before_draw. }
    done.
Qed.

Lemma X12_glyph_without_ink_witness :
  ∃ b',
    glyphs_loop 1 platform_blank payload_plain row_A
        (mk_FontMapping 0 (f32_of_Z 12) 0 1) f32_zero 0 f32_zero BackendD3D11_new
      = glyphs_loop 0 platform_blank payload_plain row_A
          (mk_FontMapping 0 (f32_of_Z 12) 0 1) f32_zero 1
          (f32_add f32_zero (f32_of_Z 8)) b' ∧
    _glyphCache b' = <[(0%nat, 65) := GlyphCacheEntry_new]> (_glyphCache BackendD3D11_new) ∧
    _rectPacker b' = _rectPacker BackendD3D11_new ∧
    calls b' = calls BackendD3D11_new ++ [BeginDraw] ∧
    _instancesSize b' = 0%nat.
Proof.
  destruct (X12_glyph_without_ink 0 platform_blank payload_plain row_A
              (mk_FontMapping 0 (f32_of_Z 12) 0 1) f32_zero 0 f32_zero
              BackendD3D11_new 65 (f32_of_Z 8))
    as (b' & H1 & H2 & H3 & H4 & H5 & _).
  - vm_compute. lia.
  - reflexivity.
  - vm_compute. reflexivity.
  - vm_compute. reflexivity.
  - reflexivity.
  - exists b'. exact (conj H1 (conj H2 (conj H3 (conj H4 H5)))).
Defined.

(** X13: a glyph found in the cache is not drawn again: the round logs no
    call, leaves the cache and the packer as they are, and queues one quad
    with the cached texture coordinates and shading type, placed by the
    running advance, the glyph's offsets and the cached offset. *)
Theorem X13_cached_glyph fuel env p row m baselineY i cum b glyphIndex entry st off col adv :
  (i < glyphsTo m)%nat ->
  glyphIndices row !! i = Some glyphIndex ->
  _glyphCache b !! (m_fontFace m, glyphIndex) = Some entry ->
  e_shadingType entry = Some st ->
  glyphOffsets row !! i = Some off ->
  colors row !! i = Some col ->
  glyphAdvances row !! i = Some adv ->
  batcher_wf b ->
  ∃ b',
    glyphs_loop (S fuel) env p row m baselineY i cum b
      = glyphs_loop fuel env p row m baselineY (S i) (f32_add cum adv) b' ∧
    calls b' = calls b ∧ _glyphCache b' = _glyphCache b ∧
    _rectPacker b' = _rectPacker b ∧
    _instancesSize b' = S (_instancesSize b) ∧
    _instances b' !! _instancesSize b =
      Some (Some (mk_QuadInstance
        (mk_f32x4
           (f32_add (f32_mul (f32_add cum (advanceOffset off)) (pixelPerDIP (d_font p)))
                    (f32_of_Z (e_offset_x entry)))
           (f32_add (f32_mul (f32_sub baselineY (ascenderOffset off)) (pixelPerDIP (d_font p)))
                    (f32_of_Z (e_offset_y entry)))
           (z4 (e_texcoord entry)) (w4 (e_texcoord entry)))
        (e_texcoord entry) col st)).
Proof.
  intros Hi Hglyph Hhit Hst Hoff Hcol Hadv Hwf.
  set (b0 := set_glyphCache (_glyphCache b) b).
  assert (batcher_wf b0) as Hwf0 by (by apply (batcher_wf_batch_of b)).
  set (pos := mk_f32x4 _ _ _ _).
  destruct (appendRect_ok pos (e_texcoord entry) col st b0 Hwf0)
    as (b' & H & _ & Hn & _ & Hq).
  pose proof (appendRect_frame _ _ _ _ _ _ H) as Hframe.
  exists b'. split.
  - cbn [glyphs_loop]. rewrite decide_True by done.
    unfold vector_at at 1. rewrite Hglyph, bind_Ok.
    unfold FindOrInsert. rewrite Hhit. fold b0.
    unfold append_glyph. rewrite Hst.
    unfold vector_at. rewrite Hoff, Hcol, Hadv, !bind_Ok.
    fold pos. by rewrite H, !bind_Ok.
  - split. { by apply (f_equal calls) in Hframe. }
    split. { by apply (f_equal _glyphCache) in Hframe. }
    split. { by apply (f_equal _rectPacker) in Hframe. }
    done.
Qed.

Lemma X13_cached_glyph_witness :
  ∃ b',
    glyphs_loop 1 platform0 payload_plain row_A
        (mk_FontMapping 0 (f32_of_Z 12) 0 1) f32_zero 0 f32_zero backend_cached
      = glyphs_loop 0 platform0 payload_plain row_A
          (mk_FontMapping 0 (f32_of_Z 12) 0 1) f32_zero 1
          (f32_add f32_zero (f32_of_Z 8)) b' ∧
    calls b' = calls backend_cached ∧ _glyphCache b' = _glyphCache backend_cached ∧
    _rectPacker b' = _rectPacker backend_cached ∧
    _instancesSize b' = 1%nat.
Proof.
  destruct (X13_cached_glyph 0 platform0 payload_plain row_A
              (mk_FontMapping 0 (f32_of_Z 12) 0 1) f32_zero 0 f32_zero
              backend_cached 65 entry_A TextGrayscale
              (mk_GlyphOffset f32_zero f32_zero) 16777215 (f32_of_Z 8))
    as (b' & H1 & H2 & H3 & H4 & H5 & _).
  - vm_compute. lia.
  - reflexivity.
  - vm_compute. reflexivity.
  - reflexivity.
  - reflexivity.
  - reflexivity.
  - reflexivity.
  - split; reflexivity.
  - exists b'. exact (conj H1 (conj H2 (conj H3 (conj H4 H5)))).
Defined.

(** ** The staging arrays through a frame *)

Lemma for_each_pres {T A : Type} (P : A -> Prop) (body : T -> A -> res A) l a a' :
  (∀ t a a', P a -> body t a = Ok a' -> P a') ->
  P a -> for_each body l a = Ok a' -> P a'.
Proof.
  intros Hbody. revert a. induction l as [|t l IH]; intros a Ha H; simpl in H.
  - by injection H as <-.
  - apply bind_Ok_inv in H as (a1 & H1 & H). eapply IH; [|done]. by eapply Hbody.
Qed.

Lemma for_rows_pres {A : Type} (P : A -> Prop) (body : nat -> ShapedRow -> A -> res A)
    y l a a' :
  (∀ y row a a', P a -> body y row a = Ok a' -> P a') ->
  P a -> for_rows body y l a = Ok a' -> P a'.
Proof.
  intros Hbody. revert y a. induction l as [|row l IH]; intros y a Ha H; simpl in H.
  - by injection H as <-.
  - apply bind_Ok_inv in H as (a1 & H1 & H). eapply IH; [|done]. by eapply Hbody.
Qed.

Lemma appendRect_wf pos tex col st b b' :
  batcher_wf b -> _appendRect pos tex col st b = Ok b' -> batcher_wf b'.
Proof.
  intros Hwf H. destruct (appendRect_ok pos tex col st b Hwf) as (b1 & H1 & Hwf1 & _).
  rewrite H in H1. by injection H1 as ->.
Qed.

Lemma flushRects_wf p b b' :
  batcher_wf b -> _flushRects p b = Ok b' ->
  batcher_wf b' ∧ _instancesSize b' = 0%nat ∧ _indicesSize b' = 0%nat.
Proof.
  intros Hwf H. destruct (decide (_instancesSize b = 0)%nat) as [Hz|Hz].
  - unfold _flushRects in H. rewrite decide_True in H by done. injection H as <-.
    split; [done|]. split; [done|]. rewrite (wf_indicesSize b Hwf), Hz. done.
  - destruct (flushRects_inv _ _ _ H Hz) as (_ & _ & Hn & Hk).
    apply beside_flush_flushRects in H. unfold beside_flush in H.
    injection H as _ _ _ Hi Hx. destruct Hwf as [H1 H2 H3].
    split; [|done]. split; [lia|congruence|lia].
Qed.

Lemma Render_setup_batch p b :
  _instances (Render_setup p b) = _instances b ∧
  _indices (Render_setup p b) = _indices b ∧
  _instancesSize (Render_setup p b) = 0%nat ∧
  _indicesSize (Render_setup p b) = 0%nat.
Proof. split; [reflexivity|]. split; [reflexivity|]. split; reflexivity. Qed.

Lemma Render_setup_wf p b :
  batcher_wf b -> batcher_wf (Render_setup p b).
Proof.
  intros [H1 H2 H3]. destruct (Render_setup_batch p b) as (E1 & E2 & E3 & E4).
  split; [lia|congruence|lia].
Qed.

Lemma Render_background_wf p b b' :
  batcher_wf b -> Render_background p b = Ok b' -> batcher_wf b'.
Proof.
  unfold Render_background. intros Hwf H.
  apply bind_Ok_inv in H as (b1 & H1 & H).
  apply appendRect_wf in H; [done|].
  apply (batcher_wf_batch_of b); [|done]. rewrite batch_of_call.
  apply (for_each_inv batch_of) in H1.
  - rewrite H1. by rewrite batch_of_call.
  - intros i a a'. unfold copy_background_row. case_decide; [|discriminate].
    intros [= <-]. by rewrite batch_of_call.
Qed.

Lemma batch_of_drawGlyph env p face glyph entry em b drawn entry' b' :
  _drawGlyph env p face glyph entry em b = (drawn, entry', b') ->
  batch_of b' = batch_of b.
Proof.
  unfold _drawGlyph. destruct (_ || _); [by intros [= _ _ <-]|].
  cbv zeta. destruct (stbrp_pack_rects _ _ _ _) as [[x y]|]; intros [= _ _ <-];
    [|done].
  by rewrite batch_of_call, batch_of_set_rectPacker.
Qed.

Lemma append_glyph_wf p row baselineY i entry cum b cum' b' :
  batcher_wf b -> append_glyph p row baselineY i entry cum b = Ok (cum', b') ->
  batcher_wf b'.
Proof.
  unfold append_glyph. intros Hwf H.
  apply bind_Ok_inv in H as (b1 & H1 & H).
  apply bind_Ok_inv in H as (adv & _ & [= _ <-]).
  destruct (e_shadingType entry); [|by injection H1 as <-].
  apply bind_Ok_inv in H1 as (off & _ & H1).
  apply bind_Ok_inv in H1 as (col & _ & H1).
  by apply appendRect_wf in H1.
Qed.

Lemma retry_after_pack_failure_wf p b b' :
  batcher_wf b -> retry_after_pack_failure p b = Ok b' -> batcher_wf b'.
Proof.
  unfold retry_after_pack_failure. intros Hwf H.
  apply bind_Ok_inv in H as (b1 & H1 & [= <-]).
  apply flushRects_wf in H1 as [H1 _].
  - apply (batcher_wf_batch_of b1); [|done]. apply batch_of_resetAtlasAndBeginDraw.
  - apply (batcher_wf_batch_of b); [|done]. apply batch_of_endDrawing.
Qed.

Lemma glyphs_loop_wf fuel env p row m baselineY i cum b cum' b' :
  batcher_wf b ->
  glyphs_loop fuel env p row m baselineY i cum b = Ok (cum', b') ->
  batcher_wf b'.
Proof.
  revert i cum b. induction fuel as [|fuel IH]; intros i cum b Hwf H; simpl in H.
  - case_decide; [discriminate|]. by injection H as _ <-.
  - case_decide; [|by injection H as _ <-].
    apply bind_Ok_inv in H as (glyphIndex & _ & H).
    destruct (FindOrInsert _ _ _) as [[entry inserted] cache].
    assert (batcher_wf (set_glyphCache cache b)) as Hwf0
      by (by apply (batcher_wf_batch_of b)).
    destruct inserted.
    + destruct (_drawGlyph _ _ _ _ _ _ _) as [[drawn entry'] b1] eqn:Hd.
      apply batch_of_drawGlyph in Hd. rewrite batch_of_beginDrawing in Hd.
      apply batcher_wf_batch_of in Hd; [|done].
      destruct drawn.
      * apply bind_Ok_inv in H as ([cum1 b2] & H1 & H).
        apply append_glyph_wf in H1; [exact (IH _ _ _ H1 H)|].
        by apply (batcher_wf_batch_of b1).
      * apply bind_Ok_inv in H as (b2 & H1 & H).
        apply retry_after_pack_failure_wf in H1; [exact (IH _ _ _ H1 H)|done].
    + apply bind_Ok_inv in H as ([cum1 b2] & H1 & H).
      apply append_glyph_wf in H1; [exact (IH _ _ _ H1 H)|done].
Qed.

Lemma Render_text_wf fuel env p b b' :
  batcher_wf b -> Render_text fuel env p b = Ok b' -> batcher_wf b'.
Proof.
  unfold Render_text. intros Hwf H.
  apply bind_Ok_inv in H as (b1 & H1 & [= <-]).
  assert (batcher_wf b1) as Hwf1.
  { apply (for_rows_pres batcher_wf) in H1; [done| |].
    - clear. intros y row a a' Hwf. unfold text_row. intros H.
      apply bind_Ok_inv in H as ([cum b1] & H1 & [= <-]).
      apply (for_each_pres (fun st : f32 * BackendD3D11 => batcher_wf st.2)) in H1;
        [done| |done].
      clear. intros m [cum b] [cum' b'] Hwf. by apply glyphs_loop_wf.
    - destruct (is_set _glyphAtlas b); [done|].
      apply (batcher_wf_batch_of b); [|done]. apply batch_of_resetAtlasAndBeginDraw. }
  destruct (beganDrawing b1); [|done]. by apply (batcher_wf_batch_of b1).
Qed.

Lemma line_if_wf r g pos st b b' :
  batcher_wf b -> line_if r g pos st b = Ok b' -> batcher_wf b'.
Proof.
  unfold line_if, _appendRect3. destruct (lines r g); [|by intros ? [= <-]].
  apply appendRect_wf.
Qed.

Lemma Render_gridLines_wf p b b' :
  batcher_wf b -> Render_gridLines p b = Ok b' -> batcher_wf b'.
Proof.
  unfold Render_gridLines. intros Hwf. apply (for_rows_pres batcher_wf); [|done].
  clear. intros y row a a' Hwf. apply (for_each_pres batcher_wf); [|done].
  clear. intros r a a' Hwf. unfold gridLine_range. cbv zeta. intros H.
  repeat (apply bind_Ok_inv in H as (? & ?%line_if_wf & H); [|done]).
  by apply line_if_wf in H.
Qed.



Lemma batch_of_set_requiresContinuousRedraw v b :
  batch_of (set_requiresContinuousRedraw v b) = batch_of b.
Proof. reflexivity. Qed.

Lemma batch_of_set_renderParams v b : batch_of (set_renderParams v b) = batch_of b.
Proof. reflexivity. Qed.

Lemma batch_of_set_generation v b : batch_of (set_generation v b) = batch_of b.
Proof. reflexivity. Qed.

Lemma batch_of_set_fontGeneration v b : batch_of (set_fontGeneration v b) = batch_of b.
Proof. reflexivity. Qed.

Lemma batch_of_set_miscGeneration v b : batch_of (set_miscGeneration v b) = batch_of b.
Proof. reflexivity. Qed.

Lemma batch_of_set_cellCount v b : batch_of (set_cellCount v b) = batch_of b.
Proof. reflexivity. Qed.

Ltac batch_of_refresh_step :=
  first
    [ batch_of_step
    | lazymatch goal with
      | |- batch_of (match ?c with _ => _ end) = _ => destruct c
      end
    | rewrite batch_of_set_requiresContinuousRedraw
    | rewrite batch_of_set_renderParams
    | rewrite batch_of_set_generation
    | rewrite batch_of_set_fontGeneration
    | rewrite batch_of_set_miscGeneration
    | rewrite batch_of_set_cellCount ].

Lemma batch_of_Render_refresh env p b :
  batch_of (Render_refresh env p b) = batch_of b.
Proof.
  cbv beta delta [Render_refresh _recreateCustomShader
    _recreateBackgroundBitmapSamplerState _recreateBackgroundColorBitmap
    _recreateCustomOffscreenTexture _recreateConstBuffer
    _d2dRenderTargetUpdateFontSettings].
  repeat batch_of_refresh_step.
Qed.



(** ** The text pass: the flag [beganDrawing] *)

Lemma beganDrawing_appendRect pos tex col st b b' :
  _appendRect pos tex col st b = Ok b' -> beganDrawing b' = beganDrawing b.
Proof. intros H%appendRect_frame. by apply (f_equal beganDrawing) in H. Qed.

Lemma beganDrawing_drawGlyph env p face glyph entry em b drawn entry' b' :
  _drawGlyph env p face glyph entry em b = (drawn, entry', b') ->
  beganDrawing b' = beganDrawing b.
Proof.
  unfold _drawGlyph. destruct (_ || _); [by intros [= _ _ <-]|].
  cbv zeta. by destruct (stbrp_pack_rects _ _ _ _) as [[x y]|]; intros [= _ _ <-].
Qed.

Lemma beganDrawing_append_glyph p row baselineY i entry cum b cum' b' :
  append_glyph p row baselineY i entry cum b = Ok (cum', b') ->
  beganDrawing b' = beganDrawing b.
Proof.
  unfold append_glyph. intros H.
  apply bind_Ok_inv in H as (b1 & H1 & H).
  apply bind_Ok_inv in H as (adv & _ & [= _ <-]).
  destruct (e_shadingType entry); [|by injection H1 as <-].
  apply bind_Ok_inv in H1 as (off & _ & H1).
  apply bind_Ok_inv in H1 as (col & _ & H1).
  by apply beganDrawing_appendRect in H1.
Qed.

Lemma beganDrawing_retry_after_pack_failure p b b' :
  retry_after_pack_failure p b = Ok b' -> beganDrawing b' = true.
Proof.
  unfold retry_after_pack_failure. intros H.
  apply bind_Ok_inv in H as (b1 & H1 & [= <-]).
  apply resetAtlasAndBeginDraw_spec.
Qed.

Lemma beganDrawing_glyphs_loop fuel env p row m baselineY i cum b cum' b' :
  beganDrawing b = true ->
  glyphs_loop fuel env p row m baselineY i cum b = Ok (cum', b') ->
  beganDrawing b' = true.
Proof.
  revert i cum b. induction fuel as [|fuel IH]; intros i cum b Hb H; simpl in H.
  - case_decide; [discriminate|]. by injection H as _ <-.
  - case_decide; [|by injection H as _ <-].
    apply bind_Ok_inv in H as (glyphIndex & _ & H).
    destruct (FindOrInsert _ _ _) as [[entry inserted] cache].
    destruct inserted.
    + destruct (_drawGlyph _ _ _ _ _ _ _) as [[drawn entry'] b1] eqn:Hd.
      apply beganDrawing_drawGlyph in Hd. rewrite beganDrawing_beginDrawing in Hd.
      destruct drawn.
      * apply bind_Ok_inv in H as ([cum1 b2] & H1 & H).
        apply beganDrawing_append_glyph in H1.
        apply (IH _ _ _ (eq_trans H1 Hd) H).
      * apply bind_Ok_inv in H as (b2 & H1 & H).
        apply beganDrawing_retry_after_pack_failure in H1. exact (IH _ _ _ H1 H).
    + apply bind_Ok_inv in H as ([cum1 b2] & H1 & H).
      apply beganDrawing_append_glyph in H1.
      apply (IH _ _ _ (eq_trans H1 Hb) H).
Qed.

(** X15: the text pass of a backend that has no atlas yet, or whose flag
    [beganDrawing] is set, ends the Direct2D batch ([EndDraw] is the last
    call it logs) and returns with the flag still set: a [_beginDrawing]
    that follows issues no [BeginDraw]. *)
Theorem X15_text_pass_leaves_flag_set fuel env p b b' :
  Render_text fuel env p b = Ok b' ->
  is_set _glyphAtlas b = false ∨ beganDrawing b = true ->
  beganDrawing b' = true ∧ last (calls b') = Some EndDraw ∧ _beginDrawing b' = b'.
Proof.
  unfold Render_text. intros H Hpre.
  apply bind_Ok_inv in H as (b1 & H1 & [= <-]).
  assert (beganDrawing b1 = true) as Hb1.
  { apply (for_rows_pres (fun b => beganDrawing b = true)) in H1; [done| |].
    - clear. intros y row a a' Ha. unfold text_row. intros H.
      apply bind_Ok_inv in H as ([cum b1] & H1 & [= <-]).
      apply (for_each_pres (fun st : f32 * BackendD3D11 => beganDrawing st.2 = true))
        in H1; [done| |done].
      clear. intros m [cum b] [cum' b'] Hb. by apply beganDrawing_glyphs_loop.
    - destruct (is_set _glyphAtlas b); [by destruct Hpre|].
      apply resetAtlasAndBeginDraw_spec. }
  rewrite Hb1. split; [done|]. split; [apply last_snoc|].
  unfold _beginDrawing.
  change (beganDrawing (call EndDraw b1)) with (beganDrawing b1). by rewrite Hb1.
Qed.

Lemma X15_text_pass_leaves_flag_set_witness :
  beganDrawing backend_after_text = true ∧
  last (calls backend_after_text) = Some EndDraw ∧
  _beginDrawing backend_after_text = backend_after_text.
Proof.
  apply (X15_text_pass_leaves_flag_set 8 platform0 payload_plain backend_before_text).
  - apply res_get_Ok. vm_compute. reflexivity.
  - left. vm_compute. reflexivity.
Defined.

(** ** The text pass: when the retry loop ends *)

Lemma bind_no_fuel {A B} (m : res A) (k : A -> res B) :
  m ≠ Fail OutOfFuel -> (∀ a, m = Ok a -> k a ≠ Fail OutOfFuel) ->
  m ≫= k ≠ Fail OutOfFuel.
Proof. destruct m as [a|f]; [intros _ H; by apply H | intros H _ [= ->]; done]. Qed.

Lemma vector_at_no_fuel {T} (l : list T) i : vector_at l i ≠ Fail OutOfFuel.
Proof. unfold vector_at. by destruct (l !! i). Qed.

Lemma Buffer_store_no_fuel {T} (l : Buffer T) i v : Buffer_store l i v ≠ Fail OutOfFuel.
Proof. unfold Buffer_store. by case_decide. Qed.

Lemma push_index_no_fuel v b : push_index v b ≠ Fail OutOfFuel.
Proof. unfold push_index. apply bind_no_fuel; [apply Buffer_store_no_fuel|done]. Qed.

Lemma appendRect_no_fuel pos tex col st b : _appendRect pos tex col st b ≠ Fail OutOfFuel.
Proof.
  unfold _appendRect. cbv zeta.
  apply bind_no_fuel; [apply Buffer_store_no_fuel|]. intros l _.
  repeat (apply bind_no_fuel; [apply push_index_no_fuel|]; intros ? _).
  apply push_index_no_fuel.
Qed.

Lemma flushRects_no_fuel p b : _flushRects p b ≠ Fail OutOfFuel.
Proof.
  unfold _flushRects. case_decide; [done|].
  apply bind_no_fuel.
  { case_decide; [|done]. cbv zeta. apply bind_no_fuel; [|done].
    unfold narrow_UINT. by destruct (_ && _). }
  intros b1 _. apply bind_no_fuel.
  { case_decide; [|done]. cbv zeta. apply bind_no_fuel; [|done].
    unfold narrow_UINT. by destruct (_ && _). }
  intros b2 _. apply bind_no_fuel.
  { unfold Buffer_read. by case_decide. }
  intros l1 _. cbv zeta. apply bind_no_fuel; [|done].
  unfold Buffer_read. by case_decide.
Qed.

Lemma append_glyph_no_fuel p row baselineY i entry cum b :
  append_glyph p row baselineY i entry cum b ≠ Fail OutOfFuel.
Proof.
  unfold append_glyph. apply bind_no_fuel.
  - destruct (e_shadingType entry); [|done].
    apply bind_no_fuel; [apply vector_at_no_fuel|]. intros off _.
    apply bind_no_fuel; [apply vector_at_no_fuel|]. intros col _.
    apply appendRect_no_fuel.
  - intros b1 _. apply bind_no_fuel; [apply vector_at_no_fuel|done].
Qed.

Lemma retry_after_pack_failure_inv p b b' :
  retry_after_pack_failure p b = Ok b' ->
  _glyphCache b' = ∅ ∧
  _rectPacker b' = stbrp_init_target (atlas_u (targetSize (s p)))
                                     (atlas_v (targetSize (s p))).
Proof.
  unfold retry_after_pack_failure. intros H.
  apply bind_Ok_inv in H as (b1 & H1 & [= <-]).
  pose proof (resetAtlasAndBeginDraw_spec p b1) as (Hc & Hp & _). done.
Qed.

Lemma retry_after_pack_failure_no_fuel p b :
  retry_after_pack_failure p b ≠ Fail OutOfFuel.
Proof.
  unfold retry_after_pack_failure. cbv zeta.
  apply bind_no_fuel; [apply flushRects_no_fuel|done].
Qed.

(** A round on a glyph that is drawn, or was cached: with fuel for the
    rest of the loop, the loop does not run out of fuel. *)
Lemma glyphs_loop_fuel_step env p row m baselineY :
  packs_into_empty_atlas env p ->
  ∀ k i fuel cum b,
    (glyphsTo m - i = k)%nat -> (2 * k <= fuel)%nat ->
    glyphs_loop fuel env p row m baselineY i cum b ≠ Fail OutOfFuel.
Proof.
  intros Hpacks. induction k as [|k IH]; intros i fuel cum b Hk Hfuel.
  { destruct fuel; cbn [glyphs_loop]; by rewrite decide_False by lia. }
  destruct fuel as [|fuel]; [lia|].
  cbn [glyphs_loop]. rewrite decide_True by lia.
  apply bind_no_fuel; [apply vector_at_no_fuel|]. intros glyphIndex Hglyph.
  assert (∀ fuel' entry cum b,
            (2 * k <= fuel')%nat ->
            (append_glyph p row baselineY i entry cum b
               ≫= λ '(cum1, b1), glyphs_loop fuel' env p row m baselineY (S i) cum1 b1)
            ≠ Fail OutOfFuel) as Hnext.
  { intros fuel' entry cum0 b0 Hf. apply bind_no_fuel; [apply append_glyph_no_fuel|].
    intros [cum1 b1] _. apply IH; lia. }
  unfold FindOrInsert at 1.
  destruct (_glyphCache b !! (m_fontFace m, glyphIndex)) as [entry|]; cbv beta iota;
    [apply Hnext; lia|].
  fold (before_draw (m_fontFace m) glyphIndex b).
  destruct (_drawGlyph _ _ _ _ _ _ _) as [[drawn entry'] b1]; destruct drawn;
    [apply Hnext; lia|].
  apply bind_no_fuel; [apply retry_after_pack_failure_no_fuel|].
  intros b2 [Hcache Hpacker]%retry_after_pack_failure_inv.
  destruct fuel as [|fuel]; [lia|].
  cbn [glyphs_loop]. rewrite decide_True by lia.
  rewrite Hglyph, bind_Ok.
  assert (_glyphCache b2 !! (m_fontFace m, glyphIndex) = None) as Hmiss
    by (rewrite Hcache; apply lookup_empty).
  unfold FindOrInsert. rewrite Hmiss. cbv beta iota.
  fold (before_draw (m_fontFace m) glyphIndex b2).
  pose proof (Hpacks (m_fontFace m) glyphIndex GlyphCacheEntry_new (fontEmSize m)
                (before_draw (m_fontFace m) glyphIndex b2)) as Hdrawn.
  rewrite rectPacker_before_draw in Hdrawn. specialize (Hdrawn Hpacker).
  destruct (_drawGlyph _ _ _ _ _ _ _) as [[drawn entry''] b3].
  cbn [fst] in Hdrawn. subst drawn. apply Hnext; lia.
Qed.

Lemma for_each_no_fuel {T A : Type} (P : T -> Prop) (body : T -> A -> res A) l a :
  Forall P l -> (∀ t a, P t -> body t a ≠ Fail OutOfFuel) ->
  for_each body l a ≠ Fail OutOfFuel.
Proof.
  intros Hl Hbody. revert a. induction Hl as [|t l Ht Hl IH]; intros a; [done|].
  cbn [for_each]. apply bind_no_fuel; [by apply Hbody|]. intros a1 _. apply IH.
Qed.

Lemma for_rows_no_fuel {A : Type} (P : ShapedRow -> Prop)
    (body : nat -> ShapedRow -> A -> res A) y l a :
  Forall P l -> (∀ y row a, P row -> body y row a ≠ Fail OutOfFuel) ->
  for_rows body y l a ≠ Fail OutOfFuel.
Proof.
  intros Hl Hbody. revert y a. induction Hl as [|t l Ht Hl IH]; intros y a; [done|].
  cbn [for_rows]. apply bind_no_fuel; [by apply Hbody|]. intros a1 _. apply IH.
Qed.

Lemma Forall_True {T} (l : list T) : Forall (fun _ => True) l.
Proof. by apply Forall_forall. Qed.

Lemma repeat_pos_no_fuel {A : Type} (f : A -> res A) n a :
  (∀ a, f a ≠ Fail OutOfFuel) -> repeat_pos f n a ≠ Fail OutOfFuel.
Proof.
  intros Hf. revert a. induction n as [n IH|n IH|]; intros a; cbn [repeat_pos].
  - apply bind_no_fuel; [apply Hf|]. intros a1 _.
    apply bind_no_fuel; [apply IH|]. intros a2 _. apply IH.
  - apply bind_no_fuel; [apply IH|]. intros a1 _. apply IH.
  - apply Hf.
Qed.

Lemma Render_background_no_fuel p b : Render_background p b ≠ Fail OutOfFuel.
Proof.
  unfold Render_background. cbv zeta. apply bind_no_fuel.
  - apply (for_each_no_fuel (fun _ => True)); [apply Forall_True|].
    intros i a _. unfold copy_background_row. cbv zeta. by case_decide.
  - intros b1 _. apply appendRect_no_fuel.
Qed.

Lemma Render_text_no_fuel fuel env p b :
  packs_into_empty_atlas env p -> fuel_for_retries fuel p ->
  Render_text fuel env p b ≠ Fail OutOfFuel.
Proof.
  intros Hpacks Hfuel. unfold Render_text. cbv zeta. apply bind_no_fuel; [|done].
  apply (for_rows_no_fuel _ _ _ _ _ Hfuel). clear b.
  intros y row b Hrow. unfold text_row. cbv zeta. apply bind_no_fuel; [|by intros []].
  apply (for_each_no_fuel _ _ _ _ Hrow).
  intros m [cum b0] Hm.
  by apply (glyphs_loop_fuel_step env p row m _ Hpacks (glyphsTo m - glyphsFrom m)%nat).
Qed.

Lemma line_if_no_fuel r g pos st b : line_if r g pos st b ≠ Fail OutOfFuel.
Proof. unfold line_if. destruct (lines r g); [apply appendRect_no_fuel|done]. Qed.

Lemma Render_gridLines_no_fuel p b : Render_gridLines p b ≠ Fail OutOfFuel.
Proof.
  unfold Render_gridLines.
  apply (for_rows_no_fuel (fun _ => True)); [apply Forall_True|]. clear b.
  intros y row b _. apply (for_each_no_fuel (fun _ => True)); [apply Forall_True|].
  clear b. intros r b _. unfold gridLine_range. cbv zeta.
  repeat (apply bind_no_fuel; [apply line_if_no_fuel|]; intros ? _).
  apply line_if_no_fuel.
Qed.

Lemma Render_cursor_no_fuel p b : Render_cursor p b ≠ Fail OutOfFuel.
Proof.
  unfold Render_cursor. destruct (non_empty _); [|done].
  destruct (_ =? _); [|apply appendRect_no_fuel].
  apply bind_no_fuel.
  - unfold Render_cursor_fill. apply bind_no_fuel; [|intros; apply appendRect_no_fuel].
    unfold cursor_backgroundColorInv. cbv zeta. apply bind_no_fuel; [|done].
    destruct (_ <? _); [done|apply vector_at_no_fuel].
  - intros b1 _. unfold Render_cursor_copies. cbv zeta.
    apply bind_no_fuel; [|by intros []].
    unfold repeat_N. destruct (Z.to_N _); [done|].
    apply repeat_pos_no_fuel. intros [i v]. unfold cursor_loop_body.
    apply bind_no_fuel; [apply vector_at_no_fuel|done].
Qed.

Lemma Render_selection_no_fuel p b : Render_selection p b ≠ Fail OutOfFuel.
Proof.
  unfold Render_selection.
  apply (for_rows_no_fuel (fun _ => True)); [apply Forall_True|]. clear b.
  intros y row b _. unfold selection_row.
  destruct (_ <? _); [apply appendRect_no_fuel|done].
Qed.

(** X16: when every glyph can be drawn into an empty atlas, no glyph is
    retried twice: with fuel for two rounds a glyph the frame does not run out
    of fuel, it returns or fails as the code does (a narrowing or an index
    out of bounds). *)
Theorem X16_retry_loop_ends fuel env p b :
  packs_into_empty_atlas env p -> fuel_for_retries fuel p ->
  Render fuel env p b ≠ Fail OutOfFuel.
Proof.
  intros Hpacks Hfuel. unfold Render, Render_draw. cbv zeta.
  apply bind_no_fuel; [apply Render_background_no_fuel|]. intros b1 _.
  apply bind_no_fuel; [by apply Render_text_no_fuel|]. intros b2 _.
  apply bind_no_fuel; [apply Render_gridLines_no_fuel|]. intros b3 _.
  apply bind_no_fuel; [apply Render_cursor_no_fuel|]. intros b4 _.
  apply bind_no_fuel; [apply Render_selection_no_fuel|]. intros b5 _.
  apply bind_no_fuel; [apply flushRects_no_fuel|done].
Qed.

Lemma X16_retry_loop_ends_witness :
  Render 4 platform_broad payload_pair BackendD3D11_new ≠ Fail OutOfFuel ∧
  Render 2 platform_broad payload_pair BackendD3D11_new = Fail OutOfFuel.
Proof.
  split; [|vm_compute; reflexivity].
  apply X16_retry_loop_ends.
  - intros face glyph entry em b H. unfold _drawGlyph. rewrite H.
    vm_compute. reflexivity.
  - repeat constructor.
Defined.

(** ** The custom shader: which objects exist *)

Lemma is_set_call t c b : is_set t (call c b) = is_set t b.
Proof. reflexivity. Qed.

Lemma is_set_put_eq t c b : is_set t (put t c b) = true.
Proof.
  unfold is_set, put. change (ptrs (set_ptrs ?v _)) with v.
  rewrite lookup_insert_eq. by apply bool_decide_eq_true_2.
Qed.

Lemma is_set_put_ne t t' c b : t ≠ t' -> is_set t (put t' c b) = is_set t b.
Proof.
  intros H. unfold is_set, put. change (ptrs (set_ptrs ?v _)) with v.
  by rewrite lookup_insert_ne.
Qed.

Lemma is_set_reset_eq t b : is_set t (reset t b) = false.
Proof.
  unfold is_set, reset. change (ptrs (set_ptrs ?v _)) with v.
  rewrite lookup_delete_eq. apply bool_decide_eq_false_2. by intros [? ?].
Qed.

Lemma is_set_reset_ne t t' b : t ≠ t' -> is_set t (reset t' b) = is_set t b.
Proof.
  intros H. unfold is_set, reset. change (ptrs (set_ptrs ?v _)) with v.
  by rewrite lookup_delete_ne.
Qed.

Lemma is_set_set_requiresContinuousRedraw t v b :
  is_set t (set_requiresContinuousRedraw v b) = is_set t b.
Proof. reflexivity. Qed.

Ltac is_set_simpl :=
  repeat first
    [ rewrite is_set_call
    | rewrite is_set_put_eq
    | rewrite is_set_put_ne by discriminate
    | rewrite is_set_reset_eq
    | rewrite is_set_reset_ne by discriminate
    | rewrite is_set_set_requiresContinuousRedraw ].

(** X17: after [_recreateCustomShader] the custom pixel shader exists exactly
    when a shader path is set and its compilation succeeded, or no path is
    set and the retro effect is on; the custom vertex shader, constant buffer
    and sampler state exist exactly when the pixel shader does; the custom
    offscreen texture and its views do not exist. *)
Theorem X17_custom_shader_objects env p b :
  let b' := _recreateCustomShader env p b in
  is_set _customPixelShader b' =
    match customPixelShaderPath (misc (s p)) with
    | _ :: _ => compileSucceeded env
    | [] => useRetroTerminalEffect (misc (s p))
    end ∧
  is_set _customVertexShader b' = is_set _customPixelShader b' ∧
  is_set _customShaderConstantBuffer b' = is_set _customPixelShader b' ∧
  is_set _customShaderSamplerState b' = is_set _customPixelShader b' ∧
  is_set _customOffscreenTexture b' = false ∧
  is_set _customOffscreenTextureView b' = false ∧
  is_set _customOffscreenTextureTargetView b' = false.
Proof.
  unfold _recreateCustomShader. cbv zeta.
  destruct (customPixelShaderPath (misc (s p))) as [|c path].
  - destruct (useRetroTerminalEffect (misc (s p))); is_set_simpl; repeat split.
  - destruct (compileSucceeded env).
    + destruct (reflection env); is_set_simpl; repeat split.
    + destruct (has_warningCallback p); is_set_simpl; repeat split.
Qed.

(** ** The background, the grid lines, the cursor and the selection *)

Lemma copy_background_row_ok p i b :
  (i * Z.to_nat (x2 (cellCount (s p))) + Z.to_nat (x2 (cellCount (s p)))
     <= length (backgroundBitmap p))%nat ->
  copy_background_row p i b =
  Ok (call (memcpy_u32 (Some <$> take (Z.to_nat (x2 (cellCount (s p))))
              (drop (i * Z.to_nat (x2 (cellCount (s p)))) (backgroundBitmap p)))) b).
Proof. intros H. unfold copy_background_row. cbv zeta. by rewrite decide_True. Qed.

Lemma copy_background_rows_ok p from n b :
  ((from + n) * Z.to_nat (x2 (cellCount (s p))) <= length (backgroundBitmap p))%nat ->
  for_each (copy_background_row p) (seq from n) b =
  Ok (set_calls
        (calls b ++
           ((fun i => memcpy_u32 (Some <$> take (Z.to_nat (x2 (cellCount (s p))))
                        (drop (i * Z.to_nat (x2 (cellCount (s p)))) (backgroundBitmap p))))
              <$> seq from n)) b).
Proof.
  revert from b. induction n as [|n IH]; intros from b Hlen.
  - cbn [seq for_each fmap list_fmap]. rewrite app_nil_r. by destruct b.
  - cbn [seq for_each fmap list_fmap].
    rewrite copy_background_row_ok by nia. rewrite bind_Ok, IH by nia.
    unfold call. cbn [calls set_calls]. by rewrite <- app_assoc.
Qed.

Lemma copy_background_rows_short p from n b :
  (length (backgroundBitmap p) < (from + n) * Z.to_nat (x2 (cellCount (s p))))%nat ->
  (from * Z.to_nat (x2 (cellCount (s p))) <= length (backgroundBitmap p))%nat ->
  for_each (copy_background_row p) (seq from n) b = Fail OutOfBounds.
Proof.
  revert from b. induction n as [|n IH]; intros from b Hshort Hfrom; [lia|].
  cbn [seq for_each].
  destruct (decide (from * Z.to_nat (x2 (cellCount (s p)))
                      + Z.to_nat (x2 (cellCount (s p)))
                    <= length (backgroundBitmap p))%nat) as [Hok|Hno].
  - rewrite copy_background_row_ok by done. rewrite bind_Ok. apply IH; lia.
  - unfold copy_background_row. cbv zeta. by rewrite decide_False.
Qed.

(** X18: the background pass maps the background bitmap, copies into it
    [cellCount.y] rows of [cellCount.x] colours each, row [i] from offset
    [i * cellCount.x] of the payload's bitmap, unmaps it, and queues one quad
    of shading type Background over the whole target; its texture
    coordinates are the target size over the content size, the [int] product
    of cell count and cell size. *)
Theorem X18_background_pass p b :
  batcher_wf b ->
  (Z.to_nat (y2 (cellCount (s p))) * Z.to_nat (x2 (cellCount (s p)))
     <= length (backgroundBitmap p))%nat ->
  ∃ b', Render_background p b = Ok b' ∧
    calls b' = calls b ++ [Map_WRITE_DISCARD _backgroundBitmap] ++ background_rows p
                       ++ [Unmap _backgroundBitmap] ∧
    _instancesSize b' = S (_instancesSize b) ∧
    _instances b' !! _instancesSize b = Some (Some (background_quad p)).
Proof.
  intros Hwf Hlen. unfold Render_background. cbv zeta.
  rewrite copy_background_rows_ok by (cbn [Nat.add]; lia). rewrite bind_Ok.
  set (b1 := call (Unmap _backgroundBitmap) _).
  assert (batcher_wf b1) as Hwf1 by (by apply (batcher_wf_batch_of b)).
  destruct (appendRect_ok (position (background_quad p)) (texcoord (background_quad p))
              0 Background b1 Hwf1) as (b' & H & _ & Hn & _ & Hq).
  exists b'. split; [exact H|].
  split. { rewrite (appendRect_calls _ _ _ _ _ _ H). unfold b1, call, background_rows.
           cbn [calls set_calls]. by rewrite <- !app_assoc. }
  done.
Qed.

Lemma X18_background_pass_witness :
  ∃ b', Render_background payload_plain BackendD3D11_new = Ok b' ∧
    calls b' = calls BackendD3D11_new ++ [Map_WRITE_DISCARD _backgroundBitmap]
                 ++ background_rows payload_plain ++ [Unmap _backgroundBitmap] ∧
    _instancesSize b' = 1%nat ∧
    _instances b' !! 0%nat = Some (Some (background_quad payload_plain)).
Proof.
  apply (X18_background_pass payload_plain BackendD3D11_new).
  - split; reflexivity.
  - vm_compute. lia.
Defined.

(** X19: a background bitmap with fewer colours than the grid has cells stops
    the background pass: a row is read outside the bitmap. *)
Theorem X19_background_bitmap_too_short p b :
  (length (backgroundBitmap p)
     < Z.to_nat (y2 (cellCount (s p))) * Z.to_nat (x2 (cellCount (s p))))%nat ->
  Render_background p b = Fail OutOfBounds.
Proof.
  intros Hlen. unfold Render_background. cbv zeta.
  by rewrite copy_background_rows_short by (cbn [Nat.add]; lia).
Qed.

Lemma X19_background_bitmap_too_short_witness :
  Render_background payload_short BackendD3D11_new = Fail OutOfBounds.
Proof. apply X19_background_bitmap_too_short. vm_compute. lia. Defined.

Lemma appendRect_counts pos tex col st b b' :
  batcher_wf b -> _appendRect pos tex col st b = Ok b' ->
  batcher_wf b' ∧ _instancesSize b' = S (_instancesSize b) ∧ calls b' = calls b.
Proof.
  intros Hwf H. destruct (appendRect_ok pos tex col st b Hwf) as (b1 & H1 & Hwf1 & Hn & _).
  rewrite H in H1. injection H1 as <-.
  split; [done|]. split; [done|]. by eapply appendRect_calls.
Qed.

(** X20: a cursor with a colour of its own is one quad: the cursor rectangle
    in pixels (the cell size times the cursor's cell coordinates, in [int]
    arithmetic), filled with that colour; nothing is read from the background
    bitmap and nothing is inverted.  An empty cursor rectangle queues
    nothing. *)
Theorem X20_cursor_of_fixed_colour p b :
  batcher_wf b ->
  (non_empty (cursorRect p) = false -> Render_cursor p b = Ok b) ∧
  (non_empty (cursorRect p) = true ->
   cursorColor (cursor (s p)) ≠ INVALID_COLOR ->
   ∃ b', Render_cursor p b = Ok b' ∧
     _instancesSize b' = S (_instancesSize b) ∧
     _instances b' !! _instancesSize b =
       Some (Some (mk_QuadInstance (cursor_rect p) f32x4_zero
                     (cursorColor (cursor (s p))) SolidFill)) ∧
     _vertexInstanceData b' = _vertexInstanceData b ∧ calls b' = calls b).
Proof.
  intros Hwf. unfold Render_cursor. split.
  - by intros ->.
  - intros -> Hcol. rewrite (proj2 (Z.eqb_neq _ _) Hcol). unfold _appendRect3.
    destruct (appendRect_ok (cursor_rect p) f32x4_zero (cursorColor (cursor (s p)))
                SolidFill b Hwf) as (b' & H & _ & Hn & _ & Hq).
    exists b'. split; [done|]. split; [done|]. split; [done|].
    pose proof (appendRect_frame _ _ _ _ _ _ H) as Hframe.
    split; [by apply (f_equal _vertexInstanceData) in Hframe|].
    by apply (f_equal calls) in Hframe.
Qed.

Lemma X20_cursor_of_fixed_colour_witness :
  ∃ b', Render_cursor payload_plain BackendD3D11_new = Ok b' ∧
    _instancesSize b' = 1%nat ∧
    _instances b' !! 0%nat =
      Some (Some (mk_QuadInstance (cursor_rect payload_plain) f32x4_zero 16777215 SolidFill)) ∧
    _vertexInstanceData b' = [] ∧ calls b' = calls BackendD3D11_new.
Proof.
  apply (proj2 (X20_cursor_of_fixed_colour payload_plain BackendD3D11_new
                  ltac:(split; reflexivity))).
  - reflexivity.
  - vm_compute. discriminate.
Defined.

Lemma line_if_counts r g pos st b b' :
  batcher_wf b -> line_if r g pos st b = Ok b' ->
  batcher_wf b' ∧ calls b' = calls b ∧
  _instancesSize b' = (_instancesSize b + length (List.filter (lines r) [g]))%nat.
Proof.
  unfold line_if, _appendRect3. intros Hwf. cbn [List.filter].
  destruct (lines r g).
  - intros (H1 & H2 & H3)%appendRect_counts; [|done]. cbn [length]. split; [done|].
    split; [done|]. lia.
  - intros [= <-]. cbn [length]. split; [done|]. split; [done|]. lia.
Qed.

Lemma gridLine_range_counts p y r b b' :
  batcher_wf b -> gridLine_range p y r b = Ok b' ->
  batcher_wf b' ∧ calls b' = calls b ∧
  _instancesSize b' = (_instancesSize b + length (lines_drawn r))%nat.
Proof.
  intros Hwf H. unfold gridLine_range in H. cbv zeta in H.
  apply bind_Ok_inv in H as (b1 & (W1 & C1 & N1)%line_if_counts & H); [|done].
  apply bind_Ok_inv in H as (b2 & (W2 & C2 & N2)%line_if_counts & H); [|done].
  apply bind_Ok_inv in H as (b3 & (W3 & C3 & N3)%line_if_counts & H); [|done].
  apply bind_Ok_inv in H as (b4 & (W4 & C4 & N4)%line_if_counts & H); [|done].
  apply bind_Ok_inv in H as (b5 & (W5 & C5 & N5)%line_if_counts & H); [|done].
  apply bind_Ok_inv in H as (b6 & (W6 & C6 & N6)%line_if_counts & H); [|done].
  apply bind_Ok_inv in H as (b7 & (W7 & C7 & N7)%line_if_counts & H); [|done].
  apply bind_Ok_inv in H as (b8 & (W8 & C8 & N8)%line_if_counts & H); [|done].
  apply line_if_counts in H as (W9 & C9 & N9); [|done].
  split; [done|]. split; [congruence|].
  unfold lines_drawn. cbn [List.filter] in *.
  destruct (lines r Left), (lines r Top), (lines r Right), (lines r Bottom),
    (lines r Underline), (lines r HyperlinkUnderline), (lines r DoubleUnderline),
    (lines r Strikethrough); cbn [length] in *; lia.
Qed.

(** X21: the grid line pass queues one quad for every line a range asks for,
    two for a double underline, and nothing else; it logs no call. *)
Theorem X21_gridLines_count p b b' :
  batcher_wf b -> Render_gridLines p b = Ok b' ->
  calls b' = calls b ∧
  _instancesSize b' =
    (_instancesSize b
     + length (rows p ≫= fun row => gridLineRanges row ≫= lines_drawn))%nat.
Proof.
  unfold Render_gridLines. intros Hwf H.
  enough (∀ l y b b', batcher_wf b ->
            for_rows (fun y row b => for_each (gridLine_range p y) (gridLineRanges row) b)
              y l b = Ok b' ->
            batcher_wf b' ∧ calls b' = calls b ∧
            _instancesSize b' =
              (_instancesSize b
               + length (l ≫= fun row => gridLineRanges row ≫= lines_drawn))%nat)
    as Hrows by (by destruct (Hrows _ _ _ _ Hwf H) as (_ & ? & ?)).
  clear. induction l as [|row l IH]; intros y b b' Hwf H; cbn [for_rows] in H.
  { injection H as <-. split; [done|]. split; [done|]. cbn. lia. }
  apply bind_Ok_inv in H as (b1 & H1 & H).
  assert (batcher_wf b1 ∧ calls b1 = calls b ∧
          _instancesSize b1 =
            (_instancesSize b + length (gridLineRanges row ≫= lines_drawn))%nat)
    as (W1 & C1 & N1).
  { clear H IH. revert b Hwf H1.
    induction (gridLineRanges row) as [|r rs IHr]; intros b Hwf H1; cbn [for_each] in H1.
    - injection H1 as <-. split; [done|]. split; [done|]. cbn. lia.
    - apply bind_Ok_inv in H1 as (b2 & (W2 & C2 & N2)%gridLine_range_counts & H1); [|done].
      destruct (IHr _ W2 H1) as (W3 & C3 & N3).
      split; [done|]. split; [congruence|].
      rewrite bind_cons, length_app. lia. }
  destruct (IH _ _ _ W1 H) as (W & C & N).
  split; [done|]. split; [congruence|]. rewrite bind_cons, length_app. lia.
Qed.

Lemma X21_gridLines_count_witness :
  calls backend_lines = calls BackendD3D11_new ∧ _instancesSize backend_lines = 3%nat.
Proof.
  apply (X21_gridLines_count payload_overlays BackendD3D11_new backend_lines).
  - split; reflexivity.
  - apply res_get_Ok. vm_compute. reflexivity.
Defined.

(** X22: the selection pass queues one quad for every row whose selection is
    not empty ([selectionTo > selectionFrom]) and logs no call. *)
Theorem X22_selection_count p b b' :
  batcher_wf b -> Render_selection p b = Ok b' ->
  calls b' = calls b ∧
  _instancesSize b' = (_instancesSize b + length (selected_rows p))%nat.
Proof.
  unfold Render_selection, selected_rows. intros Hwf H.
  enough (∀ l y b b', batcher_wf b ->
            for_rows (selection_row p) y l b = Ok b' ->
            batcher_wf b' ∧ calls b' = calls b ∧
            _instancesSize b' =
              (_instancesSize b
               + length (List.filter (fun row => (selectionFrom row <? selectionTo row)%Z) l))%nat)
    as Hrows by (by destruct (Hrows _ _ _ _ Hwf H) as (_ & ? & ?)).
  clear. induction l as [|row l IH]; intros y b b' Hwf H; cbn [for_rows] in H.
  { injection H as <-. split; [done|]. split; [done|]. cbn. lia. }
  apply bind_Ok_inv in H as (b1 & H1 & H). unfold selection_row in H1.
  cbn [List.filter]. destruct (selectionFrom row <? selectionTo row).
  - unfold _appendRect3 in H1. apply appendRect_counts in H1 as (W1 & N1 & C1); [|done].
    destruct (IH _ _ _ W1 H) as (W & C & N).
    split; [done|]. split; [congruence|]. cbn [length]. lia.
  - injection H1 as <-. by apply (IH (S y)).
Qed.

Lemma X22_selection_count_witness :
  calls backend_selection = calls BackendD3D11_new ∧
  _instancesSize backend_selection = 1%nat.
Proof.
  apply (X22_selection_count payload_overlays BackendD3D11_new backend_selection).
  - split; reflexivity.
  - apply res_get_Ok. vm_compute. reflexivity.
Defined.

(** X23: inverting a colour twice gives the colour back; the inversion
    changes the two top bits of the red, green and blue channel and nothing
    else, so the inverted colour of a 32 bit colour is a 32 bit colour that
    differs from it. *)
Theorem X23_invertColor c :
  invertColor (invertColor c) = c ∧
  Z.land (invertColor c) 4282335039 = Z.land c 4282335039 ∧
  invertColor c ≠ c ∧
  (0 <= c < 4294967296 -> 0 <= invertColor c < 4294967296).
Proof.
  unfold invertColor. split; [|split; [|split]].
  - by rewrite Z.lxor_assoc, Z.lxor_nilpotent, Z.lxor_0_r.
  - apply Z.bits_inj'. intros n Hn. rewrite !Z.land_spec, Z.lxor_spec.
    assert (Z.testbit 12632256 n && Z.testbit 4282335039 n = false) as Hk.
    { rewrite <- Z.land_spec. change (Z.land 12632256 4282335039) with 0.
      apply Z.bits_0. }
    by destruct (Z.testbit c n), (Z.testbit 12632256 n), (Z.testbit 4282335039 n).
  - intros H. apply (f_equal (Z.lxor c)) in H.
    rewrite <- Z.lxor_assoc, !Z.lxor_nilpotent in H. discriminate.
  - intros [H0 H32].
    assert (0 <= Z.lxor c 12632256) as Hnn
      by (apply Z.lxor_nonneg; split; intros; lia).
    split; [done|].
    destruct (Z.eq_dec (Z.lxor c 12632256) 0) as [E|Hne]; [by rewrite E|].
    change 4294967296 with (2 ^ 32) in *.
    apply Z.log2_lt_pow2; [lia|].
    eapply Z.le_lt_trans; [apply Z.log2_lxor; lia|].
    apply Z.max_lub_lt; [|by vm_compute].
    destruct (Z.eq_dec c 0) as [->|Hc]; [done|]. apply Z.log2_lt_pow2; lia.
Qed.

Lemma X23_invertColor_witness :
  invertColor (invertColor 8355711) = 8355711 ∧ invertColor 8355711 = 12566463 ∧
  0 <= invertColor 8355711 < 4294967296.
Proof.
  destruct (X23_invertColor 8355711) as (H1 & _ & _ & H4).
  split; [exact H1|]. split; [reflexivity|]. apply H4. lia.
Defined.

(** ** What [_drawGlyph] can return *)

(** X24: a glyph that [_drawGlyph] reports as not drawn leaves the backend and
    the cache entry as they were.  A glyph reported as drawn either has no
    ink, and again nothing changes, or was given a rectangle by the packer:
    then the packer holds that rectangle, the entry's texture coordinates
    are that rectangle, its shading type is not 0, and the one call logged
    is the [DrawGlyphRun] of the glyph. *)
Theorem X24_drawGlyph_outcomes env p face glyph entry em b drawn entry' b' :
  _drawGlyph env p face glyph entry em b = (drawn, entry', b') ->
  (drawn = false -> b' = b ∧ entry' = entry) ∧
  (drawn = true ->
   (b' = b ∧ entry' = entry) ∨
   ∃ x y w h,
     stbrp_pack_rects env (_rectPacker b) w h = Some (x, y) ∧
     _rectPacker b' =
       mk_stbrp_context (width (_rectPacker b)) (height (_rectPacker b))
         (placed (_rectPacker b) ++ [(x, y, w, h)]) ∧
     e_texcoord entry' = f32x4_of_Z x y w h ∧
     e_shadingType entry' ≠ None ∧
     calls b' = calls b ++ [DrawGlyphRun face glyph] ∧
     _glyphCache b' = _glyphCache b ∧ batch_of b' = batch_of b).
Proof.
  unfold _drawGlyph. destruct (_ || _).
  { intros [= <- <- <-]. split; [done|]. intros _. by left. }
  cbv zeta.
  destruct (stbrp_pack_rects _ _ _ _) as [[x y]|] eqn:Hpack.
  - intros [= <- <- <-]. split; [done|]. intros _. right.
    eexists x, y, _, _. split; [exact Hpack|].
    split; [reflexivity|]. split; [reflexivity|].
    split; [|by repeat split].
    cbn [e_shadingType]. destruct (drawGlyphRun_colorGlyph env face glyph); [done|].
    by destruct (antialiasingMode (font (s p))).
  - intros [= <- <- <-]. split; [done|]. discriminate.
Qed.

Lemma X24_drawGlyph_outcomes_witness :
  ∃ x y w h,
    stbrp_pack_rects platform0 (stbrp_init_target 256 256) w h = Some (x, y) ∧
    e_texcoord entry_A = f32x4_of_Z x y w h.
Proof.
  assert ((_drawGlyph platform0 payload_plain 0 65 GlyphCacheEntry_new (f32_of_Z 12)
             (set_rectPacker (stbrp_init_target 256 256) BackendD3D11_new)).1
          = (true, entry_A)) as Hrun by (vm_compute; reflexivity).
  destruct (_drawGlyph platform0 payload_plain 0 65 GlyphCacheEntry_new (f32_of_Z 12)
              (set_rectPacker (stbrp_init_target 256 256) BackendD3D11_new))
    as [[drawn entry'] b'] eqn:E.
  cbn [fst] in Hrun. injection Hrun as -> ->.
  destruct (X24_drawGlyph_outcomes _ _ _ _ _ _ _ _ _ _ E) as [_ H].
  destruct (H eq_refl) as [[_ H1]|(x & y & w & h & H1 & _ & H3 & _)].
  - discriminate H1.
  - exists x, y, w, h. exact (conj H1 H3).
Defined.

(** ** The inverting cursor *)

Lemma wrap_int_small z : INT_MIN <= z <= INT_MAX -> wrap_int z = z.
Proof.
  unfold INT_MIN, INT_MAX, wrap_int. intros H. rewrite Z.mod_small by lia. lia.
Qed.

Lemma wrap_int_add_l a l : wrap_int (wrap_int a + l) = wrap_int (a + l).
Proof.
  unfold wrap_int.
  replace ((a + 2147483648) mod 4294967296 - 2147483648 + l + 2147483648)
    with ((a + 2147483648) mod 4294967296 + l) by lia.
  rewrite Zplus_mod_idemp_l. f_equal. f_equal. lia.
Qed.

(** X25: where the stride of the index cannot matter (the cursor is on the
    first row, or the grid has as many rows as columns) the fill of an
    inverting cursor is one SolidFill quad over the cursor rectangle in the
    inverted colour of the cursor's own cell, entry
    [cursorRect.top * cellCount.x + cursorRect.left] of the row-major
    background bitmap. *)
Theorem X25_inverting_cursor_fill p b c :
  batcher_wf b ->
  r_top (cursorRect p) = 0 ∨ y2 (cellCount (s p)) = x2 (cellCount (s p)) ->
  0 <= r_top (cursorRect p) * x2 (cellCount (s p)) + r_left (cursorRect p) <= INT_MAX ->
  backgroundBitmap p
    !! Z.to_nat (r_top (cursorRect p) * x2 (cellCount (s p)) + r_left (cursorRect p))
    = Some c ->
  ∃ b', Render_cursor_fill p b = Ok b' ∧
    _instancesSize b' = S (_instancesSize b) ∧
    _instances b' !! _instancesSize b =
      Some (Some (mk_QuadInstance (cursor_rect p) f32x4_zero (invertColor c) SolidFill)) ∧
    _vertexInstanceData b' = _vertexInstanceData b.
Proof.
  intros Hwf Hstride Hidx Hc.
  assert (cursor_idx p
          = r_top (cursorRect p) * x2 (cellCount (s p)) + r_left (cursorRect p)) as Hcell.
  { unfold cursor_idx. rewrite wrap_int_add_l.
    destruct Hstride as [Htop|Hsquare].
    - rewrite Htop in *. rewrite !Z.mul_0_l in *.
      apply wrap_int_small. unfold INT_MIN. lia.
    - rewrite Hsquare. apply wrap_int_small. unfold INT_MIN. lia. }
  unfold Render_cursor_fill, cursor_backgroundColorInv. cbv zeta. rewrite Hcell.
  destruct (Z.ltb_spec
    (r_top (cursorRect p) * x2 (cellCount (s p)) + r_left (cursorRect p)) 0) as [Hneg|_];
    [lia|].
  unfold vector_at. rewrite Hc, !bind_Ok. unfold _appendRect3.
  destruct (appendRect_ok (cursor_rect p) f32x4_zero (invertColor c) SolidFill b Hwf)
    as (b' & H & _ & Hn & _ & Hq).
  exists b'. split; [done|]. split; [done|]. split; [done|].
  pose proof (appendRect_frame _ _ _ _ _ _ H) as Hframe.
  by apply (f_equal _vertexInstanceData) in Hframe.
Qed.

Lemma X25_inverting_cursor_fill_witness :
  ∃ b', Render_cursor_fill payload_cursor_square BackendD3D11_new = Ok b' ∧
    _instancesSize b' = 1%nat ∧
    _instances b' !! 0%nat =
      Some (Some (mk_QuadInstance (cursor_rect payload_cursor_square) f32x4_zero
                    (invertColor 30) SolidFill)) ∧
    _vertexInstanceData b' = [].
Proof.
  apply (X25_inverting_cursor_fill payload_cursor_square BackendD3D11_new 30).
  - split; reflexivity.
  - right. reflexivity.
  - vm_compute. split; discriminate.
  - reflexivity.
Defined.

Lemma repeat_pos_fails {A : Type} (f : A -> res A) n a e :
  f a = Fail e -> repeat_pos f n a = Fail e.
Proof.
  intros H. induction n as [n IH|n IH|]; cbn [repeat_pos].
  - by rewrite H.
  - by rewrite IH.
  - done.
Qed.

Lemma cursor_backgroundColorInv_fails p f :
  cursor_backgroundColorInv p = Fail f -> f = OutOfBounds.
Proof.
  unfold cursor_backgroundColorInv. cbv zeta. destruct (_ <? _).
  - by intros [= <-].
  - unfold vector_at. destruct (_ !! _); [discriminate|]. by intros [= <-].
Qed.

Lemma inverting_cursor_scan p b :
  batcher_wf b -> _vertexInstanceData b = [] ->
  non_empty (cursorRect p) = true ->
  cursorColor (cursor (s p)) = INVALID_COLOR ->
  Render_cursor p b = Fail OutOfBounds.
Proof.
  intros Hwf Hvid Hrect Hcol. unfold Render_cursor. rewrite Hrect, Hcol, Z.eqb_refl.
  unfold Render_cursor_fill.
  destruct (cursor_backgroundColorInv p) as [c|f] eqn:Hc.
  - rewrite bind_Ok. unfold _appendRect3.
    destruct (appendRect_ok (cursor_rect p) f32x4_zero c SolidFill b Hwf)
      as (b1 & H & _).
    rewrite H, bind_Ok.
    pose proof (appendRect_frame _ _ _ _ _ _ H) as Hframe.
    apply (f_equal _vertexInstanceData) in Hframe.
    change (_vertexInstanceData b1 = _vertexInstanceData b) in Hframe.
    unfold Render_cursor_copies. cbv zeta. rewrite Hframe, Hvid.
    change (Z.to_N (wrap64 (Z.of_nat (length (@nil VertexInstanceData)) - 1)))
      with (Npos 18446744073709551615).
    cbn [repeat_N]. by rewrite (repeat_pos_fails _ _ _ OutOfBounds).
  - apply cursor_backgroundColorInv_fails in Hc as ->. done.
Qed.


(** X26: with an inverting cursor on a backend whose [_vertexInstanceData]
    is empty the cursor pass does not return: the bound [size() - 1] of its
    scan wraps around to 2^64 - 1 and the first element is read outside the
    vector (or the fill already read outside the background bitmap). *)
Theorem X26_inverting_cursor_scan p b :
  batcher_wf b -> _vertexInstanceData b = [] ->
  non_empty (cursorRect p) = true ->
  cursorColor (cursor (s p)) = INVALID_COLOR ->
  Render_cursor p b = Fail OutOfBounds.
Proof. apply inverting_cursor_scan. Qed.

Lemma X26_inverting_cursor_scan_witness :
  Render_cursor payload_cursor BackendD3D11_new = Fail OutOfBounds.
Proof.
  apply X26_inverting_cursor_scan.
  - split; reflexivity.
  - reflexivity.
  - reflexivity.
  - reflexivity.
Defined.

(** ** The text pass: a glyph that is drawn *)

(** X27: a glyph that is new to the cache and is drawn into the atlas is
    cached under its font face and glyph index with the entry [_drawGlyph]
    filled, and one quad with the texture coordinates and the shading type of
    that entry is queued; a later glyph of the same face and index finds it
    in the cache. *)
Theorem X27_drawn_glyph_is_cached
    fuel env p row m baselineY i cum b glyphIndex entry b1 st off col adv :
  (i < glyphsTo m)%nat ->
  glyphIndices row !! i = Some glyphIndex ->
  _glyphCache b !! (m_fontFace m, glyphIndex) = None ->
  _drawGlyph env p (m_fontFace m) glyphIndex GlyphCacheEntry_new (fontEmSize m)
    (before_draw (m_fontFace m) glyphIndex b) = (true, entry, b1) ->
  e_shadingType entry = Some st ->
  glyphOffsets row !! i = Some off ->
  colors row !! i = Some col ->
  glyphAdvances row !! i = Some adv ->
  batcher_wf b ->
  ∃ b',
    glyphs_loop (S fuel) env p row m baselineY i cum b
      = glyphs_loop fuel env p row m baselineY (S i) (f32_add cum adv) b' ∧
    _glyphCache b' !! (m_fontFace m, glyphIndex) = Some entry ∧
    _instancesSize b' = S (_instancesSize b) ∧
    _instances b' !! _instancesSize b =
      Some (Some (mk_QuadInstance
        (mk_f32x4
           (f32_add (f32_mul (f32_add cum (advanceOffset off)) (pixelPerDIP (d_font p)))
                    (f32_of_Z (e_offset_x entry)))
           (f32_add (f32_mul (f32_sub baselineY (ascenderOffset off)) (pixelPerDIP (d_font p)))
                    (f32_of_Z (e_offset_y entry)))
           (z4 (e_texcoord entry)) (w4 (e_texcoord entry)))
        (e_texcoord entry) col st)).
Proof.
  intros Hi Hglyph Hmiss Hdraw Hst Hoff Hcol Hadv Hwf.
  pose proof (batch_of_drawGlyph _ _ _ _ _ _ _ _ _ _ Hdraw) as Hb1.
  rewrite batch_of_before_draw in Hb1.
  set (b2 := set_glyphCache (<[(m_fontFace m, glyphIndex) := entry]> (_glyphCache b1)) b1).
  assert (batch_of b2 = batch_of b) as Hb2 by exact Hb1.
  assert (batcher_wf b2) as Hwf2 by (by apply (batcher_wf_batch_of b)).
  set (pos := mk_f32x4 _ _ _ _).
  destruct (appendRect_ok pos (e_texcoord entry) col st b2 Hwf2)
    as (b' & H & _ & Hn & _ & Hq).
  pose proof (appendRect_frame _ _ _ _ _ _ H) as Hframe.
  apply batch_of_eq in Hb2 as (_ & _ & Hn2 & _).
  exists b'. split; [|split; [|split]].
  - cbn [glyphs_loop]. rewrite decide_True by done.
    unfold vector_at at 1. rewrite Hglyph, bind_Ok.
    unfold FindOrInsert. rewrite Hmiss. fold (before_draw (m_fontFace m) glyphIndex b).
    rewrite Hdraw. fold b2.
    unfold append_glyph. rewrite Hst.
    unfold vector_at. rewrite Hoff, Hcol, Hadv, !bind_Ok.
    fold pos. by rewrite H, !bind_Ok.
  - apply (f_equal _glyphCache) in Hframe.
    change (_glyphCache b' =
            <[(m_fontFace m, glyphIndex) := entry]> (_glyphCache b1)) in Hframe.
    rewrite Hframe. apply lookup_insert_eq.
  - by rewrite Hn, Hn2.
  - by rewrite <- Hn2.
Qed.

Lemma X27_drawn_glyph_is_cached_witness :
  ∃ b',
    glyphs_loop 1 platform0 payload_plain row_A
        (mk_FontMapping 0 (f32_of_Z 12) 0 1) f32_zero 0 f32_zero backend_fresh
      = glyphs_loop 0 platform0 payload_plain row_A
          (mk_FontMapping 0 (f32_of_Z 12) 0 1) f32_zero 1
          (f32_add f32_zero (f32_of_Z 8)) b' ∧
    _glyphCache b' !! (0%nat, 65) = Some entry_A ∧
    _instancesSize b' = 1%nat.
Proof.
  assert ((_drawGlyph platform0 payload_plain 0 65 GlyphCacheEntry_new (f32_of_Z 12)
             (before_draw 0 65 backend_fresh)).1 = (true, entry_A)) as Hrun
    by (vm_compute; reflexivity).
  destruct (_drawGlyph platform0 payload_plain 0 65 GlyphCacheEntry_new (f32_of_Z 12)
              (before_draw 0 65 backend_fresh)) as [[drawn entry] b1] eqn:E.
  cbn [fst] in Hrun. injection Hrun as -> ->.
  destruct (X27_drawn_glyph_is_cached 0 platform0 payload_plain row_A
              (mk_FontMapping 0 (f32_of_Z 12) 0 1) f32_zero 0 f32_zero backend_fresh
              65 entry_A b1 TextGrayscale (mk_GlyphOffset f32_zero f32_zero)
              16777215 (f32_of_Z 8))
    as (b' & H1 & H2 & H3 & _).
  - vm_compute. lia.
  - reflexivity.
  - vm_compute. reflexivity.
  - exact E.
  - reflexivity.
  - reflexivity.
  - reflexivity.
  - reflexivity.
  - split; reflexivity.
  - exists b'. exact (conj H1 (conj H2 H3)).
Defined.

(** ** The custom shader after a refresh *)

Lemma is_set_set_renderParams t v b : is_set t (set_renderParams v b) = is_set t b.
Proof. reflexivity. Qed.

Lemma is_set_set_generation t v b : is_set t (set_generation v b) = is_set t b.
Proof. reflexivity. Qed.

Lemma is_set_set_fontGeneration t v b : is_set t (set_fontGeneration v b) = is_set t b.
Proof. reflexivity. Qed.

Lemma is_set_set_miscGeneration t v b : is_set t (set_miscGeneration v b) = is_set t b.
Proof. reflexivity. Qed.

Lemma is_set_set_cellCount t v b : is_set t (set_cellCount v b) = is_set t b.
Proof. reflexivity. Qed.

Lemma is_set_recreateConstBuffer t b : is_set t (_recreateConstBuffer b) = is_set t b.
Proof. reflexivity. Qed.

Lemma is_set_d2dRenderTargetUpdateFontSettings t b :
  is_set t (_d2dRenderTargetUpdateFontSettings b) = is_set t b.
Proof. reflexivity. Qed.

Lemma is_set_recreateBackgroundColorBitmap t p b :
  t ≠ _backgroundBitmap -> t ≠ _backgroundBitmapView ->
  is_set t (_recreateBackgroundColorBitmap p b) = is_set t b.
Proof.
  intros H1 H2. unfold _recreateBackgroundColorBitmap. cbv zeta.
  by rewrite !is_set_put_ne, !is_set_reset_ne, is_set_call by done.
Qed.

Lemma recreateCustomOffscreenTexture_objects p b :
  let b' := _recreateCustomOffscreenTexture p b in
  is_set _customOffscreenTexture b' = has_shader_path p || is_set _customOffscreenTexture b ∧
  is_set _customOffscreenTextureView b'
    = has_shader_path p || is_set _customOffscreenTextureView b ∧
  is_set _customOffscreenTextureTargetView b'
    = has_shader_path p || is_set _customOffscreenTextureTargetView b ∧
  is_set _customPixelShader b' = is_set _customPixelShader b.
Proof.
  unfold _recreateCustomOffscreenTexture, has_shader_path. cbv zeta.
  destruct (customPixelShaderPath (misc (s p))); is_set_simpl; repeat split.
Qed.

Lemma recreateCustomShader_objects env p b :
  let b' := _recreateCustomShader env p b in
  is_set _customPixelShader b' =
    match customPixelShaderPath (misc (s p)) with
    | _ :: _ => compileSucceeded env
    | [] => useRetroTerminalEffect (misc (s p))
    end ∧
  is_set _customOffscreenTexture b' = false ∧
  is_set _customOffscreenTextureView b' = false ∧
  is_set _customOffscreenTextureTargetView b' = false.
Proof.
  unfold _recreateCustomShader. cbv zeta.
  destruct (customPixelShaderPath (misc (s p))) as [|c path].
  - destruct (useRetroTerminalEffect (misc (s p))); is_set_simpl; repeat split.
  - destruct (compileSucceeded env).
    + destruct (reflection env); is_set_simpl; repeat split.
    + destruct (has_warningCallback p); is_set_simpl; repeat split.
Qed.

(** X28: after a refresh that saw a new misc generation the custom offscreen
    texture and its two views exist exactly when the settings name a shader
    file, whether or not that shader compiled, and not for the retro effect;
    the custom pixel shader exists when the named shader compiled, or no
    shader is named and the retro effect is on. *)
Theorem X28_offscreen_texture_follows_path env p b :
  _generation b ≠ generation (s p) ->
  _miscGeneration b ≠ misc_generation (s p) ->
  let b' := Render_refresh env p b in
  is_set _customOffscreenTexture b' = has_shader_path p ∧
  is_set _customOffscreenTextureView b' = has_shader_path p ∧
  is_set _customOffscreenTextureTargetView b' = has_shader_path p ∧
  is_set _customPixelShader b' =
    match customPixelShaderPath (misc (s p)) with
    | _ :: _ => compileSucceeded env
    | [] => useRetroTerminalEffect (misc (s p))
    end.
Proof.
  intros Hgen Hmisc. unfold Render_refresh.
  rewrite (proj2 (Z.eqb_neq _ _) Hgen). cbv iota.
  match goal with |- context [_targetSize ?x] => set (b3 := x) end.
  assert (observed b3 = observed b) as H3 by (unfold b3; repeat observed_step).
  clearbody b3. injection H3 as Ef Em Et Ec Er. rewrite Ef, Em, Et, Ec.
  rewrite (proj2 (Z.eqb_neq _ _) Hmisc). cbn [negb]. rewrite orb_true_r.
  cbv zeta.
  set (b4 := if negb (_fontGeneration b =? font_generation (s p)) then _ else b3).
  clearbody b4.
  set (b5 := _recreateCustomShader env p (_recreateBackgroundBitmapSamplerState b4)).
  destruct (recreateCustomShader_objects env p (_recreateBackgroundBitmapSamplerState b4))
    as (S1 & S2 & S3 & S4). fold b5 in S1, S2, S3, S4. clearbody b5.
  set (b6 := if negb (u16x2_eqb (_cellCount b) (cellCount (s p))) then _ else b5).
  assert (is_set _customPixelShader b6 = is_set _customPixelShader b5 ∧
          is_set _customOffscreenTexture b6 = is_set _customOffscreenTexture b5 ∧
          is_set _customOffscreenTextureView b6 = is_set _customOffscreenTextureView b5 ∧
          is_set _customOffscreenTextureTargetView b6
            = is_set _customOffscreenTextureTargetView b5) as (T1 & T2 & T3 & T4).
  { unfold b6. destruct (negb _); [|done].
    by rewrite !is_set_recreateBackgroundColorBitmap by discriminate. }
  clearbody b6.
  destruct (recreateCustomOffscreenTexture_objects p b6) as (U1 & U2 & U3 & U4).
  set (b7 := _recreateCustomOffscreenTexture p b6) in *. clearbody b7.
  rewrite !is_set_set_cellCount, !is_set_set_miscGeneration,
    !is_set_set_fontGeneration, !is_set_set_generation.
  assert (∀ t, is_set t (if negb (u16x2_eqb (_targetSize b) (targetSize (s p)))
                            || negb (_fontGeneration b =? font_generation (s p))
                         then _recreateConstBuffer b7 else b7) = is_set t b7) as V.
  { intros t. destruct (negb (u16x2_eqb (_targetSize b) (targetSize (s p)))
                          || negb (_fontGeneration b =? font_generation (s p)));
      reflexivity. }
  rewrite !V, U1, U2, U3, U4, T1, T2, T3, T4, S1, S2, S3, S4, !orb_false_r. done.
Qed.

Lemma X28_offscreen_texture_follows_path_witness :
  is_set _customOffscreenTexture
    (Render_refresh platform_no_compile payload_shader BackendD3D11_new) = true ∧
  is_set _customPixelShader
    (Render_refresh platform_no_compile payload_shader BackendD3D11_new) = false.
Proof.
  destruct (X28_offscreen_texture_follows_path platform_no_compile payload_shader
              BackendD3D11_new) as (H1 & _ & _ & H4).
  - vm_compute. discriminate.
  - vm_compute. discriminate.
  - exact (conj H1 H4).
Defined.

(** ** The vector [_vertexInstanceData] through a frame *)

Lemma vid_let (e : BackendD3D11) (f : BackendD3D11 -> BackendD3D11) b0 :
  _vertexInstanceData e = _vertexInstanceData b0 ->
  (∀ b, _vertexInstanceData b = _vertexInstanceData b0 ->
        _vertexInstanceData (f b) = _vertexInstanceData b0) ->
  _vertexInstanceData (let b := e in f b) = _vertexInstanceData b0.
Proof. intros H1 H2. by apply H2. Qed.

Lemma vid_let_value {A} (e : A) (f : A -> BackendD3D11) b0 :
  (∀ a, _vertexInstanceData (f a) = _vertexInstanceData b0) ->
  _vertexInstanceData (let a := e in f a) = _vertexInstanceData b0.
Proof. intros H. apply H. Qed.

(** [_vertexInstanceData] of an expression, read off along its chain of
    [let]s: no setter of the refresh or of the atlas reset writes it. *)
Ltac vid_step :=
  first
    [ lazymatch goal with
      | |- _vertexInstanceData (let x := ?e in @?f x) = _vertexInstanceData ?b0 =>
          lazymatch type of e with
          | BackendD3D11 => refine (vid_let e f b0 _ _); [ | intros ? ?; cbv beta ]
          | _ => refine (vid_let_value e f b0 _); intros ?; cbv beta
          end
      | |- _vertexInstanceData (if ?c then _ else _) = _ => destruct c
      | |- _vertexInstanceData (match ?c with _ => _ end) = _ => destruct c
      | |- _vertexInstanceData (call _ ?b) = ?R => change (_vertexInstanceData b = R)
      | |- _vertexInstanceData (put _ _ ?b) = ?R => change (_vertexInstanceData b = R)
      | |- _vertexInstanceData (reset _ ?b) = ?R => change (_vertexInstanceData b = R)
      | |- _vertexInstanceData (set_ptrs _ ?b) = ?R => change (_vertexInstanceData b = R)
      | |- _vertexInstanceData (set_brushColor _ ?b) = ?R =>
          change (_vertexInstanceData b = R)
      | |- _vertexInstanceData (set_glyphCache _ ?b) = ?R =>
          change (_vertexInstanceData b = R)
      | |- _vertexInstanceData (set_rectPacker _ ?b) = ?R =>
          change (_vertexInstanceData b = R)
      | |- _vertexInstanceData (set_beganDrawing _ ?b) = ?R =>
          change (_vertexInstanceData b = R)
      | |- _vertexInstanceData (set_renderParams _ ?b) = ?R =>
          change (_vertexInstanceData b = R)
      | |- _vertexInstanceData (set_requiresContinuousRedraw _ ?b) = ?R =>
          change (_vertexInstanceData b = R)
      | |- _vertexInstanceData (set_generation _ ?b) = ?R =>
          change (_vertexInstanceData b = R)
      | |- _vertexInstanceData (set_fontGeneration _ ?b) = ?R =>
          change (_vertexInstanceData b = R)
      | |- _vertexInstanceData (set_miscGeneration _ ?b) = ?R =>
          change (_vertexInstanceData b = R)
      | |- _vertexInstanceData (set_cellCount _ ?b) = ?R =>
          change (_vertexInstanceData b = R)
      | |- _vertexInstanceData (_beginDrawing ?b) = ?R => unfold _beginDrawing
      | |- _vertexInstanceData (_endDrawing ?b) = ?R => unfold _endDrawing
      end
    | assumption
    | reflexivity ].

Lemma vid_Render_refresh env p b :
  _vertexInstanceData (Render_refresh env p b) = _vertexInstanceData b.
Proof.
  cbv beta delta [Render_refresh _recreateCustomShader
    _recreateBackgroundBitmapSamplerState _recreateBackgroundColorBitmap
    _recreateCustomOffscreenTexture _recreateConstBuffer
    _d2dRenderTargetUpdateFontSettings].
  repeat vid_step.
Qed.

Lemma vid_resetAtlasAndBeginDraw p b :
  _vertexInstanceData (_resetAtlasAndBeginDraw p b) = _vertexInstanceData b.
Proof.
  cbv beta delta [_resetAtlasAndBeginDraw recreate_atlas
                    _d2dRenderTargetUpdateFontSettings].
  repeat vid_step.
Qed.

Lemma vid_appendRect pos tex col st b b' :
  _appendRect pos tex col st b = Ok b' -> _vertexInstanceData b' = _vertexInstanceData b.
Proof. intros H%appendRect_frame. by apply (f_equal _vertexInstanceData) in H. Qed.

Lemma vid_flushRects p b b' :
  _flushRects p b = Ok b' -> _vertexInstanceData b' = _vertexInstanceData b.
Proof.
  unfold _flushRects.
  destruct (decide (_instancesSize b = 0)%nat) as [Hz|Hz]; [by intros [= <-]|].
  intros H. apply bind_Ok_inv in H as (b1 & H1 & H).
  apply bind_Ok_inv in H as (b2 & H2 & H).
  apply bind_Ok_inv in H as (l1 & _ & H).
  apply bind_Ok_inv in H as (l2 & _ & [= <-]).
  assert (_vertexInstanceData b1 = _vertexInstanceData b) as E1.
  { destruct (decide (_instanceBufferSize b < _instancesSize b)%nat);
      [|by injection H1 as <-].
    by apply bind_Ok_inv in H1 as (w & _ & [= <-]). }
  assert (_vertexInstanceData b2 = _vertexInstanceData b1) as E2.
  { destruct (decide (_indexBufferSize b1 < _indicesSize b1)%nat);
      [|by injection H2 as <-].
    by apply bind_Ok_inv in H2 as (w & _ & [= <-]). }
  change (_vertexInstanceData b2 = _vertexInstanceData b). congruence.
Qed.

Lemma vid_Render_background p b b' :
  Render_background p b = Ok b' -> _vertexInstanceData b' = _vertexInstanceData b.
Proof.
  unfold Render_background. intros H.
  apply bind_Ok_inv in H as (b1 & H1 & H).
  apply vid_appendRect in H. rewrite H.
  change (_vertexInstanceData b1 = _vertexInstanceData b).
  apply (for_each_inv _vertexInstanceData) in H1; [exact H1|].
  intros i a a'. unfold copy_background_row. case_decide; [|discriminate].
  by intros [= <-].
Qed.

Lemma vid_drawGlyph env p face glyph entry em b drawn entry' b' :
  _drawGlyph env p face glyph entry em b = (drawn, entry', b') ->
  _vertexInstanceData b' = _vertexInstanceData b.
Proof.
  unfold _drawGlyph. destruct (_ || _); [by intros [= _ _ <-]|].
  cbv zeta. by destruct (stbrp_pack_rects _ _ _ _) as [[x y]|]; intros [= _ _ <-].
Qed.

Lemma vid_append_glyph p row baselineY i entry cum b cum' b' :
  append_glyph p row baselineY i entry cum b = Ok (cum', b') ->
  _vertexInstanceData b' = _vertexInstanceData b.
Proof.
  unfold append_glyph. intros H.
  apply bind_Ok_inv in H as (b1 & H1 & H).
  apply bind_Ok_inv in H as (adv & _ & [= _ <-]).
  destruct (e_shadingType entry); [|by injection H1 as <-].
  apply bind_Ok_inv in H1 as (off & _ & H1).
  apply bind_Ok_inv in H1 as (col & _ & H1).
  by apply vid_appendRect in H1.
Qed.

Lemma vid_retry_after_pack_failure p b b' :
  retry_after_pack_failure p b = Ok b' ->
  _vertexInstanceData b' = _vertexInstanceData b.
Proof.
  unfold retry_after_pack_failure. intros H.
  apply bind_Ok_inv in H as (b1 & H1 & [= <-]).
  rewrite vid_resetAtlasAndBeginDraw. apply vid_flushRects in H1. rewrite H1.
  unfold _endDrawing. by destruct (beganDrawing b).
Qed.

Lemma vid_glyphs_loop fuel env p row m baselineY i cum b cum' b' :
  glyphs_loop fuel env p row m baselineY i cum b = Ok (cum', b') ->
  _vertexInstanceData b' = _vertexInstanceData b.
Proof.
  revert i cum b. induction fuel as [|fuel IH]; intros i cum b H; simpl in H.
  - case_decide; [discriminate|]. by injection H as _ <-.
  - case_decide; [|by injection H as _ <-].
    apply bind_Ok_inv in H as (glyphIndex & _ & H).
    destruct (FindOrInsert _ _ _) as [[entry inserted] cache].
    destruct inserted.
    + destruct (_drawGlyph _ _ _ _ _ _ _) as [[drawn entry'] b1] eqn:Hd.
      apply vid_drawGlyph in Hd.
      assert (_vertexInstanceData b1 = _vertexInstanceData b) as Hb1.
      { rewrite Hd. unfold _beginDrawing. by destruct (beganDrawing _). }
      destruct drawn.
      * apply bind_Ok_inv in H as ([cum1 b2] & H1 & H).
        apply vid_append_glyph in H1. apply IH in H. rewrite H, H1. exact Hb1.
      * apply bind_Ok_inv in H as (b2 & H1 & H).
        apply vid_retry_after_pack_failure in H1. apply IH in H. congruence.
    + apply bind_Ok_inv in H as ([cum1 b2] & H1 & H).
      apply vid_append_glyph in H1. apply IH in H. rewrite H, H1. done.
Qed.

Lemma vid_Render_text fuel env p b b' :
  Render_text fuel env p b = Ok b' -> _vertexInstanceData b' = _vertexInstanceData b.
Proof.
  unfold Render_text. intros H.
  apply bind_Ok_inv in H as (b1 & H1 & [= <-]).
  assert (_vertexInstanceData b1 = _vertexInstanceData b) as <-.
  { apply (for_rows_inv _vertexInstanceData) in H1.
    - rewrite H1. destruct (is_set _glyphAtlas b); [done|].
      apply vid_resetAtlasAndBeginDraw.
    - clear. intros y row a a'. unfold text_row. intros H.
      apply bind_Ok_inv in H as ([cum b1] & H1 & [= <-]).
      apply (for_each_inv (fun st : f32 * BackendD3D11 => _vertexInstanceData st.2)) in H1;
        [done|].
      clear. intros m [cum b] [cum' b']. apply vid_glyphs_loop. }
  by destruct (beganDrawing b1).
Qed.

Lemma vid_Render_gridLines p b b' :
  Render_gridLines p b = Ok b' -> _vertexInstanceData b' = _vertexInstanceData b.
Proof.
  unfold Render_gridLines. apply (for_rows_inv _vertexInstanceData).
  intros y row a a'. apply (for_each_inv _vertexInstanceData).
  clear. intros r a a'. unfold gridLine_range. cbv zeta. intros H.
  assert (∀ g pos st b b', line_if r g pos st b = Ok b' ->
            _vertexInstanceData b' = _vertexInstanceData b) as Hline.
  { clear. intros g pos st b b'. unfold line_if, _appendRect3.
    destruct (lines r g); [apply vid_appendRect|by intros [= <-]]. }
  repeat (apply bind_Ok_inv in H as (? & ?%Hline & H)).
  apply Hline in H. congruence.
Qed.

(** X29: a frame with a cursor that is not empty and inverts (its colour is
    [INVALID_COLOR]) does not return when [_vertexInstanceData] is empty, as
    it is on a new backend and after every frame: no pass before the cursor
    pass puts anything into that vector, and the cursor pass then reads
    outside it. *)
Theorem X29_inverting_cursor_frame fuel env p b :
  batcher_wf b -> _vertexInstanceData b = [] ->
  non_empty (cursorRect p) = true ->
  cursorColor (cursor (s p)) = INVALID_COLOR ->
  is_Ok (Render fuel env p b) = false.
Proof.
  intros Hwf Hvid Hrect Hcol.
  destruct (Render fuel env p b) as [b'|e] eqn:H; [exfalso|reflexivity].
  unfold Render, Render_draw in H.
  apply (batcher_wf_batch_of _ _ (batch_of_Render_refresh env p b)) in Hwf.
  apply (Render_setup_wf p) in Hwf.
  rewrite <- (vid_Render_refresh env p b) in Hvid.
  change (_vertexInstanceData (Render_setup p (Render_refresh env p b)) = []) in Hvid.
  apply bind_Ok_inv in H as (b1 & H1 & H).
  pose proof (Render_background_wf _ _ _ Hwf H1) as Hwf1.
  apply vid_Render_background in H1.
  apply bind_Ok_inv in H as (b2 & H2 & H).
  pose proof (Render_text_wf _ _ _ _ _ Hwf1 H2) as Hwf2.
  apply vid_Render_text in H2.
  apply bind_Ok_inv in H as (b3 & H3 & H).
  pose proof (Render_gridLines_wf _ _ _ Hwf2 H3) as Hwf3.
  apply vid_Render_gridLines in H3.
  apply bind_Ok_inv in H as (b4 & H4 & _).
  rewrite inverting_cursor_scan in H4; [discriminate|done|congruence|done|done].
Qed.

Lemma X29_inverting_cursor_frame_witness :
  is_Ok (Render 4 platform0 payload_cursor BackendD3D11_new) = false.
Proof.
  apply X29_inverting_cursor_frame.
  - split; reflexivity.
  - reflexivity.
  - reflexivity.
  - reflexivity.
Defined.

Lemma vid_Render_selection p b b' :
  Render_selection p b = Ok b' -> _vertexInstanceData b' = _vertexInstanceData b.
Proof.
  unfold Render_selection. apply (for_rows_inv _vertexInstanceData).
  intros y row a a'. unfold selection_row.
  destruct (_ <? _); [apply vid_appendRect|by intros [= <-]].
Qed.

(** X30: [_vertexInstanceData] stays empty: a frame that starts with the vector
    empty and returns leaves it empty.  Nothing but the cursor pass writes the
    vector, and that pass only copies elements it has found there. *)
Theorem X30_vertexInstanceData_stays_empty fuel env p b b' :
  batcher_wf b -> _vertexInstanceData b = [] ->
  Render fuel env p b = Ok b' ->
  _vertexInstanceData b' = [].
Proof.
  intros Hwf Hvid H. unfold Render, Render_draw in H.
  apply (batcher_wf_batch_of _ _ (batch_of_Render_refresh env p b)) in Hwf.
  apply (Render_setup_wf p) in Hwf.
  rewrite <- (vid_Render_refresh env p b) in Hvid.
  change (_vertexInstanceData (Render_setup p (Render_refresh env p b)) = []) in Hvid.
  apply bind_Ok_inv in H as (b1 & H1 & H).
  pose proof (Render_background_wf _ _ _ Hwf H1) as Hwf1.
  apply vid_Render_background in H1.
  apply bind_Ok_inv in H as (b2 & H2 & H).
  pose proof (Render_text_wf _ _ _ _ _ Hwf1 H2) as Hwf2.
  apply vid_Render_text in H2.
  apply bind_Ok_inv in H as (b3 & H3 & H).
  pose proof (Render_gridLines_wf _ _ _ Hwf2 H3) as Hwf3.
  apply vid_Render_gridLines in H3.
  apply bind_Ok_inv in H as (b4 & H4 & H).
  assert (_vertexInstanceData b3 = []) as Hvid3 by congruence.
  assert (_vertexInstanceData b4 = []) as Hvid4.
  { destruct (non_empty (cursorRect p)) eqn:Hrect;
      [|unfold Render_cursor in H4; rewrite Hrect in H4; by injection H4 as <-].
    destruct (cursorColor (cursor (s p)) =? INVALID_COLOR) eqn:Hcol.
    - apply Z.eqb_eq in Hcol.
      by rewrite (inverting_cursor_scan p b3 Hwf3 Hvid3 Hrect Hcol) in H4.
    - unfold Render_cursor in H4. rewrite Hrect, Hcol in H4.
      apply vid_appendRect in H4. congruence. }
  apply bind_Ok_inv in H as (b5 & H5 & H). apply vid_Render_selection in H5.
  apply bind_Ok_inv in H as (b6 & H6 & [= <-]). apply vid_flushRects in H6.
  change (_vertexInstanceData b6 = []). congruence.
Qed.

Lemma X30_vertexInstanceData_stays_empty_witness :
  _vertexInstanceData backend_after_frame = [].
Proof.
  apply (X30_vertexInstanceData_stays_empty 8 platform0 payload_plain BackendD3D11_new).
  - split; reflexivity.
  - reflexivity.
  - apply res_get_Ok. vm_compute. reflexivity.
Defined.
